(** * The number guessing game: DOM script and React component

    A shallow embedding of the game logic of the repository, once for the
    plain DOM script (the file that [Game.tsx] calls [script.js]) and once
    for the React component [src/app/components/Game.tsx], followed by the
    properties of the specification that were checked against them.

    Conventions of the embedding.
    - A JavaScript number that holds an integer is a [Z]; [NaN] is [None].
      Every integer the game compares or prints is far below 2^53, where
      doubles are exact.  [parseInt] returns the mathematical integer of the
      digits it reads; for more than 53 bits JavaScript rounds that integer
      to a double, which never moves it across a level bound.  A property
      that states the number read carries the bound [2^53].
    - [Math.random()] is a rational [rnd] handed to [startGame]; the product
      and the floor of [getRandomNumber] are taken exactly.  The code rounds
      the product to a double, which can carry it up to the next integer:
      for some random numbers the code draws the value above the one
      computed here, never a value out of the range.  [Double] has the draw
      with the rounding, and the two are compared below.
    - A JavaScript string is a [string]: the bytes of its UTF-8 encoding.
    - The document is a record of the nodes the script writes and later
      reads or shows: the visible screen, the feedback line, the chips of
      the history container, the guess input and the pending timers.  The
      scoreboard and range labels only mirror [gameState] and the level
      table; they are kept apart from the game, in [Page], as is the theme,
      in [Theme].  Audio and volume are left out.
    - The handlers are given the value of the guess input, whatever it is.
      The input of the component is of type number, whose value is empty or
      a valid floating-point number: [NumberInput] has these.  The markup
      of the DOM script is not among the sources. *)

From Stdlib Require Import ZArith QArith Qround String Ascii List Bool Lia.
From Stdlib Require Import DecimalString.
From Stdlib Require DecimalPos.
Import ListNotations.

Local Open Scope string_scope.
Local Open Scope Z_scope.

(** ** Level configuration (identical in both files) *)

Inductive Level : Set := easy | medium | hard.

Record LevelConfig : Set := mkLevelConfig {
  name : string;
  min : Z;
  max : Z;
  maxAttempts : Z;
  bonusThreshold : Z;
  baseScore : Z;
  bonusScore : Z
}.

Definition LEVELS (level : Level) : LevelConfig :=
  match level with
  | easy => mkLevelConfig "Easy" 1 50 10 5 10 5
  | medium => mkLevelConfig "Medium" 1 75 7 4 10 5
  | hard => mkLevelConfig "Hard" 1 100 5 3 10 5
  end.

(** ** JavaScript primitives used by the game *)

(** Template-literal rendering of an integer number. *)
Definition numToString (z : Z) : string :=
  NilZero.string_of_int (Z.to_int z).

(** [Math.floor(Math.random() * (max - min + 1)) + min]. *)
Definition getRandomNumber (rnd : Q) (min max : Z) : Z :=
  Qfloor (rnd * inject_Z (max - min + 1)) + min.

Module JS.

(** White space and line terminators that [parseInt] skips, one byte long:
    TAB, LF, VT, FF, CR and SP. *)
Definition isSpace1 (c : ascii) : bool :=
  let n := N_of_ascii c in
  ((n =? 9) || (n =? 10) || (n =? 11) || (n =? 12) || (n =? 13) || (n =? 32))%N.

(** U+00A0 is C2 A0. *)
Definition isSpace2 (c1 c2 : ascii) : bool :=
  ((N_of_ascii c1 =? 194) && (N_of_ascii c2 =? 160))%N.

(** U+1680, U+2000..U+200A, U+2028, U+2029, U+202F, U+205F, U+3000 and
    U+FEFF in UTF-8. *)
Definition isSpace3 (c1 c2 c3 : ascii) : bool :=
  let a := N_of_ascii c1 in
  let b := N_of_ascii c2 in
  let c := N_of_ascii c3 in
  (((a =? 225) && (b =? 154) && (c =? 128))
   || ((a =? 226) && (b =? 128)
       && (((128 <=? c) && (c <=? 138)) || (c =? 168) || (c =? 169) || (c =? 175)))
   || ((a =? 226) && (b =? 129) && (c =? 159))
   || ((a =? 227) && (b =? 128) && (c =? 128))
   || ((a =? 239) && (b =? 187) && (c =? 191)))%N.

Fixpoint trimStart (s : string) : string :=
  match s with
  | EmptyString => s
  | String c1 r1 =>
      if isSpace1 c1 then trimStart r1
      else
        match r1 with
        | EmptyString => s
        | String c2 r2 =>
            if isSpace2 c1 c2 then trimStart r2
            else
              match r2 with
              | EmptyString => s
              | String c3 r3 => if isSpace3 c1 c2 c3 then trimStart r3 else s
              end
        end
  end.

(** Value of a character as a digit: 0-9, then a-z and A-Z for 10..35. *)
Definition digitValue (c : ascii) : option Z :=
  let n := Z.of_N (N_of_ascii c) in
  if (48 <=? n) && (n <=? 57) then Some (n - 48)
  else if (97 <=? n) && (n <=? 122) then Some (n - 87)
  else if (65 <=? n) && (n <=? 90) then Some (n - 55)
  else None.

(** The longest prefix of radix-[R] digits, folded into its value.  [acc]
    is [None] until a first digit has been read. *)
Fixpoint readDigits (R : Z) (s : string) (acc : option Z) : option Z :=
  match s with
  | EmptyString => acc
  | String c r =>
      match digitValue c with
      | Some d =>
          if d <? R
          then readDigits R r (Some (R * match acc with Some a => a | None => 0 end + d))
          else acc
      | None => acc
      end
  end.

(** One leading sign. *)
Definition stripSign (s : string) : Z * string :=
  match s with
  | String "-" r => (-1, r)
  | String "+" r => (1, r)
  | _ => (1, s)
  end.

(** With the radix undefined, [0x] or [0X] selects radix 16. *)
Definition stripPrefix (s : string) : Z * string :=
  match s with
  | String "0" (String "x" r) => (16, r)
  | String "0" (String "X" r) => (16, r)
  | _ => (10, s)
  end.

(** [parseInt(string)] with the radix left undefined: skip leading white
    space, take one sign, switch to radix 16 after [0x] or [0X], read the
    digits up to the first character that is none, and answer [NaN] when
    there is no digit. *)
Definition parseInt (input : string) : option Z :=
  let '(sign, s1) := stripSign (trimStart input) in
  let '(R, s2) := stripPrefix s1 in
  match readDigits R s2 None with
  | None => None
  | Some mathInt => Some (sign * mathInt)
  end.

(** [a === b] where [b] may be [null]. *)
Definition strictEq (a : Z) (b : option Z) : bool :=
  match b with
  | Some b => a =? b
  | None => false
  end.

(** [ToNumber] of a number or [null], as the relational operators apply it. *)
Definition toNumber (b : option Z) : Z :=
  match b with
  | Some b => b
  | None => 0
  end.

(** Template-literal rendering of a number or [null]. *)
Definition showNullable (b : option Z) : string :=
  match b with
  | Some b => numToString b
  | None => "null"
  end.

End JS.

(** ** Completions: a call returns, or throws a [TypeError] part-way *)

Inductive Completion (A : Type) : Type :=
| Normal (a : A)
| TypeError (a : A).
Arguments Normal {A} a.
Arguments TypeError {A} a.

(** Sequencing: what follows a throw does not run. *)
Definition bind {A : Type} (c : Completion A) (k : A -> Completion A) : Completion A :=
  match c with
  | Normal a => k a
  | TypeError a => TypeError a
  end.

Notation "x <- c ;; k" := (bind c (fun x => k))
  (at level 61, c at next level, right associativity).

(** The state a completion carries, thrown or not. *)
Definition stateOf {A : Type} (c : Completion A) : A :=
  match c with
  | Normal a => a
  | TypeError a => a
  end.

(** ** The DOM script *)

Module Script.

Record GameState : Type := mkGameState {
  currentLevel : option Level;
  targetNumber : option Z;
  attemptsUsed : Z;
  totalScore : Z;
  guessHistory : list string;
  isGameActive : bool
}.

(** [let gameState = { ... }] at load time. *)
Definition initialGameState : GameState :=
  mkGameState None None 0 0 [] false.

Inductive ScreenId : Set := levelScreen | gameScreen | resultScreen.

(** Text written by [showResultScreen]. *)
Record ResultView : Type := mkResultView {
  resultIcon : string;
  resultTitle : string;
  resultMessage : string;
  scoreEarnedText : string;
  targetNumberText : string;
  finalAttemptsText : string
}.

(** A pending [setTimeout(() => showResultScreen(won, scoreEarned, bonusEarned), 1500)]. *)
Record ResultCall : Type := mkResultCall {
  rcWon : bool;
  rcScoreEarned : Z;
  rcBonusEarned : bool
}.

Record Document : Type := mkDocument {
  screen : ScreenId;
  feedbackText : string;       (* #feedbackMessage textContent *)
  feedbackClass : string;      (* #feedbackMessage className *)
  historyChips : list string;  (* textContent of the children of #guessHistory *)
  inputValue : string;         (* #guessInput value *)
  resultView : option ResultView;
  timers : list ResultCall     (* callbacks waiting in the timer queue of the window *)
}.

Record World : Type := mkWorld {
  gameState : GameState;
  document : Document
}.

(** Field updates. *)
Definition setCurrentLevel (v : option Level) (g : GameState) : GameState :=
  mkGameState v (targetNumber g) (attemptsUsed g) (totalScore g) (guessHistory g) (isGameActive g).
Definition setTargetNumber (v : option Z) (g : GameState) : GameState :=
  mkGameState (currentLevel g) v (attemptsUsed g) (totalScore g) (guessHistory g) (isGameActive g).
Definition setAttemptsUsed (v : Z) (g : GameState) : GameState :=
  mkGameState (currentLevel g) (targetNumber g) v (totalScore g) (guessHistory g) (isGameActive g).
Definition setTotalScore (v : Z) (g : GameState) : GameState :=
  mkGameState (currentLevel g) (targetNumber g) (attemptsUsed g) v (guessHistory g) (isGameActive g).
Definition setGuessHistory (v : list string) (g : GameState) : GameState :=
  mkGameState (currentLevel g) (targetNumber g) (attemptsUsed g) (totalScore g) v (isGameActive g).
Definition setIsGameActive (v : bool) (g : GameState) : GameState :=
  mkGameState (currentLevel g) (targetNumber g) (attemptsUsed g) (totalScore g) (guessHistory g) v.

Definition setScreen (v : ScreenId) (d : Document) : Document :=
  mkDocument v (feedbackText d) (feedbackClass d) (historyChips d) (inputValue d) (resultView d) (timers d).
Definition setFeedback (text cls : string) (d : Document) : Document :=
  mkDocument (screen d) text cls (historyChips d) (inputValue d) (resultView d) (timers d).
Definition setHistoryChips (v : list string) (d : Document) : Document :=
  mkDocument (screen d) (feedbackText d) (feedbackClass d) v (inputValue d) (resultView d) (timers d).
Definition setInputValue (v : string) (d : Document) : Document :=
  mkDocument (screen d) (feedbackText d) (feedbackClass d) (historyChips d) v (resultView d) (timers d).
Definition setResultView (v : option ResultView) (d : Document) : Document :=
  mkDocument (screen d) (feedbackText d) (feedbackClass d) (historyChips d) (inputValue d) v (timers d).
Definition setTimers (v : list ResultCall) (d : Document) : Document :=
  mkDocument (screen d) (feedbackText d) (feedbackClass d) (historyChips d) (inputValue d) (resultView d) v.

Definition onGameState (f : GameState -> GameState) (w : World) : World :=
  mkWorld (f (gameState w)) (document w).
Definition onDocument (f : Document -> Document) (w : World) : World :=
  mkWorld (gameState w) (f (document w)).

(** *** Screen and feedback helpers *)

Definition showScreen (screenId : ScreenId) : World -> World :=
  onDocument (setScreen screenId).

Definition resetFeedback : World -> World :=
  onDocument (setFeedback "Make your first guess!" "feedback-message").

Definition clearGuessHistory : World -> World :=
  onDocument (setHistoryChips []).

Definition showFeedback (message type : string) : World -> World :=
  onDocument (setFeedback message ("feedback-message " ++ type)).

Definition setTimeout (call : ResultCall) : World -> World :=
  onDocument (fun d => setTimers (timers d ++ [call])%list d).

(** *** Game initialisation *)

Definition startGame (rnd : Q) (level : Level) (w : World) : World :=
  let config := LEVELS level in
  let w := onGameState (setCurrentLevel (Some level)) w in
  let w := onGameState (setTargetNumber (Some (getRandomNumber rnd (min config) (max config)))) w in
  let w := onGameState (setAttemptsUsed 0) w in
  let w := onGameState (setGuessHistory []) w in
  let w := onGameState (setIsGameActive true) w in
  let w := resetFeedback w in
  let w := clearGuessHistory w in
  let w := showScreen gameScreen w in
  onDocument (setInputValue "") w.

(** *** Result screen *)

(** [node.textContent = v] where [v] is a number or [null]: a number is
    written as its string, [null] leaves the node without text. *)
Definition textContent (v : option Z) : string :=
  match v with
  | Some v => numToString v
  | None => ""
  end.

Definition showResultScreen (call : ResultCall) (w : World) : World :=
  let view :=
    if rcWon call then
      mkResultView "🎉" "Congratulations!"
        (if rcBonusEarned call
         then "Amazing! You guessed the number quickly and earned a bonus!"
         else "You guessed the number correctly!")
        ("+" ++ numToString (rcScoreEarned call))
        (textContent (targetNumber (gameState w)))
        (numToString (attemptsUsed (gameState w)))
    else
      mkResultView "😢" "Game Over"
        "Don't give up! Try again to improve your score."
        "+0"
        (textContent (targetNumber (gameState w)))
        (numToString (attemptsUsed (gameState w))) in
  showScreen resultScreen (onDocument (setResultView (Some view)) w).

(** The oldest pending timer fires. *)
Definition fireTimer (w : World) : World :=
  match timers (document w) with
  | [] => w
  | call :: rest => showResultScreen call (onDocument (setTimers rest) w)
  end.

(** *** Guess handling *)

(** The chip shows the guess and the hint, separated by a space.  The
    winning call passes [gameState.targetNumber], which is nullable. *)
Definition guessChip (guess : option Z) (hint : string) : string :=
  JS.showNullable guess ++ " " ++ hint.

Definition addGuessToHistory (guess : option Z) (hint : string) : World -> World :=
  onDocument (fun d => setHistoryChips (historyChips d ++ [guessChip guess hint])%list d).

Definition plural (n : Z) : string :=
  if n =? 1 then "attempt" else "attempts".

Definition handleCorrectGuess (w : World) : Completion World :=
  let config := option_map LEVELS (currentLevel (gameState w)) in
  let w := onGameState (setIsGameActive false) w in
  match config with
  | None => TypeError w
  | Some config =>
      let attempts := attemptsUsed (gameState w) in
      let bonusEarned := attempts <=? bonusThreshold config in
      let scoreEarned :=
        if bonusEarned then baseScore config + bonusScore config else baseScore config in
      let w := onGameState (fun g => setTotalScore (totalScore g + scoreEarned) g) w in
      let message :=
        "🎉 Correct! You guessed it in " ++ numToString attempts ++ " " ++ plural attempts ++ "!" in
      let message :=
        if bonusEarned then message ++ " Bonus score earned! 🌟" else message in
      let w := showFeedback message "success" w in
      let w := addGuessToHistory (targetNumber (gameState w)) "✓" w in
      Normal (setTimeout (mkResultCall true scoreEarned bonusEarned) w)
  end.

Definition handleIncorrectGuess (guess : Z) (config : LevelConfig) (w : World) : World :=
  let attemptsLeft := maxAttempts config - attemptsUsed (gameState w) in
  if attemptsLeft =? 0 then
    let w := onGameState (setIsGameActive false) w in
    let w :=
      showFeedback
        ("❌ Game Over! The number was " ++ JS.showNullable (targetNumber (gameState w)))
        "error" w in
    let w := addGuessToHistory (Some guess) "✗" w in
    setTimeout (mkResultCall false 0 false) w
  else
    let below := guess <? JS.toNumber (targetNumber (gameState w)) in
    let hint := if below then "↑" else "↓" in
    let comparison := if below then "lower" else "higher" in
    let feedbackClass := if attemptsLeft <=? 2 then "warning" else "info" in
    let w :=
      showFeedback
        ("Your guess (" ++ numToString guess ++ ") is " ++ comparison
         ++ " than the number! " ++ numToString attemptsLeft ++ " "
         ++ plural attemptsLeft ++ " remaining")
        feedbackClass w in
    addGuessToHistory (Some guess) hint w.

Definition makeGuess (w : World) : Completion World :=
  if negb (isGameActive (gameState w)) then Normal w
  else
    let guess := JS.parseInt (inputValue (document w)) in
    let config := option_map LEVELS (currentLevel (gameState w)) in
    match guess with
    | None => Normal (showFeedback "Please enter a valid number!" "error" w)
    | Some guess =>
        match config with
        | None => TypeError w
        | Some config =>
            if (guess <? min config) || (guess >? max config) then
              Normal
                (showFeedback
                   ("Number must be between " ++ numToString (min config) ++ " and "
                    ++ numToString (max config) ++ "!")
                   "error" w)
            else
              let w := onGameState (fun g => setAttemptsUsed (attemptsUsed g + 1) g) w in
              w <- (if JS.strictEq guess (targetNumber (gameState w))
                    then handleCorrectGuess w
                    else Normal (handleIncorrectGuess guess config w)) ;;
              Normal (onDocument (setInputValue "") w)
        end
    end.

(** *** Game controls *)

(** [startGame(gameState.currentLevel)]: with no level the lookup of the
    configuration is undefined and reading its range throws. *)
Definition playAgain (rnd : Q) (w : World) : Completion World :=
  match currentLevel (gameState w) with
  | Some level => Normal (startGame rnd level w)
  | None => TypeError w
  end.

Definition resetGame (confirmed : bool) (rnd : Q) (w : World) : Completion World :=
  if confirmed then playAgain rnd w else Normal w.

Definition changeLevel (w : World) : World :=
  let w := onGameState (setCurrentLevel None) w in
  let w := onGameState (setIsGameActive false) w in
  showScreen levelScreen w.

(** [confirmed] is the answer of the [confirm] dialog. *)
Definition resetTotalScore (confirmed : bool) (w : World) : World :=
  if confirmed then onGameState (setTotalScore 0) w else w.

(** *** Events of a page session *)

Inductive Event : Type :=
| Start (rnd : Q) (level : Level)
| TypeInput (value : string)
| Guess
| PlayAgain (rnd : Q)
| ResetGame (confirmed : bool) (rnd : Q)
| ChangeLevel
| ResetTotalScore (confirmed : bool)
| Timer.

Definition step (w : World) (e : Event) : World :=
  match e with
  | Start rnd level => startGame rnd level w
  | TypeInput value => onDocument (setInputValue value) w
  | Guess => stateOf (makeGuess w)
  | PlayAgain rnd => stateOf (playAgain rnd w)
  | ResetGame confirmed rnd => stateOf (resetGame confirmed rnd w)
  | ChangeLevel => changeLevel w
  | ResetTotalScore confirmed => resetTotalScore confirmed w
  | Timer => fireTimer w
  end.

Definition run (w : World) (es : list Event) : World :=
  fold_left step es w.

(** [makeGuess] with [raw] as the value of #guessInput. *)
Definition submitGuess (raw : string) (w : World) : Completion World :=
  makeGuess (onDocument (setInputValue raw) w).

End Script.

(** ** The React component *)

Module React.

Inductive Screen : Set := level | game | result.

Inductive FeedbackType : Set := success | error | warning | info.

Record GuessHistoryItem : Type := mkItem {
  guess : Z;
  hint : string
}.

Record Feedback : Type := mkFeedback {
  text : string;
  type : FeedbackType
}.

Record ResultData : Type := mkResultData {
  won : bool;
  scoreEarned : Z;
  bonusEarned : bool
}.

(** The [useState] cells of [Game] that the game logic reads or writes, and
    the pending [setTimeout] callbacks. *)
Record State : Type := mkState {
  currentScreen : Screen;
  currentLevel : option Level;
  targetNumber : option Z;
  attemptsUsed : Z;
  totalScore : Z;
  guessHistory : list GuessHistoryItem;
  guessInput : string;
  feedbackMessage : Feedback;
  resultData : ResultData;
  timers : list ResultData
}.

(** The initial values passed to [useState]. *)
Definition initialState : State :=
  mkState level None None 0 0 [] ""
    (mkFeedback "Make your first guess!" info)
    (mkResultData false 0 false) [].

Definition setCurrentScreen (v : Screen) (s : State) : State :=
  mkState v (currentLevel s) (targetNumber s) (attemptsUsed s) (totalScore s)
    (guessHistory s) (guessInput s) (feedbackMessage s) (resultData s) (timers s).
Definition setCurrentLevel (v : option Level) (s : State) : State :=
  mkState (currentScreen s) v (targetNumber s) (attemptsUsed s) (totalScore s)
    (guessHistory s) (guessInput s) (feedbackMessage s) (resultData s) (timers s).
Definition setTargetNumber (v : option Z) (s : State) : State :=
  mkState (currentScreen s) (currentLevel s) v (attemptsUsed s) (totalScore s)
    (guessHistory s) (guessInput s) (feedbackMessage s) (resultData s) (timers s).
Definition setAttemptsUsed (v : Z) (s : State) : State :=
  mkState (currentScreen s) (currentLevel s) (targetNumber s) v (totalScore s)
    (guessHistory s) (guessInput s) (feedbackMessage s) (resultData s) (timers s).
Definition setTotalScore (f : Z -> Z) (s : State) : State :=
  mkState (currentScreen s) (currentLevel s) (targetNumber s) (attemptsUsed s)
    (f (totalScore s)) (guessHistory s) (guessInput s) (feedbackMessage s)
    (resultData s) (timers s).
Definition setGuessHistory (f : list GuessHistoryItem -> list GuessHistoryItem)
  (s : State) : State :=
  mkState (currentScreen s) (currentLevel s) (targetNumber s) (attemptsUsed s)
    (totalScore s) (f (guessHistory s)) (guessInput s) (feedbackMessage s)
    (resultData s) (timers s).
Definition setGuessInput (v : string) (s : State) : State :=
  mkState (currentScreen s) (currentLevel s) (targetNumber s) (attemptsUsed s)
    (totalScore s) (guessHistory s) v (feedbackMessage s) (resultData s) (timers s).
Definition setFeedbackMessage (v : Feedback) (s : State) : State :=
  mkState (currentScreen s) (currentLevel s) (targetNumber s) (attemptsUsed s)
    (totalScore s) (guessHistory s) (guessInput s) v (resultData s) (timers s).
Definition setResultData (v : ResultData) (s : State) : State :=
  mkState (currentScreen s) (currentLevel s) (targetNumber s) (attemptsUsed s)
    (totalScore s) (guessHistory s) (guessInput s) (feedbackMessage s) v (timers s).
Definition setTimers (v : list ResultData) (s : State) : State :=
  mkState (currentScreen s) (currentLevel s) (targetNumber s) (attemptsUsed s)
    (totalScore s) (guessHistory s) (guessInput s) (feedbackMessage s) (resultData s) v.

Definition setTimeout (data : ResultData) (s : State) : State :=
  setTimers (timers s ++ [data])%list s.

Definition plural (n : Z) : string :=
  if n =? 1 then "attempt" else "attempts".

Definition startGame (rnd : Q) (lvl : Level) (s : State) : State :=
  let config := LEVELS lvl in
  let s := setCurrentLevel (Some lvl) s in
  let s := setTargetNumber (Some (getRandomNumber rnd (min config) (max config))) s in
  let s := setAttemptsUsed 0 s in
  let s := setGuessHistory (fun _ => []) s in
  let s := setGuessInput "" s in
  let s := setFeedbackMessage (mkFeedback "Make your first guess!" info) s in
  setCurrentScreen game s.

(** [target] is the [targetNumber] that the closure captured; [handleGuess]
    has checked that it is not [null]. *)
Definition handleCorrectGuess (target : Z) (attempts : Z) (config : LevelConfig)
  (s : State) : State :=
  let bonus := attempts <=? bonusThreshold config in
  let score :=
    if bonus then baseScore config + bonusScore config else baseScore config in
  let s := setTotalScore (fun prev => prev + score) s in
  let msg :=
    "🎉 Correct! You guessed it in " ++ numToString attempts ++ " " ++ plural attempts ++ "!" in
  let msg := if bonus then msg ++ " Bonus score earned! 🌟" else msg in
  let s := setFeedbackMessage (mkFeedback msg success) s in
  let s := setGuessHistory (fun prev => prev ++ [mkItem target "✓"])%list s in
  setTimeout (mkResultData true score bonus) s.

Definition handleIncorrectGuess (target : Z) (guess : Z) (attempts : Z)
  (config : LevelConfig) (s : State) : State :=
  let attemptsLeft := maxAttempts config - attempts in
  if attemptsLeft =? 0 then
    let s :=
      setFeedbackMessage
        (mkFeedback ("❌ Game Over! The number was " ++ numToString target) error) s in
    let s := setGuessHistory (fun prev => prev ++ [mkItem guess "✗"])%list s in
    setTimeout (mkResultData false 0 false) s
  else
    let hintArrow := if guess <? target then "↑" else "↓" in
    let comparisonText := if guess <? target then "lower" else "higher" in
    let type := if attemptsLeft <=? 2 then warning else info in
    let s :=
      setFeedbackMessage
        (mkFeedback
           ("Your guess (" ++ numToString guess ++ ") is " ++ comparisonText
            ++ " than the number! " ++ numToString attemptsLeft ++ " "
            ++ plural attemptsLeft ++ " remaining")
           type) s in
    setGuessHistory (fun prev => prev ++ [mkItem guess hintArrow])%list s.

Definition handleGuess (s : State) : State :=
  match currentLevel s, targetNumber s with
  | Some lvl, Some target =>
      let config := LEVELS lvl in
      match JS.parseInt (guessInput s) with
      | None => setFeedbackMessage (mkFeedback "Please enter a valid number!" error) s
      | Some guess =>
          if (guess <? min config) || (guess >? max config) then
            setFeedbackMessage
              (mkFeedback
                 ("Number must be between " ++ numToString (min config) ++ " and "
                  ++ numToString (max config) ++ "!")
                 error) s
          else
            let newAttempts := attemptsUsed s + 1 in
            let s := setAttemptsUsed newAttempts s in
            let s :=
              if guess =? target
              then handleCorrectGuess target newAttempts config s
              else handleIncorrectGuess target guess newAttempts config s in
            setGuessInput "" s
      end
  | _, _ => s
  end.

(** The oldest pending timer fires: the result is stored and shown. *)
Definition fireTimer (s : State) : State :=
  match timers s with
  | [] => s
  | data :: rest => setCurrentScreen result (setResultData data (setTimers rest s))
  end.

(** *** Events, as the rendered screen offers them

    The level cards exist on the level screen only, the guess input, its
    submit button and the restart button on the game screen only (and only
    with a level), and the play-again button on the result screen only. *)

Inductive Event : Type :=
| Start (rnd : Q) (lvl : Level)
| Change (value : string)
| Submit
| Restart (confirmed : bool) (rnd : Q)
| ChangeLevel
| PlayAgain (rnd : Q)
| Timer.

Definition gameScreenShown (s : State) : bool :=
  match currentScreen s, currentLevel s with
  | game, Some _ => true
  | _, _ => false
  end.

Definition step (s : State) (e : Event) : State :=
  match e with
  | Start rnd lvl =>
      match currentScreen s with
      | level => startGame rnd lvl s
      | _ => s
      end
  | Change value => if gameScreenShown s then setGuessInput value s else s
  | Submit => if gameScreenShown s then handleGuess s else s
  | Restart confirmed rnd =>
      match currentScreen s, currentLevel s with
      | game, Some lvl => if confirmed then startGame rnd lvl s else s
      | _, _ => s
      end
  | ChangeLevel =>
      match currentScreen s with
      | level => s
      | game => if gameScreenShown s then setCurrentScreen level s else s
      | result => setCurrentScreen level s
      end
  | PlayAgain rnd =>
      match currentScreen s, currentLevel s with
      | result, Some lvl => startGame rnd lvl s
      | _, _ => s
      end
  | Timer => fireTimer s
  end.

Definition run (s : State) (es : list Event) : State :=
  fold_left step es s.

(** Guesses are accepted: the input is on screen and the guard of
    [handleGuess] lets the call through. *)
Definition accepting (s : State) : bool :=
  gameScreenShown s && match targetNumber s with Some _ => true | None => false end.

(** [onChange] is handed [raw] as the value of the input, then the guess
    is submitted.  The input is of type number: its value is the text in
    the box only if that is a valid number, and is empty otherwise. *)
Definition submitGuess (raw : string) (s : State) : State :=
  step (step s (Change raw)) Submit.

End React.

(** ** Vocabulary of the properties *)

(** The page as loaded.  Its markup is not among the sources; it is taken
    with the level screen up, nothing typed, no chip and no timer.  The
    properties below that start from a loaded page hold for any document. *)
Definition initialDocument : Script.Document :=
  Script.mkDocument Script.levelScreen "" "" [] "" None [].

Definition initialWorld : Script.World :=
  Script.mkWorld Script.initialGameState initialDocument.

(** The three out-of-game feedback lines. *)
Definition invalidMessage : string := "Please enter a valid number!".

Definition rangeMessage (config : LevelConfig) : string :=
  "Number must be between " ++ numToString (min config) ++ " and "
  ++ numToString (max config) ++ "!".

Definition inRange (config : LevelConfig) (g : Z) : bool :=
  negb ((g <? min config) || (g >? max config)).

(** What a win earns: the base score, and the bonus when the winning
    attempt is within the threshold. *)
Definition bonusFor (config : LevelConfig) (attempts : Z) : bool :=
  attempts <=? bonusThreshold config.

Definition scoreFor (config : LevelConfig) (attempts : Z) : Z :=
  baseScore config + (if bonusFor config attempts then bonusScore config else 0).

(** The feedback lines of a counted guess; both files build the same text. *)
Definition wonMessage (attempts : Z) (bonus : bool) : string :=
  let message :=
    "🎉 Correct! You guessed it in " ++ numToString attempts ++ " "
    ++ (if attempts =? 1 then "attempt" else "attempts") ++ "!" in
  if bonus then message ++ " Bonus score earned! 🌟" else message.

Definition lostMessage (target : Z) : string :=
  "❌ Game Over! The number was " ++ numToString target.

Definition missMessage (guess target attemptsLeft : Z) : string :=
  "Your guess (" ++ numToString guess ++ ") is "
  ++ (if guess <? target then "lower" else "higher")
  ++ " than the number! " ++ numToString attemptsLeft ++ " "
  ++ (if attemptsLeft =? 1 then "attempt" else "attempts") ++ " remaining".

(** Hint of a miss that leaves attempts: up when the guess is below the
    target, down otherwise. *)
Definition arrow (guess target : Z) : string :=
  if guess <? target then "↑" else "↓".

Definition severity (attemptsLeft : Z) : string :=
  if attemptsLeft <=? 2 then "warning" else "info".

Definition reactSeverity (attemptsLeft : Z) : React.FeedbackType :=
  if attemptsLeft <=? 2 then React.warning else React.info.

(** Decimal numerals, to speak about what [parseInt] is given. *)
Definition isDigit (c : ascii) : bool :=
  let n := Z.of_N (N_of_ascii c) in (48 <=? n) && (n <=? 57).

Fixpoint allDigits (s : string) : bool :=
  match s with
  | EmptyString => true
  | String c r => isDigit c && allDigits r
  end.

(** Value of a string of decimal digits, after [acc]. *)
Fixpoint decimalFrom (acc : Z) (s : string) : Z :=
  match s with
  | EmptyString => acc
  | String c r => decimalFrom (10 * acc + (Z.of_N (N_of_ascii c) - 48)) r
  end.

Definition decimalValue (s : string) : Z := decimalFrom 0 s.

Inductive Sign : Set := NoSign | Minus | Plus.

Definition signText (sg : Sign) : string :=
  match sg with
  | NoSign => ""
  | Minus => "-"
  | Plus => "+"
  end.

Definition signValue (sg : Sign) : Z :=
  match sg with
  | Minus => -1
  | _ => 1
  end.

(** The numeral [sign int . frac]. *)
Definition numeral (sg : Sign) (int frac : string) : string :=
  signText sg ++ int ++ "." ++ frac.

(** A guess of the DOM script is counted when the game is active and the
    input parses to a number within the range of the level. *)
Definition scriptCounts (w : Script.World) : bool :=
  Script.isGameActive (Script.gameState w)
  && match Script.currentLevel (Script.gameState w),
           JS.parseInt (Script.inputValue (Script.document w)) with
     | Some lvl, Some g => inRange (LEVELS lvl) g
     | _, _ => false
     end.

(** A guess of the component is counted when level and target are set and
    the input parses to a number within the range of the level. *)
Definition reactCounts (s : React.State) : bool :=
  match React.currentLevel s, React.targetNumber s, JS.parseInt (React.guessInput s) with
  | Some lvl, Some _, Some g => inRange (LEVELS lvl) g
  | _, _, _ => false
  end.

(** The attempt counter of the DOM script stays within the budget of the
    level, strictly while the game is active. *)
Definition scriptBounded (w : Script.World) : Prop :=
  let g := Script.gameState w in
  0 <= Script.attemptsUsed g
  /\ match Script.currentLevel g with
     | Some lvl =>
         Script.attemptsUsed g <= maxAttempts (LEVELS lvl)
         /\ (Script.isGameActive g = true ->
             Script.attemptsUsed g < maxAttempts (LEVELS lvl)
             /\ Script.targetNumber g <> None)
     | None => Script.isGameActive g = false
     end.

(** The chips of the history container are as many as the attempts used. *)
Definition scriptTally (w : Script.World) : Prop :=
  Z.of_nat (List.length (Script.historyChips (Script.document w)))
  = Script.attemptsUsed (Script.gameState w).

Definition reactTally (s : React.State) : Prop :=
  Z.of_nat (List.length (React.guessHistory s)) = React.attemptsUsed s.

(** The state with the guess input emptied, to compare two submissions
    that leave different text in the box. *)
Definition scriptForgetInput (w : Script.World) : Script.World :=
  Script.onDocument (Script.setInputValue "") w.

Definition reactForgetInput (s : React.State) : React.State :=
  React.setGuessInput "" s.

(** Sessions used as examples: a game on each level, just started. *)
Definition scriptGame (rnd : Q) (lvl : Level) : Script.World :=
  Script.startGame rnd lvl initialWorld.

Definition reactGame (rnd : Q) (lvl : Level) : React.State :=
  React.step React.initialState (React.Start rnd lvl).

Arguments numToString : simpl never.
Arguments JS.parseInt : simpl never.
Arguments getRandomNumber : simpl never.

(** ** The page around the DOM script

    The scoreboard and the labels of the game screen, which the script
    rewrites from [gameState] and the level table.  A [Page] carries them
    beside the [World] of the game; the functions below are those of the
    script with these writes in place, in the order of the source. *)

Module Page.

Import Script.

(** Text of #totalScore, #currentLevel and #attemptsLeft. *)
Record Scoreboard : Type := mkScoreboard {
  totalScoreText : string;
  currentLevelText : string;
  attemptsLeftText : string
}.

(** Text of #rangeMin, #rangeMax, #attemptsUsed and #maxAttempts, and the
    [min] and [max] attributes of #guessInput. *)
Record GameLabels : Type := mkGameLabels {
  rangeMinText : string;
  rangeMaxText : string;
  attemptsUsedText : string;
  maxAttemptsText : string;
  inputMin : string;
  inputMax : string
}.

Record Page : Type := mkPage {
  world : World;
  scoreboard : Scoreboard;
  labels : GameLabels
}.

Definition onWorld (f : World -> World) (p : Page) : Page :=
  mkPage (f (world p)) (scoreboard p) (labels p).

(** What [updateScoreboard] writes for a given [gameState]. *)
Definition renderScoreboard (g : GameState) : Scoreboard :=
  let config := option_map LEVELS (currentLevel g) in
  mkScoreboard
    (numToString (totalScore g))
    (match config with Some config => name config | None => "-" end)
    (match config with
     | Some config => numToString (maxAttempts config - attemptsUsed g)
     | None => "-"
     end).

Definition updateScoreboard (p : Page) : Page :=
  mkPage (world p) (renderScoreboard (gameState (world p))) (labels p).

Definition updateGameUI (config : LevelConfig) (p : Page) : Page :=
  mkPage (world p) (scoreboard p)
    (mkGameLabels
       (numToString (min config)) (numToString (max config))
       (numToString (attemptsUsed (gameState (world p))))
       (numToString (maxAttempts config))
       (numToString (min config)) (numToString (max config))).

(** [document.getElementById('attemptsUsed').textContent = gameState.attemptsUsed]. *)
Definition showAttemptsUsed (p : Page) : Page :=
  let l := labels p in
  mkPage (world p) (scoreboard p)
    (mkGameLabels (rangeMinText l) (rangeMaxText l)
       (numToString (attemptsUsed (gameState (world p))))
       (maxAttemptsText l) (inputMin l) (inputMax l)).

Definition startGame (rnd : Q) (level : Level) (p : Page) : Page :=
  let config := LEVELS level in
  let p := onWorld (onGameState (setCurrentLevel (Some level))) p in
  let p :=
    onWorld
      (onGameState (setTargetNumber (Some (getRandomNumber rnd (min config) (max config)))))
      p in
  let p := onWorld (onGameState (setAttemptsUsed 0)) p in
  let p := onWorld (onGameState (setGuessHistory [])) p in
  let p := onWorld (onGameState (setIsGameActive true)) p in
  let p := updateScoreboard p in
  let p := updateGameUI config p in
  let p := onWorld resetFeedback p in
  let p := onWorld clearGuessHistory p in
  let p := onWorld (showScreen gameScreen) p in
  onWorld (onDocument (setInputValue "")) p.

(** A handler of the game that writes no label, run on the page. *)
Definition inWorld (f : World -> Completion World) (p : Page) : Completion Page :=
  match f (world p) with
  | Normal w => Normal (mkPage w (scoreboard p) (labels p))
  | TypeError w => TypeError (mkPage w (scoreboard p) (labels p))
  end.

Definition makeGuess (p : Page) : Completion Page :=
  if negb (isGameActive (gameState (world p))) then Normal p
  else
    let guess := JS.parseInt (inputValue (document (world p))) in
    let config := option_map LEVELS (currentLevel (gameState (world p))) in
    match guess with
    | None => Normal (onWorld (showFeedback "Please enter a valid number!" "error") p)
    | Some guess =>
        match config with
        | None => TypeError p
        | Some config =>
            if (guess <? min config) || (guess >? max config) then
              Normal
                (onWorld
                   (showFeedback
                      ("Number must be between " ++ numToString (min config) ++ " and "
                       ++ numToString (max config) ++ "!")
                      "error") p)
            else
              let p := onWorld (onGameState (fun g => setAttemptsUsed (attemptsUsed g + 1) g)) p in
              p <- (if JS.strictEq guess (targetNumber (gameState (world p)))
                    then inWorld handleCorrectGuess p
                    else Normal (onWorld (handleIncorrectGuess guess config) p)) ;;
              let p := updateScoreboard p in
              let p := showAttemptsUsed p in
              Normal (onWorld (onDocument (setInputValue "")) p)
        end
    end.

(** [showResultScreen] fills the result screen, refreshes the scoreboard and
    shows the screen. *)
Definition showResultScreen (call : ResultCall) (p : Page) : Page :=
  updateScoreboard (onWorld (Script.showResultScreen call) p).

Definition fireTimer (p : Page) : Page :=
  match timers (document (world p)) with
  | [] => p
  | call :: rest => showResultScreen call (onWorld (onDocument (setTimers rest)) p)
  end.

Definition playAgain (rnd : Q) (p : Page) : Completion Page :=
  match currentLevel (gameState (world p)) with
  | Some level => Normal (startGame rnd level p)
  | None => TypeError p
  end.

Definition resetGame (confirmed : bool) (rnd : Q) (p : Page) : Completion Page :=
  if confirmed then playAgain rnd p else Normal p.

Definition changeLevel (p : Page) : Page :=
  let p := onWorld (onGameState (setCurrentLevel None)) p in
  let p := onWorld (onGameState (setIsGameActive false)) p in
  let p := updateScoreboard p in
  onWorld (showScreen levelScreen) p.

Definition resetTotalScore (confirmed : bool) (p : Page) : Page :=
  if confirmed then updateScoreboard (onWorld (onGameState (setTotalScore 0)) p) else p.

Definition step (p : Page) (e : Event) : Page :=
  match e with
  | Start rnd level => startGame rnd level p
  | TypeInput value => onWorld (onDocument (setInputValue value)) p
  | Guess => stateOf (makeGuess p)
  | PlayAgain rnd => stateOf (playAgain rnd p)
  | ResetGame confirmed rnd => stateOf (resetGame confirmed rnd p)
  | ChangeLevel => changeLevel p
  | ResetTotalScore confirmed => resetTotalScore confirmed p
  | Timer => fireTimer p
  end.

Definition run (p : Page) (es : list Event) : Page :=
  fold_left step es p.

(** The scoreboard shows the current [gameState]. *)
Definition scoreboardCurrent (p : Page) : Prop :=
  scoreboard p = renderScoreboard (gameState (world p)).

(** The labels of the game screen show the attempts used and, while a
    level is selected, its range and budget. *)
Definition labelsCurrent (p : Page) : Prop :=
  attemptsUsedText (labels p) = numToString (attemptsUsed (gameState (world p)))
  /\ match currentLevel (gameState (world p)) with
     | Some lvl =>
         rangeMinText (labels p) = numToString (min (LEVELS lvl))
         /\ rangeMaxText (labels p) = numToString (max (LEVELS lvl))
         /\ maxAttemptsText (labels p) = numToString (maxAttempts (LEVELS lvl))
         /\ inputMin (labels p) = numToString (min (LEVELS lvl))
         /\ inputMax (labels p) = numToString (max (LEVELS lvl))
     | None => True
     end.

End Page.

(** ** Theme of the DOM script *)

Module Theme.

(** [localStorage]: the value stored under a key, if any. *)
Definition Storage : Type := string -> option string.

Definition getItem (key : string) (store : Storage) : option string := store key.

Definition setItem (key value : string) (store : Storage) : Storage :=
  fun k => if String.eqb k key then Some value else store k.

(** The [data-theme] attribute of the root element and the storage. *)
Record Env : Type := mkEnv {
  dataTheme : option string;
  localStorage : Storage
}.

(** [value || fallback] for a string or [null]: the empty string is falsy. *)
Definition orElse (value : option string) (fallback : string) : string :=
  match value with
  | None => fallback
  | Some EmptyString => fallback
  | Some s => s
  end.

Definition toggleTheme (e : Env) : Env :=
  let currentTheme := orElse (dataTheme e) "dark" in
  let newTheme := if String.eqb currentTheme "dark" then "light" else "dark" in
  mkEnv (Some newTheme) (setItem "theme" newTheme (localStorage e)).

Definition initTheme (e : Env) : Env :=
  let savedTheme := orElse (getItem "theme" (localStorage e)) "dark" in
  mkEnv (Some savedTheme) (localStorage e).

(** The theme in force: the attribute, or dark without one. *)
Definition themeOf (e : Env) : string := orElse (dataTheme e) "dark".

(** A page opened later on the same storage. *)
Definition reload (e : Env) : Env := initTheme (mkEnv None (localStorage e)).

End Theme.

(** ** What the component renders *)

Module ReactView.

Import React.

(** The three values of the scoreboard (lines of [renderScoreboard]). *)
Record Scoreboard : Type := mkScoreboard {
  totalScoreText : string;
  currentLevelText : string;
  attemptsLeftText : string
}.

Definition renderScoreboard (s : State) : Scoreboard :=
  mkScoreboard
    (numToString (totalScore s))
    (match currentLevel s with Some lvl => name (LEVELS lvl) | None => "-" end)
    (match currentLevel s with
     | Some lvl => numToString (maxAttempts (LEVELS lvl) - attemptsUsed s)
     | None => "-"
     end).

(** The result screen, rendered while [currentScreen] is [result]. *)
Record ResultView : Type := mkResultView {
  resultIcon : string;
  resultTitle : string;
  resultMessage : string;
  targetNumberText : string;
  attemptsUsedText : string;
  scoreEarnedText : string
}.

(** A [null] in braces renders nothing. *)
Definition showChild (v : option Z) : string :=
  match v with
  | Some z => numToString z
  | None => ""
  end.

Definition renderResult (s : State) : option ResultView :=
  match currentScreen s with
  | result =>
      let r := resultData s in
      Some
        (mkResultView
           (if won r then "🎉" else "😢")
           (if won r then "Congratulations!" else "Game Over")
           (if won r
            then (if bonusEarned r
                  then "Amazing! You guessed quickly!"
                  else "You guessed the number correctly!")
            else "Don't give up! Try again.")
           (showChild (targetNumber s))
           (numToString (attemptsUsed s))
           ("+" ++ numToString (scoreEarned r)))
  | _ => None
  end.

End ReactView.

(** ** Shape of the history of the DOM script *)

(** The hint of a chip: its last three bytes, which is what each of the
    four symbols takes in UTF-8. *)
Fixpoint chipHint (chip : string) : string :=
  match chip with
  | String _ (String _ (String _ EmptyString)) => chip
  | String _ rest => chipHint rest
  | EmptyString => EmptyString
  end.

Definition isArrow (chip : string) : bool :=
  String.eqb (chipHint chip) "↑" || String.eqb (chipHint chip) "↓".

Definition isVerdict (chip : string) : bool :=
  String.eqb (chipHint chip) "✓" || String.eqb (chipHint chip) "✗".

(** While the game is active the history holds arrows only; afterwards all
    chips but the last are arrows and the last is an arrow or a verdict. *)
Definition historyShaped (w : Script.World) : Prop :=
  let chips := Script.historyChips (Script.document w) in
  if Script.isGameActive (Script.gameState w)
  then forallb isArrow chips = true
  else forallb isArrow (removelast chips) = true
       /\ forallb (fun chip => isArrow chip || isVerdict chip) chips = true.

(** ** More vocabulary for [parseInt] *)

(** Strings of the one-byte white space that [parseInt] skips. *)
Fixpoint allSpaces (s : string) : bool :=
  match s with
  | EmptyString => true
  | String c r => JS.isSpace1 c && allSpaces r
  end.

(** The text behind the digits does not go on with a decimal digit. *)
Definition stopsDecimal (tail : string) : bool :=
  match tail with
  | EmptyString => true
  | String c _ => negb (isDigit c)
  end.

(** The text behind a single zero does not turn it into a hexadecimal prefix. *)
Definition noHexMark (int tail : string) : bool :=
  match int, tail with
  | String "0" EmptyString, String "x" _ => false
  | String "0" EmptyString, String "X" _ => false
  | _, _ => true
  end.

Definition isHexDigit (c : ascii) : bool :=
  match JS.digitValue c with
  | Some d => d <? 16
  | None => false
  end.

Fixpoint allHex (s : string) : bool :=
  match s with
  | EmptyString => true
  | String c r => isHexDigit c && allHex r
  end.

(** Value of a string of hexadecimal digits, after [acc]. *)
Fixpoint hexFrom (acc : Z) (s : string) : Z :=
  match s with
  | EmptyString => acc
  | String c r =>
      hexFrom (16 * acc + match JS.digitValue c with Some d => d | None => 0 end) r
  end.

Definition hexValue (s : string) : Z := hexFrom 0 s.

Inductive HexMark : Set := LowerX | UpperX.

Definition hexMarkText (m : HexMark) : string :=
  match m with
  | LowerX => "0x"
  | UpperX => "0X"
  end.

(** ** The guess input of the component

    The input of [Game.tsx] is [<input type="number">].  The value of such
    an element, which [onChange] passes on, is at any time the empty string
    or a valid floating-point number of the HTML standard: text in the box
    that is none is not handed over. *)

Module NumberInput.

Fixpoint skipDigits (s : string) : string :=
  match s with
  | String c r => if isDigit c then skipDigits r else s
  | EmptyString => s
  end.

Definition startsWithDigit (s : string) : bool :=
  match s with
  | String c _ => isDigit c
  | EmptyString => false
  end.

(** Nothing, or [e] or [E], an optional sign and at least one digit, up to
    the end of the text. *)
Definition validExponent (s : string) : bool :=
  match s with
  | EmptyString => true
  | String c r =>
      if Ascii.eqb c "e" || Ascii.eqb c "E" then
        let digits :=
          match r with
          | String "-" r' => r'
          | String "+" r' => r'
          | _ => r
          end in
        startsWithDigit digits && String.eqb (skipDigits digits) ""
      else false
  end.

(** An optional minus; then digits, or digits if any, a point and digits;
    then the exponent if any. *)
Definition validFloat (text : string) : bool :=
  let unsigned :=
    match text with
    | String "-" r => r
    | _ => text
    end in
  match skipDigits unsigned with
  | String "." r => startsWithDigit r && validExponent (skipDigits r)
  | rest => startsWithDigit unsigned && validExponent rest
  end.

(** What the input can hand over. *)
Definition holds (value : string) : bool :=
  String.eqb value "" || validFloat value.

End NumberInput.

(** No digit stands before the point. *)
Definition pointFirst (text : string) : bool :=
  match text with
  | String "." _ => true
  | String "-" (String "." _) => true
  | _ => false
  end.

(** ** The draw in double arithmetic

    [Math.random()] answers a double of [0, 1): a number [m / 2^e] with
    [0 <= m < 2^53], [m < 2^e] and [e <= 1074].  Its product with the
    integer [max - min + 1] is the exact product rounded to the nearest
    double, ties to even: of the integer [m * (max - min + 1)] the 53 leading
    bits are kept, and the result is again divided by [2^e].  Floor and sum
    are exact on such numbers. *)

Module Double.

(** The nearest integer of at most 53 significant bits, ties to even. *)
Definition round53 (x : Z) : Z :=
  let k := Z.log2 x - 52 in
  if k <=? 0 then x
  else
    let q := x / 2 ^ k in
    let r := x mod 2 ^ k in
    let half := 2 ^ (k - 1) in
    let q := if r <? half then q
             else if half <? r then q + 1
             else if Z.even q then q else q + 1 in
    q * 2 ^ k.

Record Random : Set := mkRandom {
  mantissa : Z;
  exponent : Z
}.

Definition isRandom (r : Random) : bool :=
  (0 <=? mantissa r) && (mantissa r <? 2 ^ 53) && (mantissa r <? 2 ^ exponent r)
  && (0 <=? exponent r) && (exponent r <=? 1074).

(** The number a random double stands for. *)
Definition toQ (r : Random) : Q :=
  Qmake (mantissa r) (Z.to_pos (2 ^ exponent r)).

(** [Math.floor(Math.random() * (max - min + 1)) + min]. *)
Definition getRandomNumber (r : Random) (min max : Z) : Z :=
  round53 (mantissa r * (max - min + 1)) / 2 ^ exponent r + min.

End Double.

(** Proof steps: open a state into its fields. *)
Ltac open_world w :=
  destruct w as [[cl tn au ts gh act] [sc ft fc hc iv rv tm]]; cbn in *; subst.

Ltac open_state s :=
  destruct s as [cs cl tn au ts gh gi fm rd tm]; cbn in *; subst.

(** ** Properties of the DOM script *)

Lemma inRange_true config g :
  inRange config g = true <-> min config <= g <= max config.
Proof.
  unfold inRange. rewrite negb_true_iff, orb_false_iff, Z.ltb_ge, Z.gtb_ltb, Z.ltb_ge. lia.
Qed.

Lemma inRange_false config g :
  inRange config g = false <-> g < min config \/ g > max config.
Proof.
  unfold inRange. rewrite negb_false_iff, orb_true_iff, Z.ltb_lt, Z.gtb_ltb, Z.ltb_lt. lia.
Qed.

Lemma script_makeGuess_inactive (w : Script.World) :
  Script.isGameActive (Script.gameState w) = false -> Script.makeGuess w = Normal w.
Proof. intros H. unfold Script.makeGuess. rewrite H. reflexivity. Qed.

Section ScriptGuess.

Import Script.

Variable w : World.
Variable lvl : Level.
Hypothesis Hactive : isGameActive (gameState w) = true.
Hypothesis Hlevel : currentLevel (gameState w) = Some lvl.

Lemma script_makeGuess_invalid :
  JS.parseInt (inputValue (document w)) = None ->
  makeGuess w = Normal (showFeedback invalidMessage "error" w).
Proof using Hactive.
  intros Hparse. unfold makeGuess. rewrite Hactive, Hparse. reflexivity.
Qed.

Lemma script_makeGuess_out_of_range (g : Z) :
  JS.parseInt (inputValue (document w)) = Some g ->
  inRange (LEVELS lvl) g = false ->
  makeGuess w = Normal (showFeedback (rangeMessage (LEVELS lvl)) "error" w).
Proof using Hactive Hlevel.
  intros Hparse Hrange. unfold makeGuess.
  rewrite Hactive, Hparse, Hlevel. cbn [negb option_map].
  unfold inRange in Hrange. apply negb_false_iff in Hrange.
  rewrite Hrange. reflexivity.
Qed.

(** A counted guess that equals the target: the complete state it leaves. *)
Lemma script_makeGuess_correct (g : Z) :
  JS.parseInt (inputValue (document w)) = Some g ->
  inRange (LEVELS lvl) g = true ->
  targetNumber (gameState w) = Some g ->
  let attempts := attemptsUsed (gameState w) + 1 in
  let bonus := bonusFor (LEVELS lvl) attempts in
  let score := scoreFor (LEVELS lvl) attempts in
  makeGuess w =
  Normal
    (mkWorld
       (mkGameState (Some lvl) (Some g) attempts (totalScore (gameState w) + score)
          (guessHistory (gameState w)) false)
       (mkDocument (screen (document w)) (wonMessage attempts bonus)
          "feedback-message success"
          (historyChips (document w) ++ [guessChip (Some g) "✓"])%list
          "" (resultView (document w))
          (timers (document w) ++ [mkResultCall true score bonus])%list)).
Proof using Hactive Hlevel.
  intros Hparse Hrange Htarget attempts bonus score.
  unfold inRange in Hrange. apply negb_true_iff in Hrange.
  subst attempts bonus score. unfold scoreFor, bonusFor, wonMessage.
  open_world w.
  unfold makeGuess, handleCorrectGuess. cbn. rewrite Hparse. cbn.
  rewrite Hrange, Z.eqb_refl. cbn.
  destruct (au + 1 <=? bonusThreshold (LEVELS lvl)); [reflexivity|].
  rewrite Z.add_0_r. reflexivity.
Qed.

Lemma script_makeGuess_lost (g t : Z) :
  JS.parseInt (inputValue (document w)) = Some g ->
  inRange (LEVELS lvl) g = true ->
  targetNumber (gameState w) = Some t ->
  g <> t ->
  maxAttempts (LEVELS lvl) - (attemptsUsed (gameState w) + 1) = 0 ->
  makeGuess w =
  Normal
    (mkWorld
       (mkGameState (Some lvl) (Some t) (attemptsUsed (gameState w) + 1)
          (totalScore (gameState w)) (guessHistory (gameState w)) false)
       (mkDocument (screen (document w)) (lostMessage t)
          "feedback-message error"
          (historyChips (document w) ++ [guessChip (Some g) "✗"])%list
          "" (resultView (document w))
          (timers (document w) ++ [mkResultCall false 0 false])%list)).
Proof using Hactive Hlevel.
  intros Hparse Hrange Htarget Hneq Hleft.
  unfold inRange in Hrange. apply negb_true_iff in Hrange.
  apply Z.eqb_neq in Hneq. apply Z.eqb_eq in Hleft.
  open_world w.
  unfold makeGuess, handleIncorrectGuess. cbn. rewrite Hparse. cbn.
  rewrite Hrange, Hneq. cbn. rewrite Hleft. reflexivity.
Qed.

Lemma script_makeGuess_miss (g t : Z) :
  JS.parseInt (inputValue (document w)) = Some g ->
  inRange (LEVELS lvl) g = true ->
  targetNumber (gameState w) = Some t ->
  g <> t ->
  let attemptsLeft := maxAttempts (LEVELS lvl) - (attemptsUsed (gameState w) + 1) in
  attemptsLeft <> 0 ->
  makeGuess w =
  Normal
    (mkWorld
       (mkGameState (Some lvl) (Some t) (attemptsUsed (gameState w) + 1)
          (totalScore (gameState w)) (guessHistory (gameState w)) true)
       (mkDocument (screen (document w)) (missMessage g t attemptsLeft)
          ("feedback-message " ++ severity attemptsLeft)
          (historyChips (document w) ++ [guessChip (Some g) (arrow g t)])%list
          "" (resultView (document w)) (timers (document w)))).
Proof using Hactive Hlevel.
  intros Hparse Hrange Htarget Hneq attemptsLeft Hleft.
  unfold inRange in Hrange. apply negb_true_iff in Hrange.
  apply Z.eqb_neq in Hneq. apply Z.eqb_neq in Hleft.
  subst attemptsLeft. unfold missMessage, severity, arrow.
  open_world w.
  unfold makeGuess, handleIncorrectGuess. cbn. rewrite Hparse. cbn.
  rewrite Hrange, Hneq. cbn. rewrite Hleft.
  destruct (g <? t); destruct (maxAttempts (LEVELS lvl) - (au + 1) <=? 2); reflexivity.
Qed.

End ScriptGuess.

(** ** Properties of the React component *)

Section ReactGuess.

Import React.

Variable s : State.
Variable lvl : Level.
Variable t : Z.
Hypothesis Hlevel : currentLevel s = Some lvl.
Hypothesis Htarget : targetNumber s = Some t.

Lemma react_handleGuess_invalid :
  JS.parseInt (guessInput s) = None ->
  handleGuess s = setFeedbackMessage (mkFeedback invalidMessage error) s.
Proof using Hlevel Htarget.
  intros Hparse. unfold handleGuess. rewrite Hlevel, Htarget, Hparse. reflexivity.
Qed.

Lemma react_handleGuess_out_of_range (g : Z) :
  JS.parseInt (guessInput s) = Some g ->
  inRange (LEVELS lvl) g = false ->
  handleGuess s = setFeedbackMessage (mkFeedback (rangeMessage (LEVELS lvl)) error) s.
Proof using Hlevel Htarget.
  intros Hparse Hrange. unfold handleGuess. rewrite Hlevel, Htarget, Hparse.
  unfold inRange in Hrange. apply negb_false_iff in Hrange.
  rewrite Hrange. reflexivity.
Qed.

Lemma react_handleGuess_correct :
  JS.parseInt (guessInput s) = Some t ->
  inRange (LEVELS lvl) t = true ->
  let attempts := attemptsUsed s + 1 in
  let bonus := bonusFor (LEVELS lvl) attempts in
  let score := scoreFor (LEVELS lvl) attempts in
  handleGuess s =
  mkState (currentScreen s) (Some lvl) (Some t) attempts (totalScore s + score)
    (guessHistory s ++ [mkItem t "✓"])%list ""
    (mkFeedback (wonMessage attempts bonus) success) (resultData s)
    (timers s ++ [mkResultData true score bonus])%list.
Proof using Hlevel Htarget.
  intros Hparse Hrange attempts bonus score.
  unfold inRange in Hrange. apply negb_true_iff in Hrange.
  subst attempts bonus score. unfold scoreFor, bonusFor, wonMessage.
  open_state s.
  unfold handleGuess, handleCorrectGuess. cbn. rewrite Hparse, Hrange, Z.eqb_refl. cbn.
  destruct (au + 1 <=? bonusThreshold (LEVELS lvl)); [reflexivity|].
  rewrite Z.add_0_r. reflexivity.
Qed.

Lemma react_handleGuess_lost (g : Z) :
  JS.parseInt (guessInput s) = Some g ->
  inRange (LEVELS lvl) g = true ->
  g <> t ->
  maxAttempts (LEVELS lvl) - (attemptsUsed s + 1) = 0 ->
  handleGuess s =
  mkState (currentScreen s) (Some lvl) (Some t) (attemptsUsed s + 1) (totalScore s)
    (guessHistory s ++ [mkItem g "✗"])%list ""
    (mkFeedback (lostMessage t) error) (resultData s)
    (timers s ++ [mkResultData false 0 false])%list.
Proof using Hlevel Htarget.
  intros Hparse Hrange Hneq Hleft.
  unfold inRange in Hrange. apply negb_true_iff in Hrange.
  apply Z.eqb_neq in Hneq. apply Z.eqb_eq in Hleft.
  open_state s.
  unfold handleGuess, handleIncorrectGuess. cbn. rewrite Hparse, Hrange, Hneq. cbn.
  rewrite Hleft. reflexivity.
Qed.

Lemma react_handleGuess_miss (g : Z) :
  JS.parseInt (guessInput s) = Some g ->
  inRange (LEVELS lvl) g = true ->
  g <> t ->
  let attemptsLeft := maxAttempts (LEVELS lvl) - (attemptsUsed s + 1) in
  attemptsLeft <> 0 ->
  handleGuess s =
  mkState (currentScreen s) (Some lvl) (Some t) (attemptsUsed s + 1) (totalScore s)
    (guessHistory s ++ [mkItem g (arrow g t)])%list ""
    (mkFeedback (missMessage g t attemptsLeft) (reactSeverity attemptsLeft))
    (resultData s) (timers s).
Proof using Hlevel Htarget.
  intros Hparse Hrange Hneq attemptsLeft Hleft.
  unfold inRange in Hrange. apply negb_true_iff in Hrange.
  apply Z.eqb_neq in Hneq. apply Z.eqb_neq in Hleft.
  subst attemptsLeft. unfold missMessage, reactSeverity, arrow.
  open_state s.
  unfold handleGuess, handleIncorrectGuess. cbn. rewrite Hparse, Hrange, Hneq. cbn.
  rewrite Hleft.
  destruct (g <? t); destruct (maxAttempts (LEVELS lvl) - (au + 1) <=? 2); reflexivity.
Qed.

End ReactGuess.

(** While guesses are accepted, submitting is typing and calling the handler. *)
Lemma react_accepting_inv (s : React.State) :
  React.accepting s = true ->
  React.currentScreen s = React.game
  /\ (exists lvl, React.currentLevel s = Some lvl)
  /\ (exists t, React.targetNumber s = Some t).
Proof.
  unfold React.accepting, React.gameScreenShown.
  destruct (React.currentScreen s), (React.currentLevel s), (React.targetNumber s);
    try discriminate; eauto.
Qed.

Lemma react_submitGuess_accepting (raw : string) (s : React.State) :
  React.accepting s = true ->
  React.submitGuess raw s = React.handleGuess (React.setGuessInput raw s).
Proof.
  intros H. apply react_accepting_inv in H as [Hsc [[lvl Hl] _]].
  unfold React.submitGuess, React.step, React.gameScreenShown.
  rewrite Hsc, Hl. cbn. rewrite Hsc, Hl. reflexivity.
Qed.

(** ** Rejected input *)

(** C3: in an active session, input that does not parse is answered with
    "Please enter a valid number!" and a parsed guess outside the range of
    the level with "Number must be between {min} and {max}!"; attempts,
    history, activity, target and total score stay as they were.  Both for
    the DOM script and for the component. *)
Theorem rejected_guess_consumes_nothing
  (lvl : Level) (raw : string) (w : Script.World) (s : React.State)
  (Hw : Script.isGameActive (Script.gameState w) = true)
  (Hwl : Script.currentLevel (Script.gameState w) = Some lvl)
  (Hs : React.accepting s = true)
  (Hsl : React.currentLevel s = Some lvl)
  (Hrejected :
     JS.parseInt raw = None
     \/ exists g, JS.parseInt raw = Some g
                  /\ (g < min (LEVELS lvl) \/ g > max (LEVELS lvl))) :
  let message :=
    match JS.parseInt raw with
    | None => "Please enter a valid number!"
    | Some _ =>
        "Number must be between " ++ numToString (min (LEVELS lvl)) ++ " and "
        ++ numToString (max (LEVELS lvl)) ++ "!"
    end in
  (exists w',
     Script.submitGuess raw w = Normal w'
     /\ Script.feedbackText (Script.document w') = message
     /\ Script.feedbackClass (Script.document w') = "feedback-message error"
     /\ Script.attemptsUsed (Script.gameState w') = Script.attemptsUsed (Script.gameState w)
     /\ Script.historyChips (Script.document w') = Script.historyChips (Script.document w)
     /\ Script.isGameActive (Script.gameState w') = true
     /\ Script.targetNumber (Script.gameState w') = Script.targetNumber (Script.gameState w)
     /\ Script.totalScore (Script.gameState w') = Script.totalScore (Script.gameState w)
     /\ Script.timers (Script.document w') = Script.timers (Script.document w))
  /\ (let s' := React.submitGuess raw s in
      React.feedbackMessage s' = React.mkFeedback message React.error
      /\ React.attemptsUsed s' = React.attemptsUsed s
      /\ React.guessHistory s' = React.guessHistory s
      /\ React.accepting s' = true
      /\ React.targetNumber s' = React.targetNumber s
      /\ React.totalScore s' = React.totalScore s
      /\ React.timers s' = React.timers s).
Proof.
  intros message.
  assert (Hcase :
    (JS.parseInt raw = None /\ message = invalidMessage)
    \/ (exists g, JS.parseInt raw = Some g /\ inRange (LEVELS lvl) g = false
                  /\ message = rangeMessage (LEVELS lvl))).
  { destruct Hrejected as [Hnone | [g [Hg Hout]]].
    - left. split; [exact Hnone|]. subst message. rewrite Hnone. reflexivity.
    - right. exists g. repeat split; [exact Hg | now apply inRange_false |].
      subst message. rewrite Hg. reflexivity. }
  clearbody message. clear Hrejected.
  unfold React.accepting, React.gameScreenShown in Hs.
  destruct (React.currentScreen s) eqn:Hscreen; try discriminate Hs.
  rewrite Hsl in Hs.
  destruct (React.targetNumber s) as [t|] eqn:Ht; try discriminate Hs.
  split.
  - unfold Script.submitGuess.
    set (wt := Script.onDocument (Script.setInputValue raw) w).
    assert (Hwt : Script.isGameActive (Script.gameState wt) = true) by exact Hw.
    assert (Hwtl : Script.currentLevel (Script.gameState wt) = Some lvl) by exact Hwl.
    assert (Hin : Script.inputValue (Script.document wt) = raw) by reflexivity.
    destruct Hcase as [[Hparse ->] | [g [Hparse [Hout ->]]]].
    + rewrite (script_makeGuess_invalid wt Hwt) by (rewrite Hin; exact Hparse).
      eexists; split; [reflexivity|]. cbn. rewrite Hw. repeat split; reflexivity.
    + rewrite (script_makeGuess_out_of_range wt lvl Hwt Hwtl g) by (rewrite ?Hin; assumption).
      eexists; split; [reflexivity|]. cbn. rewrite Hw. repeat split; reflexivity.
  - rewrite react_submitGuess_accepting
      by (unfold React.accepting, React.gameScreenShown; rewrite Hscreen, Hsl, Ht; reflexivity).
    set (st := React.setGuessInput raw s).
    assert (Hstl : React.currentLevel st = Some lvl) by exact Hsl.
    assert (Hstt : React.targetNumber st = Some t) by exact Ht.
    destruct Hcase as [[Hparse ->] | [g [Hparse [Hout ->]]]].
    + rewrite (react_handleGuess_invalid st lvl t Hstl Hstt) by exact Hparse.
      unfold React.accepting, React.gameScreenShown. cbn. rewrite Hscreen, Hsl, Ht.
      repeat split; reflexivity.
    + rewrite (react_handleGuess_out_of_range st lvl t Hstl Hstt g) by assumption.
      unfold React.accepting, React.gameScreenShown. cbn. rewrite Hscreen, Hsl, Ht.
      repeat split; reflexivity.
Qed.

(** An instance: "51" typed into a fresh game on the easy level. *)
Lemma rejected_guess_consumes_nothing_witness :
  Script.isGameActive (Script.gameState (scriptGame (1#2) easy)) = true
  /\ JS.parseInt "51" = Some 51
  /\ 51 > max (LEVELS easy)
  /\ Script.feedbackText
       (Script.document (stateOf (Script.submitGuess "51" (scriptGame (1#2) easy))))
     = "Number must be between 1 and 50!"
  /\ React.feedbackMessage (React.submitGuess "51" (reactGame (1#2) easy))
     = React.mkFeedback "Number must be between 1 and 50!" React.error.
Proof.
  split; [reflexivity|]. split; [reflexivity|]. split; [reflexivity|].
  assert (Hrej : JS.parseInt "51" = None
                 \/ exists g, JS.parseInt "51" = Some g
                              /\ (g < min (LEVELS easy) \/ g > max (LEVELS easy))).
  { right. exists 51. split; [reflexivity | right; reflexivity]. }
  destruct (rejected_guess_consumes_nothing easy "51"
              (scriptGame (1#2) easy) (reactGame (1#2) easy)
              eq_refl eq_refl eq_refl eq_refl Hrej)
    as [[w' [Hsub [Htext _]]] [Hfb _]].
  split; [rewrite Hsub; exact Htext | exact Hfb].
Defined.

(** ** Misses that leave attempts *)

(** C6: in an active session, a wrong guess within the range that leaves
    attempts is answered with the up arrow exactly when it is below the
    target and with the down arrow exactly when it is above; the guess and
    that arrow are appended to the history, and the feedback is a warning
    when at most two attempts are left and plain information otherwise.
    Both for the DOM script and for the component. *)
Theorem miss_gives_direction_and_severity
  (lvl : Level) (raw : string) (g t : Z) (w : Script.World) (s : React.State)
  (Hw : Script.isGameActive (Script.gameState w) = true)
  (Hwl : Script.currentLevel (Script.gameState w) = Some lvl)
  (Hwt : Script.targetNumber (Script.gameState w) = Some t)
  (Hs : React.accepting s = true)
  (Hsl : React.currentLevel s = Some lvl)
  (Hst : React.targetNumber s = Some t)
  (Hparse : JS.parseInt raw = Some g)
  (Hrange : min (LEVELS lvl) <= g <= max (LEVELS lvl))
  (Hwrong : g <> t)
  (Hwleft : 0 < maxAttempts (LEVELS lvl) - (Script.attemptsUsed (Script.gameState w) + 1))
  (Hsleft : 0 < maxAttempts (LEVELS lvl) - (React.attemptsUsed s + 1)) :
  let hint := if g <? t then "↑" else "↓" in
  ((hint = "↑" <-> g < t) /\ (hint = "↓" <-> g > t))
  /\ (exists w',
        Script.submitGuess raw w = Normal w'
        /\ Script.attemptsUsed (Script.gameState w')
           = Script.attemptsUsed (Script.gameState w) + 1
        /\ Script.historyChips (Script.document w')
           = (Script.historyChips (Script.document w) ++ [(numToString g ++ " " ++ hint)%string])%list
        /\ (let attemptsLeft :=
              maxAttempts (LEVELS lvl) - Script.attemptsUsed (Script.gameState w') in
            Script.feedbackText (Script.document w') = missMessage g t attemptsLeft
            /\ Script.feedbackClass (Script.document w')
               = "feedback-message " ++ (if attemptsLeft <=? 2 then "warning" else "info"))
        /\ Script.isGameActive (Script.gameState w') = true
        /\ Script.totalScore (Script.gameState w') = Script.totalScore (Script.gameState w))
  /\ (let s' := React.submitGuess raw s in
      let attemptsLeft := maxAttempts (LEVELS lvl) - React.attemptsUsed s' in
      React.attemptsUsed s' = React.attemptsUsed s + 1
      /\ React.guessHistory s' = (React.guessHistory s ++ [React.mkItem g hint])%list
      /\ React.feedbackMessage s'
         = React.mkFeedback (missMessage g t attemptsLeft)
             (if attemptsLeft <=? 2 then React.warning else React.info)
      /\ React.totalScore s' = React.totalScore s).
Proof.
  intros hint. split; [|split].
  - subst hint. destruct (g <? t) eqn:E.
    + apply Z.ltb_lt in E. repeat split; intros; try lia; try reflexivity; discriminate.
    + apply Z.ltb_ge in E. repeat split; intros; try lia; try reflexivity; discriminate.
  - unfold Script.submitGuess.
    set (wt := Script.onDocument (Script.setInputValue raw) w).
    pose proof (script_makeGuess_miss wt lvl Hw Hwl g t Hparse
                  (proj2 (inRange_true _ _) Hrange) Hwt Hwrong) as Hmiss.
    cbv zeta in Hmiss. rewrite Hmiss by (cbn; lia).
    eexists; split; [reflexivity|]. cbn. repeat split; reflexivity.
  - rewrite react_submitGuess_accepting by exact Hs.
    set (st := React.setGuessInput raw s).
    pose proof (react_handleGuess_miss st lvl t Hsl Hst g Hparse
                  (proj2 (inRange_true _ _) Hrange) Hwrong) as Hmiss.
    cbv zeta in Hmiss. rewrite Hmiss by (cbn; lia).
    cbn. repeat split; reflexivity.
Qed.

(** An instance: "10" typed into a fresh game on the easy level with target 26. *)
Lemma miss_gives_direction_and_severity_witness :
  JS.parseInt "10" = Some 10
  /\ Script.targetNumber (Script.gameState (scriptGame (1#2) easy)) = Some 26
  /\ Script.historyChips
       (Script.document (stateOf (Script.submitGuess "10" (scriptGame (1#2) easy))))
     = ["10 ↑"]
  /\ React.guessHistory (React.submitGuess "10" (reactGame (1#2) easy))
     = [React.mkItem 10 "↑"].
Proof.
  split; [reflexivity|]. split; [reflexivity|].
  assert (Hrange : min (LEVELS easy) <= 10 <= max (LEVELS easy)) by (cbn; lia).
  assert (Hwrong : 10 <> 26) by lia.
  assert (Hwleft : 0 < maxAttempts (LEVELS easy)
                       - (Script.attemptsUsed (Script.gameState (scriptGame (1#2) easy)) + 1))
    by (cbn; lia).
  assert (Hsleft : 0 < maxAttempts (LEVELS easy)
                       - (React.attemptsUsed (reactGame (1#2) easy) + 1))
    by (cbn; lia).
  destruct (miss_gives_direction_and_severity easy "10" 10 26
              (scriptGame (1#2) easy) (reactGame (1#2) easy)
              eq_refl eq_refl eq_refl eq_refl eq_refl eq_refl eq_refl
              Hrange Hwrong Hwleft Hsleft)
    as [_ [[w' [Hsub [_ [Hchips _]]]] [_ [Hhist _]]]].
  split; [rewrite Hsub; exact Hchips | exact Hhist].
Defined.

(** ** Starting a game *)

Lemma getRandomNumber_in_range (rnd : Q) (lo hi : Z) :
  (0 <= rnd)%Q -> (rnd < 1)%Q -> lo <= hi ->
  lo <= getRandomNumber rnd lo hi <= hi.
Proof.
  intros H0 H1 Hlh. unfold getRandomNumber.
  set (n := hi - lo + 1). assert (Hn : 0 < n) by (subst n; lia).
  assert (Hnq : (0 < inject_Z n)%Q) by (change 0%Q with (inject_Z 0); rewrite <- Zlt_Qlt; exact Hn).
  assert (Hlow : 0 <= Qfloor (rnd * inject_Z n)).
  { change 0 with (Qfloor 0). apply Qfloor_resp_le.
    apply Qmult_le_0_compat; [exact H0 | apply Qlt_le_weak; exact Hnq]. }
  assert (Hup : Qfloor (rnd * inject_Z n) < n).
  { rewrite Zlt_Qlt. eapply Qle_lt_trans; [apply Qfloor_le|].
    setoid_replace (inject_Z n) with (1 * inject_Z n)%Q at 2 by ring.
    apply Qmult_lt_compat_r; assumption. }
  subst n. lia.
Qed.

Lemma level_range_ordered (lvl : Level) : min (LEVELS lvl) <= max (LEVELS lvl).
Proof. destruct lvl; cbn; lia. Qed.

(** C7: for each level, [startGame] draws the target within the range of
    the level, sets the attempts to zero, empties the history, makes the
    session active and shows "Make your first guess!", whatever the session
    before it was.  Both for the DOM script and for the component; the
    total score is carried over. *)
Theorem startGame_opens_fresh_session
  (rnd : Q) (lvl : Level) (w : Script.World) (s : React.State)
  (Hrnd0 : (0 <= rnd)%Q) (Hrnd1 : (rnd < 1)%Q) :
  let t := getRandomNumber rnd (min (LEVELS lvl)) (max (LEVELS lvl)) in
  let w' := Script.startGame rnd lvl w in
  let s' := React.startGame rnd lvl s in
  min (LEVELS lvl) <= t <= max (LEVELS lvl)
  /\ Script.gameState w'
     = Script.mkGameState (Some lvl) (Some t) 0
         (Script.totalScore (Script.gameState w)) [] true
  /\ Script.historyChips (Script.document w') = []
  /\ Script.feedbackText (Script.document w') = "Make your first guess!"
  /\ Script.inputValue (Script.document w') = ""
  /\ Script.screen (Script.document w') = Script.gameScreen
  /\ s' = React.mkState React.game (Some lvl) (Some t) 0 (React.totalScore s) [] ""
            (React.mkFeedback "Make your first guess!" React.info)
            (React.resultData s) (React.timers s)
  /\ React.accepting s' = true.
Proof.
  intros t w' s'. split.
  - apply getRandomNumber_in_range; auto using level_range_ordered.
  - repeat split; reflexivity.
Qed.

(** An instance: the hard level with a draw of one half. *)
Lemma startGame_opens_fresh_session_witness :
  (0 <= 1#2)%Q /\ (1#2 < 1)%Q
  /\ 1 <= getRandomNumber (1#2) 1 100 <= 100
  /\ React.accepting (React.startGame (1#2) hard React.initialState) = true.
Proof.
  assert (H0 : (0 <= 1#2)%Q) by (unfold Qle; cbn; lia).
  assert (H1 : (1#2 < 1)%Q) by (unfold Qlt; cbn; lia).
  split; [exact H0|]. split; [exact H1|].
  destruct (startGame_opens_fresh_session (1#2) hard initialWorld React.initialState H0 H1)
    as [Hrange [_ [_ [_ [_ [_ [_ Hacc]]]]]]].
  split; [exact Hrange | exact Hacc].
Defined.

(** ** Resetting the score *)

(** C9: once confirmed, [resetTotalScore] sets the total score to zero
    whatever it was, and leaves level, target, attempts, history and
    activity of the session as they are. *)
Theorem resetTotalScore_only_clears_score (w : Script.World) :
  let w' := Script.resetTotalScore true w in
  Script.totalScore (Script.gameState w') = 0
  /\ Script.currentLevel (Script.gameState w') = Script.currentLevel (Script.gameState w)
  /\ Script.targetNumber (Script.gameState w') = Script.targetNumber (Script.gameState w)
  /\ Script.attemptsUsed (Script.gameState w') = Script.attemptsUsed (Script.gameState w)
  /\ Script.guessHistory (Script.gameState w') = Script.guessHistory (Script.gameState w)
  /\ Script.isGameActive (Script.gameState w') = Script.isGameActive (Script.gameState w)
  /\ Script.document w' = Script.document w.
Proof. repeat split; reflexivity. Qed.

Lemma resetTotalScore_declined (w : Script.World) :
  Script.resetTotalScore false w = w.
Proof. reflexivity. Qed.

(** ** History and attempts move together *)

Lemma script_makeGuess_tally (w : Script.World) :
  let w' := stateOf (Script.makeGuess w) in
  if scriptCounts w
  then Script.attemptsUsed (Script.gameState w') = Script.attemptsUsed (Script.gameState w) + 1
       /\ exists chip,
            Script.historyChips (Script.document w')
            = (Script.historyChips (Script.document w) ++ [chip])%list
  else Script.attemptsUsed (Script.gameState w') = Script.attemptsUsed (Script.gameState w)
       /\ Script.historyChips (Script.document w') = Script.historyChips (Script.document w).
Proof.
  open_world w. unfold scriptCounts, Script.makeGuess. cbn.
  destruct act; cbn; [|split; reflexivity].
  destruct (JS.parseInt iv) as [g|]; [|destruct cl; split; reflexivity].
  destruct cl as [lvl|]; cbn; [|split; reflexivity].
  unfold inRange.
  destruct ((g <? min (LEVELS lvl)) || (g >? max (LEVELS lvl))); cbn;
    [split; reflexivity|].
  destruct (JS.strictEq g tn); cbn.
  - split; [reflexivity | eexists; reflexivity].
  - unfold Script.handleIncorrectGuess. cbn.
    destruct (maxAttempts (LEVELS lvl) - (au + 1) =? 0); cbn;
      (split; [reflexivity | eexists; reflexivity]).
Qed.

Lemma react_handleGuess_tally (s : React.State) :
  let s' := React.handleGuess s in
  if reactCounts s
  then React.attemptsUsed s' = React.attemptsUsed s + 1
       /\ exists item, React.guessHistory s' = (React.guessHistory s ++ [item])%list
  else React.attemptsUsed s' = React.attemptsUsed s
       /\ React.guessHistory s' = React.guessHistory s.
Proof.
  open_state s. unfold reactCounts, React.handleGuess. cbn.
  destruct cl as [lvl|]; [|split; reflexivity].
  destruct tn as [t|]; [|split; reflexivity].
  destruct (JS.parseInt gi) as [g|]; [|split; reflexivity].
  unfold inRange.
  destruct ((g <? min (LEVELS lvl)) || (g >? max (LEVELS lvl))); cbn;
    [split; reflexivity|].
  destruct (g =? t); cbn.
  - split; [reflexivity | eexists; reflexivity].
  - unfold React.handleIncorrectGuess. cbn.
    destruct (maxAttempts (LEVELS lvl) - (au + 1) =? 0); cbn;
      (split; [reflexivity | eexists; reflexivity]).
Qed.

Lemma tally_after_append {A : Type} (old new : list A) (x : A) (n m : Z) :
  Z.of_nat (List.length old) = n -> new = (old ++ [x])%list -> m = n + 1 ->
  Z.of_nat (List.length new) = m.
Proof. intros <- -> ->. rewrite length_app. cbn. lia. Qed.

Lemma script_step_tally (w : Script.World) (e : Script.Event) :
  scriptTally w -> scriptTally (Script.step w e).
Proof.
  unfold scriptTally. intros H. destruct e; cbn [Script.step].
  - reflexivity.
  - exact H.
  - pose proof (script_makeGuess_tally w) as T. cbv zeta in T.
    destruct (scriptCounts w).
    + destruct T as [Ha [chip Hc]]. eapply tally_after_append; eauto.
    + destruct T as [-> ->]. exact H.
  - unfold Script.playAgain.
    destruct (Script.currentLevel (Script.gameState w)); [reflexivity | exact H].
  - unfold Script.resetGame, Script.playAgain. destruct confirmed; [|exact H].
    destruct (Script.currentLevel (Script.gameState w)); [reflexivity | exact H].
  - exact H.
  - destruct confirmed; exact H.
  - unfold Script.fireTimer. destruct (Script.timers (Script.document w)); exact H.
Qed.

Lemma react_step_tally (s : React.State) (e : React.Event) :
  reactTally s -> reactTally (React.step s e).
Proof.
  unfold reactTally. intros H. destruct e; cbn [React.step].
  - destruct (React.currentScreen s); [reflexivity | exact H | exact H].
  - destruct (React.gameScreenShown s); exact H.
  - destruct (React.gameScreenShown s); [|exact H].
    pose proof (react_handleGuess_tally s) as T. cbv zeta in T.
    destruct (reactCounts s).
    + destruct T as [Ha [item Hi]]. eapply tally_after_append; eauto.
    + destruct T as [-> ->]. exact H.
  - destruct (React.currentScreen s); try exact H.
    destruct (React.currentLevel s); [|exact H].
    destruct confirmed; [reflexivity | exact H].
  - destruct (React.currentScreen s); try exact H.
    destruct (React.gameScreenShown s); exact H.
  - destruct (React.currentScreen s); try exact H.
    destruct (React.currentLevel s); [reflexivity | exact H].
  - unfold React.fireTimer. destruct (React.timers s); exact H.
Qed.

Lemma script_run_tally (es : list Script.Event) (w : Script.World) :
  scriptTally w -> scriptTally (Script.run w es).
Proof.
  revert w. induction es as [|e es IH]; intros w H; [exact H|].
  apply IH, script_step_tally, H.
Qed.

Lemma react_run_tally (es : list React.Event) (s : React.State) :
  reactTally s -> reactTally (React.run s es).
Proof.
  revert s. induction es as [|e es IH]; intros s H; [exact H|].
  apply IH, react_step_tally, H.
Qed.

(** C10: after every operation the history is as long as the attempts
    used in the session: [startGame] sets both to zero, a guess that parses
    within the range of an open session adds one to the attempts and one
    entry to the history, any other guess changes neither, and so the two
    agree along every run of events that follows a start of a game.  Both
    for the DOM script, where the history is the list of chips, and for the
    component. *)
Theorem history_length_is_attempts_used :
  (forall w rnd lvl,
      let w' := Script.startGame rnd lvl w in
      Script.attemptsUsed (Script.gameState w') = 0
      /\ Script.historyChips (Script.document w') = [])
  /\ (forall s rnd lvl,
      let s' := React.startGame rnd lvl s in
      React.attemptsUsed s' = 0 /\ React.guessHistory s' = [])
  /\ (forall w,
      let w' := stateOf (Script.makeGuess w) in
      if scriptCounts w
      then Script.attemptsUsed (Script.gameState w')
           = Script.attemptsUsed (Script.gameState w) + 1
           /\ exists chip,
                Script.historyChips (Script.document w')
                = (Script.historyChips (Script.document w) ++ [chip])%list
      else Script.attemptsUsed (Script.gameState w')
           = Script.attemptsUsed (Script.gameState w)
           /\ Script.historyChips (Script.document w')
              = Script.historyChips (Script.document w))
  /\ (forall s,
      let s' := React.handleGuess s in
      if reactCounts s
      then React.attemptsUsed s' = React.attemptsUsed s + 1
           /\ exists item, React.guessHistory s' = (React.guessHistory s ++ [item])%list
      else React.attemptsUsed s' = React.attemptsUsed s
           /\ React.guessHistory s' = React.guessHistory s)
  /\ (forall es, reactTally (React.run React.initialState es))
  /\ (forall w rnd lvl es, scriptTally (Script.run (Script.startGame rnd lvl w) es))
  /\ (forall s rnd lvl es, reactTally (React.run (React.startGame rnd lvl s) es)).
Proof.
  split; [intros; split; reflexivity|].
  split; [intros; split; reflexivity|].
  split; [exact script_makeGuess_tally|].
  split; [exact react_handleGuess_tally|].
  split; [intros; apply react_run_tally; reflexivity|].
  split; intros; [apply script_run_tally | apply react_run_tally]; reflexivity.
Qed.

(** The [guessHistory] field of [gameState] is never pushed to: the script
    keeps its history in the document only. *)
Lemma script_guessHistory_field_stays_empty
  (doc : Script.Document) (es : list Script.Event) :
  Script.guessHistory
    (Script.gameState (Script.run (Script.mkWorld Script.initialGameState doc) es)) = [].
Proof.
  assert (H : forall w, Script.guessHistory (Script.gameState w) = [] ->
                        Script.guessHistory (Script.gameState (Script.run w es)) = []).
  { induction es as [|e es IH]; intros w Hw; [exact Hw|].
    apply IH. destruct e; cbn [Script.step]; try exact Hw; try reflexivity.
    - open_world w. unfold Script.makeGuess, Script.handleIncorrectGuess. cbn.
      destruct act; cbn; [|reflexivity].
      destruct (JS.parseInt iv) as [g|]; [|reflexivity].
      destruct cl as [lvl|]; cbn; [|reflexivity].
      destruct ((g <? min (LEVELS lvl)) || (g >? max (LEVELS lvl))); cbn; [reflexivity|].
      destruct (JS.strictEq g tn); cbn; [reflexivity|].
      destruct (maxAttempts (LEVELS lvl) - (au + 1) =? 0); reflexivity.
    - unfold Script.playAgain.
      destruct (Script.currentLevel (Script.gameState w)); [reflexivity | exact Hw].
    - unfold Script.resetGame, Script.playAgain. destruct confirmed; [|exact Hw].
      destruct (Script.currentLevel (Script.gameState w)); [reflexivity | exact Hw].
    - destruct confirmed; exact Hw.
    - unfold Script.fireTimer. destruct (Script.timers (Script.document w)); exact Hw. }
  apply H. reflexivity.
Qed.

(** ** The attempt budget in the DOM script *)

Lemma maxAttempts_positive (lvl : Level) : 0 < maxAttempts (LEVELS lvl).
Proof. destruct lvl; cbn; lia. Qed.

Lemma script_makeGuess_bounded (w : Script.World) :
  scriptBounded w -> scriptBounded (stateOf (Script.makeGuess w)).
Proof.
  unfold scriptBounded. open_world w. intros [H0 H].
  unfold Script.makeGuess. cbn.
  destruct act; cbn; [|split; assumption].
  destruct (JS.parseInt iv) as [g|]; [|split; assumption].
  destruct cl as [lvl|]; cbn; [|split; assumption].
  destruct H as [Hle Hact]. destruct (Hact eq_refl) as [Hlt Htn].
  destruct ((g <? min (LEVELS lvl)) || (g >? max (LEVELS lvl))); cbn;
    [split; [assumption | split; assumption]|].
  destruct (JS.strictEq g tn); cbn.
  - split; [lia | split; [lia | discriminate]].
  - unfold Script.handleIncorrectGuess. cbn.
    destruct (maxAttempts (LEVELS lvl) - (au + 1) =? 0) eqn:E; cbn.
    + split; [lia | split; [lia | discriminate]].
    + apply Z.eqb_neq in E. split; [lia | split; [lia | intros _; split; [lia | exact Htn]]].
Qed.

Lemma script_startGame_bounded (rnd : Q) (lvl : Level) (w : Script.World) :
  scriptBounded (Script.startGame rnd lvl w).
Proof.
  unfold scriptBounded. cbn. pose proof (maxAttempts_positive lvl).
  split; [lia | split; [lia | intros _; split; [lia | discriminate]]].
Qed.

Lemma script_step_bounded (w : Script.World) (e : Script.Event) :
  scriptBounded w -> scriptBounded (Script.step w e).
Proof.
  intros H. destruct e; cbn [Script.step].
  - apply script_startGame_bounded.
  - exact H.
  - apply script_makeGuess_bounded, H.
  - unfold Script.playAgain.
    destruct (Script.currentLevel (Script.gameState w));
      [apply script_startGame_bounded | exact H].
  - unfold Script.resetGame, Script.playAgain. destruct confirmed; [|exact H].
    destruct (Script.currentLevel (Script.gameState w));
      [apply script_startGame_bounded | exact H].
  - unfold scriptBounded in *. cbn. split; [tauto | reflexivity].
  - destruct confirmed; exact H.
  - unfold Script.fireTimer. destruct (Script.timers (Script.document w)); exact H.
Qed.

Lemma script_run_bounded (es : list Script.Event) (w : Script.World) :
  scriptBounded w -> scriptBounded (Script.run w es).
Proof.
  revert w. induction es as [|e es IH]; intros w H; [exact H|].
  apply IH, script_step_bounded, H.
Qed.

(** In the DOM script the attempts never pass the budget of the level, along
    every run of events from the state the script is loaded with or from
    any start of a game, and a session whose attempts have reached the
    budget is closed. *)
Lemma script_attempts_within_budget (es : list Script.Event) :
  (forall doc lvl,
      let g :=
        Script.gameState (Script.run (Script.mkWorld Script.initialGameState doc) es) in
      Script.currentLevel g = Some lvl ->
      Script.attemptsUsed g <= maxAttempts (LEVELS lvl)
      /\ (Script.attemptsUsed g = maxAttempts (LEVELS lvl) -> Script.isGameActive g = false))
  /\ (forall w rnd lvl0 lvl,
      let g := Script.gameState (Script.run (Script.startGame rnd lvl0 w) es) in
      Script.currentLevel g = Some lvl ->
      Script.attemptsUsed g <= maxAttempts (LEVELS lvl)
      /\ (Script.attemptsUsed g = maxAttempts (LEVELS lvl) -> Script.isGameActive g = false)).
Proof.
  assert (H : forall w lvl, scriptBounded w ->
              Script.currentLevel (Script.gameState w) = Some lvl ->
              Script.attemptsUsed (Script.gameState w) <= maxAttempts (LEVELS lvl)
              /\ (Script.attemptsUsed (Script.gameState w) = maxAttempts (LEVELS lvl) ->
                  Script.isGameActive (Script.gameState w) = false)).
  { intros w lvl [_ Hb] Hl. rewrite Hl in Hb. destruct Hb as [Hle Hact].
    split; [exact Hle|]. intros Heq.
    destruct (Script.isGameActive (Script.gameState w)); [|reflexivity].
    destruct (Hact eq_refl). lia. }
  split; intros; apply H; try assumption; apply script_run_bounded.
  - unfold scriptBounded. cbn. split; [lia | reflexivity].
  - apply script_startGame_bounded.
Qed.

(** In the DOM script the guess that uses up the last attempt without
    hitting the target closes the session as lost. *)
Lemma script_last_attempt_missed_is_lost
  (w : Script.World) (lvl : Level) (raw : string) (t : Z) :
  Script.isGameActive (Script.gameState w) = true ->
  Script.currentLevel (Script.gameState w) = Some lvl ->
  Script.targetNumber (Script.gameState w) = Some t ->
  JS.parseInt raw <> Some t ->
  let w' := stateOf (Script.submitGuess raw w) in
  Script.attemptsUsed (Script.gameState w) < maxAttempts (LEVELS lvl) ->
  Script.attemptsUsed (Script.gameState w') = maxAttempts (LEVELS lvl) ->
  Script.isGameActive (Script.gameState w') = false
  /\ Script.feedbackText (Script.document w') = lostMessage t
  /\ Script.timers (Script.document w')
     = (Script.timers (Script.document w) ++ [Script.mkResultCall false 0 false])%list
  /\ Script.totalScore (Script.gameState w') = Script.totalScore (Script.gameState w).
Proof.
  intros Hw Hwl Hwt Hwrong w' Hlt Hfull. subst w'. revert Hfull.
  unfold Script.submitGuess.
  set (wt := Script.onDocument (Script.setInputValue raw) w).
  assert (Hau : Script.attemptsUsed (Script.gameState wt)
                = Script.attemptsUsed (Script.gameState w)) by reflexivity.
  destruct (JS.parseInt raw) as [g|] eqn:Hparse.
  - destruct (inRange (LEVELS lvl) g) eqn:Hrange.
    + assert (Hneq : g <> t) by congruence.
      destruct (Z.eq_dec (maxAttempts (LEVELS lvl)
                          - (Script.attemptsUsed (Script.gameState wt) + 1)) 0) as [E|E].
      * rewrite (script_makeGuess_lost wt lvl Hw Hwl g t Hparse Hrange Hwt Hneq E).
        cbn. intros _. repeat split; reflexivity.
      * pose proof (script_makeGuess_miss wt lvl Hw Hwl g t Hparse Hrange Hwt Hneq) as M.
        cbv zeta in M. rewrite (M E). cbn. intros Hfull. rewrite Hau in E. lia.
    + rewrite (script_makeGuess_out_of_range wt lvl Hw Hwl g Hparse Hrange).
      cbn. lia.
  - rewrite (script_makeGuess_invalid wt Hw Hparse). cbn. lia.
Qed.

(** ** [parseInt] on decimal numerals *)

Lemma isDigit_cases (c : ascii) :
  isDigit c = true ->
  In c ["0"; "1"; "2"; "3"; "4"; "5"; "6"; "7"; "8"; "9"]%char.
Proof.
  destruct c as [[] [] [] [] [] [] [] []]; intros H;
    try discriminate H; cbn; tauto.
Qed.

Lemma digitValue_digit (c : ascii) :
  isDigit c = true ->
  JS.digitValue c = Some (Z.of_N (N_of_ascii c) - 48)
  /\ 0 <= Z.of_N (N_of_ascii c) - 48 < 10.
Proof.
  intros H. apply isDigit_cases in H. cbn in H.
  repeat (destruct H as [<- | H]; [split; [reflexivity | cbn; lia] |]).
  contradiction.
Qed.

Lemma readDigits_numeral (int rest : string) (acc : option Z) :
  allDigits int = true ->
  JS.readDigits 10 (int ++ "." ++ rest) acc =
  match int with
  | EmptyString => acc
  | _ => Some (decimalFrom (match acc with Some a => a | None => 0 end) int)
  end.
Proof.
  revert acc. induction int as [|c r IH]; intros acc Hd.
  - reflexivity.
  - cbn in Hd. apply andb_true_iff in Hd as [Hc Hr].
    destruct (digitValue_digit c Hc) as [Hv Hb].
    cbn [String.append JS.readDigits]. rewrite Hv.
    replace (Z.of_N (N_of_ascii c) - 48 <? 10) with true by (symmetry; apply Z.ltb_lt; lia).
    rewrite (IH _ Hr). cbn [decimalFrom]. destruct r; reflexivity.
Qed.

Lemma readDigits_digits (int : string) (acc : option Z) :
  allDigits int = true ->
  JS.readDigits 10 int acc =
  match int with
  | EmptyString => acc
  | _ => Some (decimalFrom (match acc with Some a => a | None => 0 end) int)
  end.
Proof.
  revert acc. induction int as [|c r IH]; intros acc Hd.
  - reflexivity.
  - cbn in Hd. apply andb_true_iff in Hd as [Hc Hr].
    destruct (digitValue_digit c Hc) as [Hv Hb].
    cbn [JS.readDigits]. rewrite Hv.
    replace (Z.of_N (N_of_ascii c) - 48 <? 10) with true by (symmetry; apply Z.ltb_lt; lia).
    rewrite (IH _ Hr). cbn [decimalFrom]. destruct r; reflexivity.
Qed.

(** A string that starts with a digit is neither trimmed nor signed, and
    is not taken for hexadecimal when a digit or the point follows. *)
Lemma trimStart_digit (c : ascii) (r : string) :
  isDigit c = true -> JS.trimStart (String c r) = String c r.
Proof.
  intros H. apply isDigit_cases in H. cbn in H.
  repeat (destruct H as [<- | H]; [destruct r as [|c2 [|c3 r3]]; reflexivity |]).
  contradiction.
Qed.

Lemma trimStart_signed (sg : Sign) (c : ascii) (r : string) :
  isDigit c = true ->
  JS.stripSign (JS.trimStart (signText sg ++ String c r)) = (signValue sg, String c r).
Proof.
  intros H. destruct sg; cbn [signText String.append].
  - rewrite (trimStart_digit c r H). apply isDigit_cases in H. cbn in H.
    repeat (destruct H as [<- | H]; [reflexivity |]). contradiction.
  - apply isDigit_cases in H. cbn in H.
    repeat (destruct H as [<- | H]; [destruct r as [|c3 r3]; reflexivity |]).
    contradiction.
  - apply isDigit_cases in H. cbn in H.
    repeat (destruct H as [<- | H]; [destruct r as [|c3 r3]; reflexivity |]).
    contradiction.
Qed.

Lemma stripPrefix_decimal (int tail : string) :
  allDigits int = true ->
  (tail = "" \/ exists rest, tail = "." ++ rest) ->
  JS.stripPrefix (int ++ tail) = (10, int ++ tail).
Proof.
  intros Hd Htail. destruct int as [|c r].
  - destruct Htail as [-> | [rest ->]]; reflexivity.
  - cbn in Hd. apply andb_true_iff in Hd as [Hc Hr].
    apply isDigit_cases in Hc. cbn in Hc.
    destruct Hc as [<- | Hc].
    + destruct r as [|c2 r2].
      * destruct Htail as [-> | [rest ->]]; reflexivity.
      * cbn in Hr. apply andb_true_iff in Hr as [Hc2 _].
        apply isDigit_cases in Hc2. cbn in Hc2.
        repeat (destruct Hc2 as [<- | Hc2]; [reflexivity |]). contradiction.
    + repeat (destruct Hc as [<- | Hc]; [reflexivity |]). contradiction.
Qed.

Lemma append_empty_r (s : string) : s ++ "" = s.
Proof. induction s as [|a s IH]; cbn; congruence. Qed.

(** The integer digits are read, the sign applied, and whatever follows a
    point is dropped. *)
Lemma parseInt_numeral (sg : Sign) (int tail : string) :
  allDigits int = true -> int <> "" ->
  (tail = "" \/ exists rest, tail = "." ++ rest) ->
  JS.parseInt (signText sg ++ int ++ tail) = Some (signValue sg * decimalValue int).
Proof.
  intros Hd Hne Htail. unfold JS.parseInt.
  destruct int as [|c r] eqn:Eint; [congruence|]. rewrite <- Eint in *.
  assert (Hc : isDigit c = true).
  { rewrite Eint in Hd. cbn in Hd. apply andb_true_iff in Hd. tauto. }
  replace (signText sg ++ int ++ tail) with (signText sg ++ String c (r ++ tail))
    by (rewrite Eint; reflexivity).
  rewrite (trimStart_signed sg c _ Hc).
  replace (String c (r ++ tail)) with (int ++ tail) by (rewrite Eint; reflexivity).
  rewrite (stripPrefix_decimal int tail Hd Htail).
  destruct Htail as [-> | [rest ->]].
  - rewrite append_empty_r, readDigits_digits by exact Hd.
    rewrite Eint. reflexivity.
  - rewrite readDigits_numeral by exact Hd. rewrite Eint. reflexivity.
Qed.

Lemma decimalFrom_shift (s : string) (acc : Z) :
  decimalFrom acc s = acc * 10 ^ Z.of_nat (String.length s) + decimalFrom 0 s.
Proof.
  revert acc. induction s as [|c r IH]; intros acc.
  - cbn. lia.
  - cbn [decimalFrom String.length]. rewrite (IH (10 * acc + _)), (IH (10 * 0 + _)).
    rewrite Nat2Z.inj_succ, Z.pow_succ_r by lia. ring.
Qed.

Lemma decimalFrom_append (a b : string) (acc : Z) :
  decimalFrom acc (a ++ b) = decimalFrom (decimalFrom acc a) b.
Proof.
  revert acc. induction a as [|c r IH]; intros acc; [reflexivity|].
  cbn [String.append decimalFrom]. apply IH.
Qed.

Lemma decimalValue_bounds (s : string) :
  allDigits s = true -> 0 <= decimalValue s < 10 ^ Z.of_nat (String.length s).
Proof.
  unfold decimalValue. induction s as [|c r IH]; intros Hd.
  - cbn. lia.
  - cbn in Hd. apply andb_true_iff in Hd as [Hc Hr].
    destruct (digitValue_digit c Hc) as [_ Hb]. specialize (IH Hr).
    cbn [decimalFrom String.length]. rewrite decimalFrom_shift.
    rewrite Nat2Z.inj_succ, Z.pow_succ_r by lia. nia.
Qed.

(** Cutting the fraction off is rounding towards zero. *)
Lemma integer_part_is_truncation (sg : Sign) (int frac : string) :
  allDigits int = true -> allDigits frac = true ->
  Z.quot (signValue sg * decimalValue (int ++ frac)) (10 ^ Z.of_nat (String.length frac))
  = signValue sg * decimalValue int.
Proof.
  intros Hi Hf. unfold decimalValue. rewrite decimalFrom_append, decimalFrom_shift.
  pose proof (decimalValue_bounds int Hi) as [Bi _].
  pose proof (decimalValue_bounds frac Hf) as Bf.
  unfold decimalValue in *.
  set (I := decimalFrom 0 int) in *. set (F := decimalFrom 0 frac) in *.
  set (p := 10 ^ Z.of_nat (String.length frac)) in *.
  assert (Hp : 0 < p) by (subst p; apply Z.pow_pos_nonneg; lia).
  assert (Hq : Z.quot (I * p + F) p = I).
  { rewrite Z.quot_div_nonneg by nia.
    rewrite Z.div_add_l by lia. rewrite Z.div_small by lia. lia. }
  destruct sg; cbn [signValue].
  - rewrite !Z.mul_1_l. exact Hq.
  - replace (-1 * (I * p + F)) with (- (I * p + F)) by lia.
    rewrite Z.quot_opp_l by lia. rewrite Hq. lia.
  - rewrite !Z.mul_1_l. exact Hq.
Qed.

(** Both handlers look at the typed text through [parseInt] only. *)
Lemma script_submitGuess_by_parse (raw1 raw2 : string) (w : Script.World) :
  JS.parseInt raw1 = JS.parseInt raw2 ->
  scriptForgetInput (stateOf (Script.submitGuess raw1 w))
  = scriptForgetInput (stateOf (Script.submitGuess raw2 w)).
Proof.
  intros H. open_world w. unfold Script.submitGuess, Script.makeGuess. cbn.
  rewrite H. destruct act; cbn; [|reflexivity].
  destruct (JS.parseInt raw2) as [g|]; [|reflexivity].
  destruct cl as [lvl|]; cbn; [|reflexivity].
  destruct ((g <? min (LEVELS lvl)) || (g >? max (LEVELS lvl))); cbn; [reflexivity|].
  destruct (JS.strictEq g tn); cbn; [reflexivity|].
  unfold Script.handleIncorrectGuess. cbn.
  destruct (maxAttempts (LEVELS lvl) - (au + 1) =? 0); reflexivity.
Qed.

Lemma react_handleGuess_by_parse (raw1 raw2 : string) (s : React.State) :
  JS.parseInt raw1 = JS.parseInt raw2 ->
  reactForgetInput (React.handleGuess (React.setGuessInput raw1 s))
  = reactForgetInput (React.handleGuess (React.setGuessInput raw2 s)).
Proof.
  intros H. open_state s. unfold React.handleGuess. cbn. rewrite H.
  destruct cl as [lvl|]; [|reflexivity].
  destruct tn as [t|]; [|reflexivity].
  destruct (JS.parseInt raw2) as [g|]; [|reflexivity].
  destruct ((g <? min (LEVELS lvl)) || (g >? max (LEVELS lvl))); cbn; [reflexivity|].
  destruct (g =? t); cbn; [reflexivity|].
  unfold React.handleIncorrectGuess. cbn.
  destruct (maxAttempts (LEVELS lvl) - (au + 1) =? 0); reflexivity.
Qed.

Lemma react_submitGuess_by_parse (raw1 raw2 : string) (s : React.State) :
  JS.parseInt raw1 = JS.parseInt raw2 ->
  reactForgetInput (React.submitGuess raw1 s) = reactForgetInput (React.submitGuess raw2 s).
Proof.
  intros H. unfold React.submitGuess. cbn [React.step].
  destruct (React.gameScreenShown s) eqn:Hshown; [|reflexivity].
  assert (Hs : forall raw, React.gameScreenShown (React.setGuessInput raw s) = true)
    by (intros raw; exact Hshown).
  rewrite !Hs. apply react_handleGuess_by_parse, H.
Qed.

(** With no digit before the point, nothing is read. *)
Lemma parseInt_point_first (sg : Sign) (rest : string) :
  JS.parseInt (signText sg ++ "." ++ rest) = None.
Proof. destruct sg, rest as [|c2 [|c3 r3]]; reflexivity. Qed.

(** C8, as the code has it.  A numeral with at least one digit before the
    point is read up to the point: [parseInt] answers what it answers for
    the integer part alone, and both handlers treat the guess exactly as if
    the integer part alone had been submitted.  Where the integer part is
    below 2^53, so that a number holds it exactly, the number read is the
    integer part with its sign, which is the numeral rounded towards zero.
    With no digit before the point nothing is read, whatever follows the
    point: in a session that takes guesses the handlers answer "Please enter
    a valid number!" and change nothing else.  The same in the DOM script
    and in the component. *)
Theorem fraction_after_integer_digits_is_cut_off
  (sg : Sign) (int frac : string) (w : Script.World) (s : React.State)
  (Hint : allDigits int = true) (Hfrac : allDigits frac = true) :
  (int <> "" ->
   let raw := numeral sg int frac in
   let whole := signText sg ++ int in
   JS.parseInt raw = JS.parseInt whole
   /\ (decimalValue int < 2 ^ 53 ->
       JS.parseInt raw = Some (signValue sg * decimalValue int)
       /\ signValue sg * decimalValue int
          = Z.quot (signValue sg * decimalValue (int ++ frac))
              (10 ^ Z.of_nat (String.length frac)))
   /\ scriptForgetInput (stateOf (Script.submitGuess raw w))
      = scriptForgetInput (stateOf (Script.submitGuess whole w))
   /\ reactForgetInput (React.submitGuess raw s)
      = reactForgetInput (React.submitGuess whole s))
  /\ (forall rest : string,
      let raw := signText sg ++ "." ++ rest in
      JS.parseInt raw = None
      /\ (Script.isGameActive (Script.gameState w) = true ->
          Script.submitGuess raw w
          = Normal
              (Script.showFeedback "Please enter a valid number!" "error"
                 (Script.onDocument (Script.setInputValue raw) w)))
      /\ (React.accepting s = true ->
          React.submitGuess raw s
          = React.setFeedbackMessage
              (React.mkFeedback "Please enter a valid number!" React.error)
              (React.setGuessInput raw s))).
Proof.
  split.
  - intros Hsome raw whole.
    assert (Hraw : JS.parseInt raw = Some (signValue sg * decimalValue int)).
    { apply (parseInt_numeral sg int ("." ++ frac)); try assumption. right; eauto. }
    assert (Hwhole : JS.parseInt whole = Some (signValue sg * decimalValue int)).
    { subst whole. rewrite <- (append_empty_r int) at 1.
      apply parseInt_numeral; try assumption. left; reflexivity. }
    split; [congruence|].
    split; [intros _; split; [exact Hraw | symmetry; apply integer_part_is_truncation; assumption]|].
    split.
    + apply script_submitGuess_by_parse. congruence.
    + apply react_submitGuess_by_parse. congruence.
  - intros rest raw.
    pose proof (parseInt_point_first sg rest) as Hnone. fold raw in Hnone.
    split; [exact Hnone|]. split.
    + intros Hw. unfold Script.submitGuess.
      apply script_makeGuess_invalid; [exact Hw | exact Hnone].
    + intros Hs. rewrite (react_submitGuess_accepting raw s Hs).
      destruct (react_accepting_inv s Hs) as [_ [[lvl Hl] [t Ht]]].
      apply (react_handleGuess_invalid (React.setGuessInput raw s) lvl t Hl Ht).
      exact Hnone.
Qed.

(** An instance: "3.7" is read as 3, and ".5" is refused by a fresh game. *)
Lemma fraction_after_integer_digits_is_cut_off_witness :
  allDigits "3" = true /\ "3" <> "" /\ allDigits "7" = true
  /\ decimalValue "3" < 2 ^ 53
  /\ numeral NoSign "3" "7" = "3.7"
  /\ JS.parseInt "3.7" = Some 3
  /\ Z.quot 37 10 = 3
  /\ Script.isGameActive (Script.gameState (scriptGame (1#2) easy)) = true
  /\ React.accepting (reactGame (1#2) easy) = true
  /\ Script.feedbackText
       (Script.document (stateOf (Script.submitGuess ".5" (scriptGame (1#2) easy))))
     = "Please enter a valid number!"
  /\ React.feedbackMessage (React.submitGuess ".5" (reactGame (1#2) easy))
     = React.mkFeedback "Please enter a valid number!" React.error.
Proof.
  assert (Hsome : "3" <> "") by discriminate.
  assert (Hexact : decimalValue "3" < 2 ^ 53) by (cbn; lia).
  split; [reflexivity|]. split; [exact Hsome|]. split; [reflexivity|].
  split; [exact Hexact|]. split; [reflexivity|].
  destruct (fraction_after_integer_digits_is_cut_off NoSign "3" "7"
              (scriptGame (1#2) easy) (reactGame (1#2) easy) eq_refl eq_refl)
    as [Hcut Hrefused].
  destruct (Hcut Hsome) as [_ [Hvalue _]].
  destruct (Hvalue Hexact) as [Hparse Htrunc].
  split; [exact Hparse|]. split; [symmetry; exact Htrunc|].
  split; [reflexivity|]. split; [reflexivity|].
  destruct (Hrefused "5") as [_ [Hscript Hreact]].
  split.
  - cbn [signText String.append] in Hscript. rewrite (Hscript eq_refl). reflexivity.
  - cbn [signText String.append] in Hreact. rewrite (Hreact eq_refl). reflexivity.
Defined.

(** C8 as stated fails where no digit stands before the point: ".5" has a
    fractional part, [parseInt] finds no digit to read, and both handlers
    reject the input as not a number. *)
Lemma fraction_without_integer_digits_is_rejected :
  numeral NoSign "" "5" = ".5"
  /\ allDigits "" = true /\ allDigits "5" = true
  /\ JS.parseInt ".5" = None
  /\ Script.feedbackText
       (Script.document (stateOf (Script.submitGuess ".5" (scriptGame (1#2) easy))))
     = "Please enter a valid number!"
  /\ Script.attemptsUsed
       (Script.gameState (stateOf (Script.submitGuess ".5" (scriptGame (1#2) easy))))
     = 0
  /\ React.feedbackMessage (React.submitGuess ".5" (reactGame (1#2) easy))
     = React.mkFeedback "Please enter a valid number!" React.error
  /\ React.attemptsUsed (React.submitGuess ".5" (reactGame (1#2) easy)) = 0
  /\ ~ (forall sg int frac,
          allDigits int = true -> allDigits frac = true -> frac <> "" ->
          JS.parseInt (numeral sg int frac) = Some (signValue sg * decimalValue int)).
Proof.
  repeat (split; [reflexivity|]).
  intros H. specialize (H NoSign "" "5" eq_refl eq_refl). discriminate H. discriminate.
Qed.

(** ** Closing a session in the DOM script *)

(** C2 on the script: the handler returns at once when the game is not
    active, which is the case when the script is loaded, after
    [changeLevel], after a win and after a loss. *)
Lemma script_inactive_guess_is_noop :
  (forall w, Script.isGameActive (Script.gameState w) = false ->
             Script.makeGuess w = Normal w)
  /\ Script.isGameActive Script.initialGameState = false
  /\ (forall w, Script.isGameActive (Script.gameState (Script.changeLevel w)) = false).
Proof.
  split; [exact script_makeGuess_inactive|]. split; [reflexivity|]. reflexivity.
Qed.

(** C4 on the script: a guess equal to the target wins whatever attempts
    remain: the session is closed, the score earned is the base score plus
    the bonus when the attempts used are within the threshold, it is added
    to the total score, and the target with the check mark is appended to
    the history. *)
Lemma script_correct_guess_wins
  (lvl : Level) (raw : string) (t : Z) (w : Script.World) :
  Script.isGameActive (Script.gameState w) = true ->
  Script.currentLevel (Script.gameState w) = Some lvl ->
  Script.targetNumber (Script.gameState w) = Some t ->
  JS.parseInt raw = Some t ->
  min (LEVELS lvl) <= t <= max (LEVELS lvl) ->
  let attempts := Script.attemptsUsed (Script.gameState w) + 1 in
  let bonusEarned := attempts <=? bonusThreshold (LEVELS lvl) in
  let scoreEarned :=
    if bonusEarned then baseScore (LEVELS lvl) + bonusScore (LEVELS lvl)
    else baseScore (LEVELS lvl) in
  exists w',
    Script.submitGuess raw w = Normal w'
    /\ Script.isGameActive (Script.gameState w') = false
    /\ Script.attemptsUsed (Script.gameState w') = attempts
    /\ Script.totalScore (Script.gameState w')
       = Script.totalScore (Script.gameState w) + scoreEarned
    /\ Script.historyChips (Script.document w')
       = (Script.historyChips (Script.document w) ++ [(numToString t ++ " ✓")%string])%list
    /\ Script.timers (Script.document w')
       = (Script.timers (Script.document w)
          ++ [Script.mkResultCall true scoreEarned bonusEarned])%list
    /\ Script.feedbackText (Script.document w') = wonMessage attempts bonusEarned
    /\ Script.feedbackClass (Script.document w') = "feedback-message success".
Proof.
  intros Hw Hwl Hwt Hparse Hrange attempts bonusEarned scoreEarned.
  unfold Script.submitGuess.
  set (wt := Script.onDocument (Script.setInputValue raw) w).
  pose proof (script_makeGuess_correct wt lvl Hw Hwl t Hparse
                (proj2 (inRange_true _ _) Hrange) Hwt) as Hwin.
  cbv zeta in Hwin. rewrite Hwin. eexists; split; [reflexivity|]. cbn.
  fold attempts. unfold scoreFor, bonusFor. fold bonusEarned. subst scoreEarned.
  destruct bonusEarned; rewrite ?Z.add_0_r; repeat split; reflexivity.
Qed.

(** C5 on the script: a wrong guess that uses up the last attempt closes
    the session as lost, leaves the total score alone, and is recorded
    with the cross, which is neither arrow. *)
Lemma script_last_wrong_guess_loses
  (lvl : Level) (raw : string) (g t : Z) (w : Script.World) :
  Script.isGameActive (Script.gameState w) = true ->
  Script.currentLevel (Script.gameState w) = Some lvl ->
  Script.targetNumber (Script.gameState w) = Some t ->
  JS.parseInt raw = Some g ->
  min (LEVELS lvl) <= g <= max (LEVELS lvl) ->
  g <> t ->
  maxAttempts (LEVELS lvl) - (Script.attemptsUsed (Script.gameState w) + 1) = 0 ->
  "✗" <> "↑" /\ "✗" <> "↓"
  /\ exists w',
       Script.submitGuess raw w = Normal w'
       /\ Script.isGameActive (Script.gameState w') = false
       /\ Script.attemptsUsed (Script.gameState w') = maxAttempts (LEVELS lvl)
       /\ Script.totalScore (Script.gameState w') = Script.totalScore (Script.gameState w)
       /\ Script.historyChips (Script.document w')
          = (Script.historyChips (Script.document w) ++ [(numToString g ++ " ✗")%string])%list
       /\ Script.timers (Script.document w')
          = (Script.timers (Script.document w) ++ [Script.mkResultCall false 0 false])%list
       /\ Script.feedbackText (Script.document w') = lostMessage t
       /\ Script.feedbackClass (Script.document w') = "feedback-message error".
Proof.
  intros Hw Hwl Hwt Hparse Hrange Hneq Hleft.
  split; [discriminate|]. split; [discriminate|].
  unfold Script.submitGuess.
  set (wt := Script.onDocument (Script.setInputValue raw) w).
  rewrite (script_makeGuess_lost wt lvl Hw Hwl g t Hparse
             (proj2 (inRange_true _ _) Hrange) Hwt Hneq Hleft).
  eexists; split; [reflexivity|]. cbn. repeat split; try reflexivity. lia.
Qed.

(** ** The scenarios of the specification *)

(** Easy level with target 25: 10 is a miss pointing up with nine attempts
    left, 40 a miss pointing down with eight left, 25 wins at the third
    attempt with 15 points, bonus included.  The same in both files. *)
Example scenario_easy_target_25 :
  let w1 := stateOf (Script.submitGuess "10" (scriptGame (31#64) easy)) in
  let w2 := stateOf (Script.submitGuess "40" w1) in
  let w3 := stateOf (Script.submitGuess "25" w2) in
  let s1 := React.submitGuess "10" (reactGame (31#64) easy) in
  let s2 := React.submitGuess "40" s1 in
  let s3 := React.submitGuess "25" s2 in
  Script.targetNumber (Script.gameState w1) = Some 25
  /\ Script.feedbackText (Script.document w1)
     = "Your guess (10) is lower than the number! 9 attempts remaining"
  /\ Script.feedbackClass (Script.document w1) = "feedback-message info"
  /\ Script.feedbackText (Script.document w2)
     = "Your guess (40) is higher than the number! 8 attempts remaining"
  /\ Script.historyChips (Script.document w3) = ["10 ↑"; "40 ↓"; "25 ✓"]
  /\ Script.attemptsUsed (Script.gameState w3) = 3
  /\ Script.totalScore (Script.gameState w3) = 15
  /\ Script.timers (Script.document w3) = [Script.mkResultCall true 15 true]
  /\ Script.isGameActive (Script.gameState w3) = false
  /\ React.feedbackMessage s1
     = React.mkFeedback "Your guess (10) is lower than the number! 9 attempts remaining"
         React.info
  /\ React.feedbackMessage s2
     = React.mkFeedback "Your guess (40) is higher than the number! 8 attempts remaining"
         React.info
  /\ React.guessHistory s3
     = [React.mkItem 10 "↑"; React.mkItem 40 "↓"; React.mkItem 25 "✓"]
  /\ React.attemptsUsed s3 = 3
  /\ React.totalScore s3 = 15
  /\ React.timers s3 = [React.mkResultData true 15 true].
Proof. repeat split; reflexivity. Qed.

(** ** Where the component departs from the script

    The script closes the session in the handler itself, with
    [gameState.isGameActive = false].  The component has no such flag: its
    game screen, with the input, stays up until the timer set by the last
    guess shows the result, and [handleGuess] only asks for a level and a
    target.  A guess submitted before the timer fires is evaluated. *)

(** What does hold in the component: without a level or without a target
    the handler returns at once, as it does before the first game, and off
    the game screen there is nothing to submit with. *)
Lemma react_guess_without_session_is_noop :
  (forall s, React.currentLevel s = None \/ React.targetNumber s = None ->
             React.handleGuess s = s)
  /\ React.handleGuess React.initialState = React.initialState
  /\ (forall s, React.gameScreenShown s = false -> React.step s React.Submit = s).
Proof.
  split; [|split].
  - intros s [H | H]; unfold React.handleGuess; rewrite H;
      [|destruct (React.currentLevel s)]; reflexivity.
  - reflexivity.
  - intros s H. cbn [React.step]. rewrite H. reflexivity.
Qed.

(** No guess closes the session of the component: whatever is submitted
    while guesses are accepted, they are still accepted afterwards. *)
Lemma react_guess_never_closes_session (raw : string) (s : React.State) :
  React.accepting s = true -> React.accepting (React.submitGuess raw s) = true.
Proof.
  intros H. rewrite (react_submitGuess_accepting raw s H).
  apply react_accepting_inv in H as [Hsc [[lvl Hl] [t Ht]]].
  open_state s. unfold React.accepting, React.gameScreenShown, React.handleGuess. cbn.
  destruct (JS.parseInt raw) as [g|]; [|reflexivity].
  destruct ((g <? min (LEVELS lvl)) || (g >? max (LEVELS lvl))); cbn; [reflexivity|].
  destruct (g =? t); cbn; [reflexivity|].
  unfold React.handleIncorrectGuess. cbn.
  destruct (maxAttempts (LEVELS lvl) - (au + 1) =? 0); reflexivity.
Qed.

(** C1 on the component: on the hard level with target 7, five wrong
    guesses use up the five attempts and the game-over line is shown, yet
    guesses are still accepted, and a sixth one before the result screen
    brings the attempts to six.  The script stops at five on the same
    input. *)
Theorem react_attempts_pass_the_budget :
  let played :=
    React.run React.initialState
      [React.Start (1#16) hard;
       React.Change "1"; React.Submit; React.Change "2"; React.Submit;
       React.Change "3"; React.Submit; React.Change "4"; React.Submit;
       React.Change "5"; React.Submit] in
  let after := React.run played [React.Change "6"; React.Submit] in
  let scripted :=
    Script.run initialWorld
      [Script.Start (1#16) hard;
       Script.TypeInput "1"; Script.Guess; Script.TypeInput "2"; Script.Guess;
       Script.TypeInput "3"; Script.Guess; Script.TypeInput "4"; Script.Guess;
       Script.TypeInput "5"; Script.Guess; Script.TypeInput "6"; Script.Guess] in
  React.targetNumber played = Some 7
  /\ maxAttempts (LEVELS hard) = 5
  /\ React.attemptsUsed played = 5
  /\ React.feedbackMessage played
     = React.mkFeedback "❌ Game Over! The number was 7" React.error
  /\ React.accepting played = true
  /\ React.attemptsUsed after = 6
  /\ React.feedbackMessage after
     = React.mkFeedback
         "Your guess (6) is lower than the number! -1 attempts remaining" React.warning
  /\ Script.attemptsUsed (Script.gameState scripted) = 5
  /\ Script.isGameActive (Script.gameState scripted) = false.
Proof. repeat split; reflexivity. Qed.

(** C2 on the component: after a win, and before the result screen, a
    second submission is evaluated: it counts an attempt, adds to the
    history and to the total score.  In the script the same call changes
    nothing. *)
Theorem react_guess_after_win_is_evaluated :
  let won :=
    React.run React.initialState
      [React.Start (1#16) hard; React.Change "7"; React.Submit] in
  let again := React.run won [React.Change "7"; React.Submit] in
  let scripted :=
    Script.run initialWorld
      [Script.Start (1#16) hard; Script.TypeInput "7"; Script.Guess;
       Script.TypeInput "7"] in
  React.feedbackMessage won
  = React.mkFeedback
      "🎉 Correct! You guessed it in 1 attempt! Bonus score earned! 🌟" React.success
  /\ React.attemptsUsed won = 1 /\ React.totalScore won = 15
  /\ React.attemptsUsed again = 2 /\ React.totalScore again = 30
  /\ React.guessHistory again = [React.mkItem 7 "✓"; React.mkItem 7 "✓"]
  /\ Script.isGameActive (Script.gameState scripted) = false
  /\ Script.makeGuess scripted = Normal scripted.
Proof. repeat split; reflexivity. Qed.

(** C4 on the component: the winning guess scores, is recorded and sets
    the timer of the result screen, but the session goes on accepting
    guesses until that timer fires; the script has closed it at once. *)
Theorem react_win_leaves_session_open :
  let won :=
    React.run React.initialState
      [React.Start (1#16) hard; React.Change "7"; React.Submit] in
  let scripted :=
    Script.run initialWorld
      [Script.Start (1#16) hard; Script.TypeInput "7"; Script.Guess] in
  React.totalScore won = 15
  /\ React.guessHistory won = [React.mkItem 7 "✓"]
  /\ React.timers won = [React.mkResultData true 15 true]
  /\ React.accepting won = true
  /\ React.accepting (React.step won React.Timer) = false
  /\ Script.isGameActive (Script.gameState scripted) = false.
Proof. repeat split; reflexivity. Qed.

(** C5 on the component: the guess that uses up the last attempt shows the
    game-over line, records the cross and sets the timer of the result
    screen, but the session goes on accepting guesses, so that the lost game
    can still be won; the script has closed it at once. *)
Theorem react_loss_leaves_session_open :
  let lost :=
    React.run React.initialState
      [React.Start (1#16) hard;
       React.Change "1"; React.Submit; React.Change "2"; React.Submit;
       React.Change "3"; React.Submit; React.Change "4"; React.Submit;
       React.Change "5"; React.Submit] in
  let after := React.run lost [React.Change "7"; React.Submit] in
  let scripted :=
    Script.run initialWorld
      [Script.Start (1#16) hard;
       Script.TypeInput "1"; Script.Guess; Script.TypeInput "2"; Script.Guess;
       Script.TypeInput "3"; Script.Guess; Script.TypeInput "4"; Script.Guess;
       Script.TypeInput "5"; Script.Guess] in
  React.guessHistory lost
  = [React.mkItem 1 "↑"; React.mkItem 2 "↑"; React.mkItem 3 "↑"; React.mkItem 4 "↑";
     React.mkItem 5 "✗"]
  /\ React.timers lost = [React.mkResultData false 0 false]
  /\ React.totalScore lost = 0
  /\ React.accepting lost = true
  /\ React.totalScore after = 10
  /\ React.feedbackMessage after
     = React.mkFeedback "🎉 Correct! You guessed it in 6 attempts!" React.success
  /\ Script.isGameActive (Script.gameState scripted) = false
  /\ Script.historyChips (Script.document scripted) = ["1 ↑"; "2 ↑"; "3 ↑"; "4 ↑"; "5 ✗"].
Proof. repeat split; reflexivity. Qed.

(** ** The page follows the game *)

Ltac open_page p :=
  let w := fresh "w" in
  destruct p as [w [sb1 sb2 sb3] [lb1 lb2 lb3 lb4 lb5 lb6]]; open_world w.

Lemma page_makeGuess_world (p : Page.Page) :
  Page.world (stateOf (Page.makeGuess p)) = stateOf (Script.makeGuess (Page.world p)).
Proof.
  open_page p. unfold Page.makeGuess, Script.makeGuess. cbn.
  destruct act; cbn; [|reflexivity].
  destruct (JS.parseInt iv) as [g|]; [|reflexivity].
  destruct cl as [lvl|]; cbn; [|reflexivity].
  destruct ((g <? min (LEVELS lvl)) || (g >? max (LEVELS lvl))); cbn; [reflexivity|].
  destruct (JS.strictEq g tn); cbn; reflexivity.
Qed.

Lemma page_step_world (p : Page.Page) (e : Script.Event) :
  Page.world (Page.step p e) = Script.step (Page.world p) e.
Proof.
  destruct e; cbn [Page.step Script.step].
  - reflexivity.
  - reflexivity.
  - apply page_makeGuess_world.
  - unfold Page.playAgain, Script.playAgain.
    destruct (Script.currentLevel (Script.gameState (Page.world p))); reflexivity.
  - unfold Page.resetGame, Script.resetGame, Page.playAgain, Script.playAgain.
    destruct confirmed; [|reflexivity].
    destruct (Script.currentLevel (Script.gameState (Page.world p))); reflexivity.
  - reflexivity.
  - destruct confirmed; reflexivity.
  - unfold Page.fireTimer, Script.fireTimer.
    destruct (Script.timers (Script.document (Page.world p))); reflexivity.
Qed.

Lemma page_run_world (es : list Script.Event) (p : Page.Page) :
  Page.world (Page.run p es) = Script.run (Page.world p) es.
Proof.
  revert p. induction es as [|e es IH]; intros p; [reflexivity|].
  cbn [Page.run Script.run fold_left]. 
  change (fold_left Page.step es (Page.step p e)) with (Page.run (Page.step p e) es).
  rewrite IH, page_step_world. reflexivity.
Qed.

Lemma page_makeGuess_current (p : Page.Page) :
  Page.scoreboardCurrent p /\ Page.labelsCurrent p ->
  Page.scoreboardCurrent (stateOf (Page.makeGuess p))
  /\ Page.labelsCurrent (stateOf (Page.makeGuess p)).
Proof.
  unfold Page.scoreboardCurrent, Page.labelsCurrent.
  open_page p. intros [Hs Hl]. unfold Page.makeGuess. cbn.
  destruct act; cbn; [|split; assumption].
  destruct (JS.parseInt iv) as [g|]; [|split; assumption].
  destruct cl as [lvl|]; cbn; [|split; assumption].
  destruct ((g <? min (LEVELS lvl)) || (g >? max (LEVELS lvl))); cbn;
    [split; assumption|].
  destruct Hl as [_ Hl].
  destruct (JS.strictEq g tn); cbn.
  - split; [reflexivity | split; [reflexivity | exact Hl]].
  - unfold Script.handleIncorrectGuess. cbn.
    destruct (maxAttempts (LEVELS lvl) - (au + 1) =? 0); cbn;
      (split; [reflexivity | split; [reflexivity | exact Hl]]).
Qed.

Lemma page_startGame_current (rnd : Q) (lvl : Level) (p : Page.Page) :
  Page.scoreboardCurrent (Page.startGame rnd lvl p)
  /\ Page.labelsCurrent (Page.startGame rnd lvl p).
Proof.
  unfold Page.scoreboardCurrent, Page.labelsCurrent. cbn. repeat split; reflexivity.
Qed.

Lemma page_step_current (p : Page.Page) (e : Script.Event) :
  Page.scoreboardCurrent p /\ Page.labelsCurrent p ->
  Page.scoreboardCurrent (Page.step p e) /\ Page.labelsCurrent (Page.step p e).
Proof.
  intros H. destruct e; cbn [Page.step].
  - apply page_startGame_current.
  - exact H.
  - apply page_makeGuess_current, H.
  - unfold Page.playAgain.
    destruct (Script.currentLevel (Script.gameState (Page.world p)));
      [apply page_startGame_current | exact H].
  - unfold Page.resetGame, Page.playAgain. destruct confirmed; [|exact H].
    destruct (Script.currentLevel (Script.gameState (Page.world p)));
      [apply page_startGame_current | exact H].
  - unfold Page.scoreboardCurrent, Page.labelsCurrent in *. cbn.
    split; [reflexivity | split; [tauto | exact I]].
  - destruct confirmed; [|exact H].
    unfold Page.scoreboardCurrent, Page.labelsCurrent in *. cbn.
    split; [reflexivity | tauto].
  - unfold Page.fireTimer.
    destruct (Script.timers (Script.document (Page.world p))); [exact H|].
    unfold Page.scoreboardCurrent, Page.labelsCurrent in *. cbn.
    split; [reflexivity | tauto].
Qed.

Lemma page_run_current (es : list Script.Event) (p : Page.Page) :
  Page.scoreboardCurrent p /\ Page.labelsCurrent p ->
  Page.scoreboardCurrent (Page.run p es) /\ Page.labelsCurrent (Page.run p es).
Proof.
  revert p. induction es as [|e es IH]; intros p H; [exact H|].
  apply IH, page_step_current, H.
Qed.

(** X1: once a game has been started, the scoreboard and the labels of the
    game screen are never stale: after every run of events the scoreboard
    is what [updateScoreboard] would write for the current [gameState], the
    attempts label shows the attempts used and the range labels the
    configuration of the selected level.  The game state itself moves as in
    the script without these labels. *)
Theorem page_scoreboard_never_stale
  (p : Page.Page) (rnd : Q) (lvl : Level) (es : list Script.Event) :
  let p' := Page.run (Page.startGame rnd lvl p) es in
  Page.world p' = Script.run (Script.startGame rnd lvl (Page.world p)) es
  /\ Page.scoreboard p' = Page.renderScoreboard (Script.gameState (Page.world p'))
  /\ Page.labelsCurrent p'.
Proof.
  intros p'. split; [apply page_run_world|].
  apply page_run_current, page_startGame_current.
Qed.

(** X2: in the DOM script the scoreboard never shows a negative number of
    attempts left: after every run of events that follows a start of a game
    it shows a dash, with no level selected, or a number between zero and
    the budget of the level. *)
Theorem page_attempts_left_never_negative
  (p : Page.Page) (rnd : Q) (lvl0 : Level) (es : list Script.Event) :
  let p' := Page.run (Page.startGame rnd lvl0 p) es in
  match Script.currentLevel (Script.gameState (Page.world p')) with
  | None => Page.attemptsLeftText (Page.scoreboard p') = "-"
  | Some lvl =>
      exists k, 0 <= k <= maxAttempts (LEVELS lvl)
                /\ Page.attemptsLeftText (Page.scoreboard p') = numToString k
  end.
Proof.
  intros p'.
  pose proof (page_run_world es (Page.startGame rnd lvl0 p)) as Hw.
  destruct (page_run_current es _ (page_startGame_current rnd lvl0 p)) as [Hs _].
  change (Page.world (Page.startGame rnd lvl0 p))
    with (Script.startGame rnd lvl0 (Page.world p)) in Hw.
  unfold Page.scoreboardCurrent in Hs. fold p' in Hw, Hs. rewrite Hs.
  pose proof (script_run_bounded es _ (script_startGame_bounded rnd lvl0 (Page.world p)))
    as [H0 Hb].
  rewrite <- Hw in H0, Hb. unfold Page.renderScoreboard. cbn.
  destruct (Script.currentLevel (Script.gameState (Page.world p'))) as [lvl|]; cbn.
  - destruct Hb as [Hle _]. eexists; split; [|reflexivity]. lia.
  - reflexivity.
Qed.

(** ** The score ledger *)






(** ** The target stays *)

Lemma script_makeGuess_keeps_target (w : Script.World) :
  Script.targetNumber (Script.gameState (stateOf (Script.makeGuess w)))
  = Script.targetNumber (Script.gameState w)
  /\ Script.currentLevel (Script.gameState (stateOf (Script.makeGuess w)))
     = Script.currentLevel (Script.gameState w).
Proof.
  open_world w. unfold Script.makeGuess. cbn.
  destruct act; cbn; [|split; reflexivity].
  destruct (JS.parseInt iv) as [g|]; [|split; reflexivity].
  destruct cl as [lvl|]; cbn; [|split; reflexivity].
  destruct ((g <? min (LEVELS lvl)) || (g >? max (LEVELS lvl))); cbn; [split; reflexivity|].
  destruct (JS.strictEq g tn); cbn; [split; reflexivity|].
  unfold Script.handleIncorrectGuess. cbn.
  destruct (maxAttempts (LEVELS lvl) - (au + 1) =? 0); split; reflexivity.
Qed.

Lemma react_handleGuess_keeps_target (s : React.State) :
  React.targetNumber (React.handleGuess s) = React.targetNumber s
  /\ React.currentLevel (React.handleGuess s) = React.currentLevel s.
Proof.
  open_state s. unfold React.handleGuess. cbn.
  destruct cl as [lvl|]; [|split; reflexivity].
  destruct tn as [t|]; [|split; reflexivity].
  destruct (JS.parseInt gi) as [g|]; [|split; reflexivity].
  destruct ((g <? min (LEVELS lvl)) || (g >? max (LEVELS lvl))); cbn; [split; reflexivity|].
  destruct (g =? t); cbn; [split; reflexivity|].
  unfold React.handleIncorrectGuess. cbn.
  destruct (maxAttempts (LEVELS lvl) - (au + 1) =? 0); split; reflexivity.
Qed.

(** X4: the target is drawn when a game starts and at no other time: no
    guess, right or wrong, no typing, timer, score reset or change of level
    alters [targetNumber], and only [changeLevel] of the script, which
    clears it, alters the level besides.  In the script and in the
    component. *)
Theorem target_only_drawn_at_start
  (w : Script.World) (s : React.State) (e : Script.Event) (e' : React.Event) :
  match e with
  | Script.Start _ _ | Script.PlayAgain _ | Script.ResetGame _ _ => True
  | Script.ChangeLevel =>
      Script.targetNumber (Script.gameState (Script.step w e))
      = Script.targetNumber (Script.gameState w)
      /\ Script.currentLevel (Script.gameState (Script.step w e)) = None
  | _ =>
      Script.targetNumber (Script.gameState (Script.step w e))
      = Script.targetNumber (Script.gameState w)
      /\ Script.currentLevel (Script.gameState (Script.step w e))
         = Script.currentLevel (Script.gameState w)
  end
  /\ match e' with
     | React.Start _ _ | React.PlayAgain _ | React.Restart _ _ => True
     | _ =>
         React.targetNumber (React.step s e') = React.targetNumber s
         /\ React.currentLevel (React.step s e') = React.currentLevel s
     end.
Proof.
  split.
  - destruct e; cbn [Script.step]; try exact I; try (split; reflexivity).
    + apply script_makeGuess_keeps_target.
    + destruct confirmed; split; reflexivity.
    + unfold Script.fireTimer. destruct (Script.timers (Script.document w));
        split; reflexivity.
  - destruct e'; cbn [React.step]; try exact I.
    + destruct (React.gameScreenShown s); split; reflexivity.
    + destruct (React.gameScreenShown s);
        [apply react_handleGuess_keeps_target | split; reflexivity].
    + destruct (React.currentScreen s), (React.gameScreenShown s); split; reflexivity.
    + unfold React.fireTimer. destruct (React.timers s); split; reflexivity.
Qed.

(** ** The handler of the script does not throw *)

Lemma script_makeGuess_normal (w : Script.World) :
  scriptBounded w -> exists w', Script.makeGuess w = Normal w'.
Proof.
  unfold scriptBounded. open_world w. intros [_ H]. unfold Script.makeGuess. cbn.
  destruct act; cbn; [|eauto].
  destruct (JS.parseInt iv) as [g|]; [|eauto].
  destruct cl as [lvl|]; [|discriminate H]. cbn.
  destruct ((g <? min (LEVELS lvl)) || (g >? max (LEVELS lvl))); cbn; [eauto|].
  destruct (JS.strictEq g tn); cbn; eauto.
Qed.

(** X5: along every run of events, from the state the script is loaded
    with, [makeGuess] returns normally: wherever it reads the configuration
    of the level, a level is selected, and it keeps the attempts within the
    budget of that level, strictly while the game is active. *)
Theorem script_makeGuess_never_throws
  (doc : Script.Document) (es : list Script.Event) :
  let w := Script.run (Script.mkWorld Script.initialGameState doc) es in
  (exists w', Script.makeGuess w = Normal w')
  /\ 0 <= Script.attemptsUsed (Script.gameState w)
  /\ match Script.currentLevel (Script.gameState w) with
     | Some lvl =>
         Script.attemptsUsed (Script.gameState w) <= maxAttempts (LEVELS lvl)
         /\ (Script.isGameActive (Script.gameState w) = true ->
             Script.attemptsUsed (Script.gameState w) < maxAttempts (LEVELS lvl))
     | None => Script.isGameActive (Script.gameState w) = false
     end.
Proof.
  intros w.
  assert (Hb : scriptBounded w).
  { apply script_run_bounded. unfold scriptBounded. cbn. split; [lia | reflexivity]. }
  split; [apply script_makeGuess_normal, Hb|].
  destruct Hb as [H0 Hb]. split; [exact H0|].
  destruct (Script.currentLevel (Script.gameState w)); [|exact Hb].
  destruct Hb as [Hle Hact]. split; [exact Hle|]. intros Ha. apply (Hact Ha).
Qed.

(** ** Shape of the history *)

Lemma append_assoc (a b c : string) : (a ++ b) ++ c = a ++ b ++ c.
Proof. induction a as [|x a IH]; cbn; congruence. Qed.

Lemma chipHint_suffix (a : string) (c1 c2 c3 : ascii) :
  chipHint (a ++ String c1 (String c2 (String c3 ""))) = String c1 (String c2 (String c3 "")).
Proof.
  induction a as [|x a IH]; [reflexivity|].
  destruct a as [|y [|z a]]; [reflexivity | reflexivity |].
  cbn [String.append] in IH |- *. cbn [chipHint]. 
  destruct a as [|u a]; exact IH.
Qed.

Lemma chipHint_after_space (a : string) (sp c1 c2 c3 : ascii) :
  chipHint (a ++ String sp (String c1 (String c2 (String c3 ""))))
  = String c1 (String c2 (String c3 "")).
Proof.
  change (a ++ String sp (String c1 (String c2 (String c3 ""))))
    with (a ++ (String sp "" ++ String c1 (String c2 (String c3 "")))).
  rewrite <- append_assoc. apply chipHint_suffix.
Qed.

Lemma forallb_snoc {A : Type} (f : A -> bool) (l : list A) (x : A) :
  forallb f (l ++ [x]) = forallb f l && f x.
Proof. rewrite forallb_app. cbn. rewrite andb_true_r. reflexivity. Qed.

Lemma forallb_removelast {A : Type} (f : A -> bool) (l : list A) :
  forallb f l = true -> forallb f (removelast l) = true.
Proof.
  induction l as [|x l IH]; [reflexivity|]. cbn [forallb]. intros H.
  apply andb_true_iff in H as [Hx Hl]. destruct l as [|y l]; [reflexivity|].
  cbn [removelast forallb]. rewrite Hx. apply IH, Hl.
Qed.

Lemma forallb_weaken {A : Type} (f g : A -> bool) (l : list A) :
  (forall x, f x = true -> g x = true) -> forallb f l = true -> forallb g l = true.
Proof.
  intros Hfg. induction l as [|x l IH]; [reflexivity|]. cbn. intros H.
  apply andb_true_iff in H as [Hx Hl]. rewrite (Hfg _ Hx), (IH Hl). reflexivity.
Qed.

Lemma historyShaped_closed (chips : list string) :
  forallb isArrow chips = true ->
  forallb isArrow (removelast chips) = true
  /\ forallb (fun chip => isArrow chip || isVerdict chip) chips = true.
Proof.
  intros H. split; [apply forallb_removelast, H|].
  eapply forallb_weaken; [|exact H]. intros x Hx. rewrite Hx. reflexivity.
Qed.

Lemma script_makeGuess_shaped (w : Script.World) :
  historyShaped w -> historyShaped (stateOf (Script.makeGuess w)).
Proof.
  unfold historyShaped. open_world w. unfold Script.makeGuess. cbn.
  destruct act; cbn; [|tauto]. intros H.
  destruct (JS.parseInt iv) as [g|]; [|exact H].
  destruct cl as [lvl|]; cbn; [|exact H].
  destruct ((g <? min (LEVELS lvl)) || (g >? max (LEVELS lvl))); cbn; [exact H|].
  destruct (JS.strictEq g tn); cbn.
  - rewrite removelast_last, forallb_snoc. split; [exact H|].
    rewrite (proj2 (historyShaped_closed hc H)).
    unfold isVerdict, Script.guessChip. cbn. rewrite chipHint_after_space. cbn.
    apply orb_true_r.
  - unfold Script.handleIncorrectGuess. cbn.
    destruct (maxAttempts (LEVELS lvl) - (au + 1) =? 0); cbn.
    + rewrite removelast_last, forallb_snoc. split; [exact H|].
      rewrite (proj2 (historyShaped_closed hc H)).
      unfold isVerdict, Script.guessChip. cbn. rewrite chipHint_after_space. cbn.
      apply orb_true_r.
    + rewrite forallb_snoc, H. unfold isArrow, Script.guessChip.
      destruct (g <? JS.toNumber tn); cbn; rewrite chipHint_after_space; reflexivity.
Qed.

Lemma script_step_shaped (w : Script.World) (e : Script.Event) :
  historyShaped w -> historyShaped (Script.step w e).
Proof.
  intros H. destruct e; cbn [Script.step].
  - reflexivity.
  - exact H.
  - apply script_makeGuess_shaped, H.
  - unfold Script.playAgain.
    destruct (Script.currentLevel (Script.gameState w)); [reflexivity | exact H].
  - unfold Script.resetGame, Script.playAgain. destruct confirmed; [|exact H].
    destruct (Script.currentLevel (Script.gameState w)); [reflexivity | exact H].
  - unfold historyShaped in *. cbn.
    destruct (Script.isGameActive (Script.gameState w)); [|exact H].
    apply historyShaped_closed, H.
  - destruct confirmed; exact H.
  - unfold Script.fireTimer. destruct (Script.timers (Script.document w)); exact H.
Qed.

Lemma script_run_shaped (es : list Script.Event) (w : Script.World) :
  historyShaped w -> historyShaped (Script.run w es).
Proof.
  revert w. induction es as [|e es IH]; intros w H; [exact H|].
  apply IH, script_step_shaped, H.
Qed.

(** X6: in the DOM script the history of a game reads as a row of arrows,
    closed by at most one check mark or cross: along every run of events
    that follows a start of a game, every chip is an arrow while the game
    is active, and afterwards every chip but the last is an arrow and the
    last one an arrow, a check mark or a cross.  Nothing is appended behind
    a check mark or a cross. *)
Theorem script_history_is_arrows_then_verdict
  (w : Script.World) (rnd : Q) (lvl : Level) (es : list Script.Event) :
  let w' := Script.run (Script.startGame rnd lvl w) es in
  let chips := Script.historyChips (Script.document w') in
  (if Script.isGameActive (Script.gameState w')
   then forallb isArrow chips = true
   else forallb isArrow (removelast chips) = true
        /\ forallb (fun chip => isArrow chip || isVerdict chip) chips = true)
  /\ (forall chip, isArrow chip && isVerdict chip = false).
Proof.
  intros w' chips. split.
  - exact (script_run_shaped es (Script.startGame rnd lvl w) eq_refl).
  - intros chip. unfold isArrow, isVerdict.
    destruct (String.eqb_spec (chipHint chip) "↑") as [-> | _]; [reflexivity|].
    destruct (String.eqb_spec (chipHint chip) "↓") as [-> | _]; reflexivity.
Qed.

(** ** The result screen *)

(** X7: the result screen of a win reports what the win was worth.  When
    the winning guess is the only thing pending and its timer fires, the
    script shows the result screen with the congratulation, the target, the
    attempts used and, behind a plus sign, exactly the points that the
    guess added to the total score; the component renders the same. *)
Theorem result_screen_reports_the_win
  (lvl : Level) (raw : string) (t : Z) (w : Script.World) (s : React.State)
  (Hw : Script.isGameActive (Script.gameState w) = true)
  (Hwl : Script.currentLevel (Script.gameState w) = Some lvl)
  (Hwt : Script.targetNumber (Script.gameState w) = Some t)
  (Hwq : Script.timers (Script.document w) = [])
  (Hs : React.accepting s = true)
  (Hsl : React.currentLevel s = Some lvl)
  (Hst : React.targetNumber s = Some t)
  (Hsq : React.timers s = [])
  (Hparse : JS.parseInt raw = Some t)
  (Hrange : min (LEVELS lvl) <= t <= max (LEVELS lvl)) :
  let w1 := stateOf (Script.submitGuess raw w) in
  let w2 := Script.fireTimer w1 in
  let s1 := React.submitGuess raw s in
  let s2 := React.step s1 React.Timer in
  let earnedW := Script.totalScore (Script.gameState w1) - Script.totalScore (Script.gameState w) in
  let earnedS := React.totalScore s1 - React.totalScore s in
  Script.screen (Script.document w2) = Script.resultScreen
  /\ Script.resultView (Script.document w2)
     = Some (Script.mkResultView "🎉" "Congratulations!"
               (if Script.attemptsUsed (Script.gameState w) + 1 <=? bonusThreshold (LEVELS lvl)
                then "Amazing! You guessed the number quickly and earned a bonus!"
                else "You guessed the number correctly!")
               ("+" ++ numToString earnedW)
               (numToString t)
               (numToString (Script.attemptsUsed (Script.gameState w) + 1)))
  /\ Script.gameState w2 = Script.gameState w1
  /\ Script.timers (Script.document w2) = []
  /\ ReactView.renderResult s2
     = Some (ReactView.mkResultView "🎉" "Congratulations!"
               (if React.attemptsUsed s + 1 <=? bonusThreshold (LEVELS lvl)
                then "Amazing! You guessed quickly!"
                else "You guessed the number correctly!")
               (numToString t)
               (numToString (React.attemptsUsed s + 1))
               ("+" ++ numToString earnedS))
  /\ React.totalScore s2 = React.totalScore s1
  /\ React.timers s2 = [].
Proof.
  intros w1 w2 s1 s2 earnedW earnedS.
  pose proof (script_makeGuess_correct (Script.onDocument (Script.setInputValue raw) w)
                lvl Hw Hwl t Hparse (proj2 (inRange_true _ _) Hrange) Hwt) as HwinW.
  pose proof (react_handleGuess_correct (React.setGuessInput raw s) lvl t Hsl Hst Hparse
                (proj2 (inRange_true _ _) Hrange)) as HwinS.
  cbv zeta in HwinW, HwinS.
  subst earnedW earnedS w2 s2 w1 s1. unfold Script.submitGuess.
  rewrite HwinW, (react_submitGuess_accepting raw s Hs), HwinS. clear HwinW HwinS.
  unfold Script.fireTimer, React.step, React.fireTimer, ReactView.renderResult.
  cbn. rewrite Hwq, Hsq. cbn. unfold scoreFor, bonusFor.
  replace (Script.totalScore (Script.gameState w)
           + (baseScore (LEVELS lvl)
              + (if Script.attemptsUsed (Script.gameState w) + 1 <=? bonusThreshold (LEVELS lvl)
                 then bonusScore (LEVELS lvl) else 0))
           - Script.totalScore (Script.gameState w))
    with (baseScore (LEVELS lvl)
          + (if Script.attemptsUsed (Script.gameState w) + 1 <=? bonusThreshold (LEVELS lvl)
             then bonusScore (LEVELS lvl) else 0)) by lia.
  replace (React.totalScore s
           + (baseScore (LEVELS lvl)
              + (if React.attemptsUsed s + 1 <=? bonusThreshold (LEVELS lvl)
                 then bonusScore (LEVELS lvl) else 0))
           - React.totalScore s)
    with (baseScore (LEVELS lvl)
          + (if React.attemptsUsed s + 1 <=? bonusThreshold (LEVELS lvl)
             then bonusScore (LEVELS lvl) else 0)) by lia.
  repeat split; reflexivity.
Qed.

(** ** Numbers printed and read back *)

Lemma string_of_uint_digits (d : Decimal.uint) :
  allDigits (NilEmpty.string_of_uint d) = true.
Proof. induction d; cbn; auto. Qed.

Lemma decimalFrom_of_uint_acc (d : Decimal.uint) (p : positive) :
  decimalFrom (Z.pos p) (NilEmpty.string_of_uint d) = Z.pos (Pos.of_uint_acc d p).
Proof.
  revert p. induction d; intros p; cbn [NilEmpty.string_of_uint decimalFrom Pos.of_uint_acc];
    [reflexivity | ..]; rewrite <- IHd; f_equal;
    match goal with
    | |- context [Z.of_N (N_of_ascii ?c)] =>
        let v := eval cbv in (Z.of_N (N_of_ascii c)) in
        change (Z.of_N (N_of_ascii c)) with v
    end; lia.
Qed.

Lemma decimalFrom_of_uint (d : Decimal.uint) :
  decimalFrom 0 (NilEmpty.string_of_uint d) = Z.of_N (Pos.of_uint d).
Proof.
  induction d; cbn [NilEmpty.string_of_uint decimalFrom Pos.of_uint];
    [reflexivity | exact IHd | ..];
    match goal with
    | |- decimalFrom ?a _ = _ =>
        let v := eval cbv in a in change a with v
    end; rewrite decimalFrom_of_uint_acc; reflexivity.
Qed.

Lemma parseInt_string_of_uint (sg : Sign) (d : Decimal.uint) :
  JS.parseInt (signText sg ++ NilZero.string_of_uint d)
  = Some (signValue sg * Z.of_uint d).
Proof.
  unfold Z.of_uint. rewrite <- decimalFrom_of_uint.
  destruct d;
    try (rewrite <- (append_empty_r (NilZero.string_of_uint _));
         apply (parseInt_numeral sg _ "");
         [apply string_of_uint_digits | discriminate | left; reflexivity]).
  destruct sg; reflexivity.
Qed.

(** X8: every number the game prints reads back as itself: [parseInt] of
    the text of an integer that a number holds exactly, as the template
    literals of both files render it, is that integer.  So the bounds of the range message, the target of
    the game-over line and the guesses of the history can be typed as
    shown. *)
Theorem printed_number_parses_back (z : Z) (Hexact : Z.abs z < 2 ^ 53) :
  JS.parseInt (numToString z) = Some z.
Proof.
  clear Hexact. unfold numToString. destruct z as [|p|p]; cbn [Z.to_int NilZero.string_of_int].
  - reflexivity.
  - change (NilZero.string_of_uint (Pos.to_uint p))
      with (signText NoSign ++ NilZero.string_of_uint (Pos.to_uint p)).
    rewrite parseInt_string_of_uint. unfold Z.of_uint.
    rewrite DecimalPos.Unsigned.of_to. cbn. reflexivity.
  - change (String "-" (NilZero.string_of_uint (Pos.to_uint p)))
      with (signText Minus ++ NilZero.string_of_uint (Pos.to_uint p)).
    rewrite parseInt_string_of_uint. unfold Z.of_uint.
    rewrite DecimalPos.Unsigned.of_to. cbn. reflexivity.
Qed.

(** ** What [parseInt] overlooks *)

Lemma small_digit_is_decimal (c : ascii) :
  match JS.digitValue c with Some d => d <? 10 | None => false end = isDigit c.
Proof.
  unfold JS.digitValue, isDigit. cbv zeta.
  set (n := Z.of_N (N_of_ascii c)).
  destruct (48 <=? n) eqn:E1, (n <=? 57) eqn:E2; cbn [andb].
  - apply Z.ltb_lt. apply Z.leb_le in E2. lia.
  - apply Z.leb_gt in E2.
    destruct ((97 <=? n) && (n <=? 122)) eqn:E3.
    + apply Z.ltb_ge. apply andb_true_iff in E3 as [E3 _]. apply Z.leb_le in E3. lia.
    + destruct ((65 <=? n) && (n <=? 90)) eqn:E4; [|reflexivity].
      apply Z.ltb_ge. apply andb_true_iff in E4 as [E4 _]. apply Z.leb_le in E4. lia.
  - apply Z.leb_gt in E1.
    assert (E3 : (97 <=? n) && (n <=? 122) = false).
    { apply andb_false_iff. left. apply Z.leb_gt. lia. }
    assert (E4 : (65 <=? n) && (n <=? 90) = false).
    { apply andb_false_iff. left. apply Z.leb_gt. lia. }
    rewrite E3, E4. reflexivity.
  - apply Z.leb_gt in E1. apply Z.leb_gt in E2. lia.
Qed.

Lemma readDigits_started (R : Z) (s : string) (a : Z) :
  exists v, JS.readDigits R s (Some a) = Some v.
Proof.
  revert a. induction s as [|c r IH]; intros a; cbn; [eauto|].
  destruct (JS.digitValue c) as [d|]; [|eauto].
  destruct (d <? R); [apply IH | eauto].
Qed.

Lemma readDigits_stops (tail : string) (acc : option Z) :
  stopsDecimal tail = true -> JS.readDigits 10 tail acc = acc.
Proof.
  destruct tail as [|c r]; [reflexivity|]. cbn. intros H.
  pose proof (small_digit_is_decimal c) as Hc. apply negb_true_iff in H. rewrite H in Hc.
  destruct (JS.digitValue c) as [d|]; [rewrite Hc|]; reflexivity.
Qed.

Lemma readDigits_decimal (int tail : string) (acc : option Z) :
  allDigits int = true -> stopsDecimal tail = true ->
  JS.readDigits 10 (int ++ tail) acc =
  match int with
  | EmptyString => acc
  | _ => Some (decimalFrom (match acc with Some a => a | None => 0 end) int)
  end.
Proof.
  intros Hd Ht. revert acc Hd. induction int as [|c r IH]; intros acc Hd.
  - apply readDigits_stops, Ht.
  - cbn in Hd. apply andb_true_iff in Hd as [Hc Hr].
    destruct (digitValue_digit c Hc) as [Hv Hb].
    cbn [String.append JS.readDigits]. rewrite Hv.
    replace (Z.of_N (N_of_ascii c) - 48 <? 10) with true by (symmetry; apply Z.ltb_lt; lia).
    rewrite (IH _ Hr). cbn [decimalFrom]. destruct r; reflexivity.
Qed.

Lemma stripPrefix_other (c : ascii) (r : string) :
  c <> "0"%char -> JS.stripPrefix (String c r) = (10, String c r).
Proof.
  intros H. destruct c as [[] [] [] [] [] [] [] []]; try reflexivity. congruence.
Qed.

Lemma stripPrefix_zero (x : ascii) (r : string) :
  x <> "x"%char -> x <> "X"%char ->
  JS.stripPrefix (String "0" (String x r)) = (10, String "0" (String x r)).
Proof.
  intros H1 H2. destruct x as [[] [] [] [] [] [] [] []]; try reflexivity; congruence.
Qed.

Lemma digit_is_no_mark (c : ascii) :
  isDigit c = true -> c <> "x"%char /\ c <> "X"%char.
Proof. intros H. split; intros ->; discriminate H. Qed.

Lemma stripPrefix_stops (int tail : string) :
  allDigits int = true -> int <> "" ->
  stopsDecimal tail = true -> noHexMark int tail = true ->
  JS.stripPrefix (int ++ tail) = (10, int ++ tail).
Proof.
  intros Hd Hne Ht Hm. destruct int as [|c r]; [congruence|].
  destruct (Ascii.ascii_dec c "0") as [-> | Hc]; [|apply stripPrefix_other, Hc].
  destruct r as [|c2 r2].
  - destruct tail as [|x t]; [reflexivity|]. cbn [String.append].
    apply stripPrefix_zero; intros ->; discriminate Hm.
  - cbn in Hd. apply andb_true_iff in Hd as [Hc2 _].
    cbn [String.append]. apply stripPrefix_zero; apply (digit_is_no_mark c2 Hc2).
Qed.

Lemma trimStart_spaces (ws s : string) :
  allSpaces ws = true -> JS.trimStart (ws ++ s) = JS.trimStart s.
Proof.
  induction ws as [|c r IH]; [reflexivity|]. cbn [allSpaces]. intros H.
  apply andb_true_iff in H as [Hc Hr].
  cbn [String.append JS.trimStart]. rewrite Hc. apply IH, Hr.
Qed.

(** White space in front and anything behind the digits is overlooked,
    unless the digits are a single zero with an [x] behind it. *)
Lemma parseInt_leading_numeral (ws : string) (sg : Sign) (int tail : string) :
  allSpaces ws = true ->
  allDigits int = true -> int <> "" ->
  stopsDecimal tail = true -> noHexMark int tail = true ->
  JS.parseInt (ws ++ signText sg ++ int ++ tail) = Some (signValue sg * decimalValue int).
Proof.
  intros Hws Hint Hsome Htail Hmark.
  unfold JS.parseInt. rewrite (trimStart_spaces ws _ Hws).
  destruct int as [|c r] eqn:Eint; [congruence|]. rewrite <- Eint in *.
  assert (Hc : isDigit c = true).
  { rewrite Eint in Hint. cbn in Hint. apply andb_true_iff in Hint. tauto. }
  replace (signText sg ++ int ++ tail) with (signText sg ++ String c (r ++ tail))
    by (rewrite Eint; reflexivity).
  rewrite (trimStart_signed sg c _ Hc).
  replace (String c (r ++ tail)) with (int ++ tail) by (rewrite Eint; reflexivity).
  rewrite (stripPrefix_stops int tail Hint Hsome Htail Hmark).
  rewrite (readDigits_decimal int tail None Hint Htail). rewrite Eint. reflexivity.
Qed.

(** ** What the number input hands over *)

Lemma pointFirst_other (c : ascii) (r : string) :
  c <> "-"%char -> c <> "."%char -> pointFirst (String c r) = false.
Proof.
  intros H1 H2. destruct c as [[] [] [] [] [] [] [] []]; try reflexivity; congruence.
Qed.

Lemma pointFirst_minus_other (c : ascii) (r : string) :
  c <> "."%char -> pointFirst (String "-" (String c r)) = false.
Proof.
  intros H. destruct c as [[] [] [] [] [] [] [] []]; try reflexivity. congruence.
Qed.

Lemma digit_is_no_sign (c : ascii) :
  isDigit c = true -> c <> "-"%char /\ c <> "."%char.
Proof. intros H. split; intros ->; discriminate H. Qed.

Lemma space_is_no_start (c : ascii) :
  JS.isSpace1 c = true -> c <> "-"%char /\ c <> "."%char /\ isDigit c = false.
Proof.
  intros H. repeat split; try (intros ->; discriminate H).
  destruct c as [[] [] [] [] [] [] [] []]; try reflexivity; discriminate H.
Qed.

(** A text is no valid number unless it begins with a minus, a point or a
    digit. *)
Lemma validFloat_bad_start (c : ascii) (r : string) :
  c <> "-"%char -> c <> "."%char -> isDigit c = false ->
  NumberInput.validFloat (String c r) = false.
Proof.
  intros H1 H2 H3.
  destruct c as [[] [] [] [] [] [] [] []];
    try reflexivity; try discriminate H3; congruence.
Qed.

Lemma validFloat_minus_bad_start (c : ascii) (r : string) :
  c <> "."%char -> isDigit c = false ->
  NumberInput.validFloat (String "-" (String c r)) = false.
Proof.
  intros H2 H3.
  destruct c as [[] [] [] [] [] [] [] []];
    try reflexivity; try discriminate H3; congruence.
Qed.

Lemma skipDigits_digits (int : string) :
  allDigits int = true -> NumberInput.skipDigits int = "".
Proof.
  induction int as [|c r IH]; [reflexivity|]. cbn. intros H.
  apply andb_true_iff in H as [Hc Hr]. rewrite Hc. apply IH, Hr.
Qed.

Lemma validFloat_whole (sg : Sign) (int : string) :
  sg <> Plus -> allDigits int = true -> int <> "" ->
  NumberInput.validFloat (signText sg ++ int) = true.
Proof.
  intros Hsg Hint Hsome. destruct int as [|c r]; [congruence|].
  pose proof Hint as Hd. cbn in Hd. apply andb_true_iff in Hd as [Hc _].
  pose proof (skipDigits_digits _ Hint) as Hskip.
  apply isDigit_cases in Hc. cbn in Hc.
  destruct sg; [| |congruence];
    repeat (destruct Hc as [<- | Hc];
            [unfold NumberInput.validFloat; cbn [signText String.append];
             rewrite Hskip; reflexivity |]);
    contradiction.
Qed.

Lemma validFloat_hexadecimal (sg : Sign) (m : HexMark) (hs : string) :
  NumberInput.validFloat (signText sg ++ hexMarkText m ++ hs) = false.
Proof. destruct sg, m; reflexivity. Qed.

Lemma digit_start_parses (sg : Sign) (c : ascii) (r : string) :
  isDigit c = true ->
  (c = "0"%char ->
   match r with String x _ => x <> "x"%char /\ x <> "X"%char | EmptyString => True end) ->
  exists g, JS.parseInt (signText sg ++ String c r) = Some g.
Proof.
  intros Hc Hmark. unfold JS.parseInt. rewrite (trimStart_signed sg c r Hc).
  assert (Hpre : JS.stripPrefix (String c r) = (10, String c r)).
  { destruct (Ascii.ascii_dec c "0") as [-> | Hz]; [|apply stripPrefix_other, Hz].
    destruct r as [|x r']; [reflexivity|].
    destruct (Hmark eq_refl) as [H1 H2]. apply stripPrefix_zero; assumption. }
  rewrite Hpre. destruct (digitValue_digit c Hc) as [Hv Hb].
  cbn [JS.readDigits]. rewrite Hv.
  replace (Z.of_N (N_of_ascii c) - 48 <? 10) with true by (symmetry; apply Z.ltb_lt; lia).
  destruct (readDigits_started 10 r (10 * 0 + (Z.of_N (N_of_ascii c) - 48))) as [v ->].
  eauto.
Qed.

Lemma validFloat_no_hex_mark (x : ascii) (r : string) :
  (x = "x" \/ x = "X")%char ->
  NumberInput.validFloat (String "0" (String x r)) = false
  /\ NumberInput.validFloat (String "-" (String "0" (String x r))) = false.
Proof. intros [-> | ->]; split; reflexivity. Qed.

(** A valid number either has no digit before its point, and is not read,
    or is read. *)
Lemma validFloat_parse (text : string) :
  NumberInput.validFloat text = true ->
  (pointFirst text = true /\ JS.parseInt text = None)
  \/ (pointFirst text = false /\ exists g, JS.parseInt text = Some g).
Proof.
  intros Hv. destruct text as [|c r]; [discriminate Hv|].
  assert (Hmark : forall sg' d r',
            (NumberInput.validFloat (String d r') = true
             \/ NumberInput.validFloat (String "-" (String d r')) = true) ->
            isDigit d = true ->
            exists g, JS.parseInt (signText sg' ++ String d r') = Some g).
  { intros sg' d r' Hvalid Hd. apply digit_start_parses; [exact Hd|].
    intros ->. destruct r' as [|x r'']; [exact I|].
    split; intros ->.
    - destruct (validFloat_no_hex_mark "x" r'' (or_introl eq_refl)) as [E1 E2].
      destruct Hvalid as [Hvalid | Hvalid]; congruence.
    - destruct (validFloat_no_hex_mark "X" r'' (or_intror eq_refl)) as [E1 E2].
      destruct Hvalid as [Hvalid | Hvalid]; congruence. }
  destruct (Ascii.ascii_dec c "-") as [-> | Hm].
  - destruct r as [|c2 r2]; [discriminate Hv|].
    destruct (Ascii.ascii_dec c2 ".") as [-> | Hp].
    + left. split; [reflexivity | apply (parseInt_point_first Minus r2)].
    + destruct (isDigit c2) eqn:Hd.
      * right. split; [apply pointFirst_minus_other, Hp|].
        apply (Hmark Minus c2 r2); [right; exact Hv | exact Hd].
      * rewrite (validFloat_minus_bad_start c2 r2 Hp Hd) in Hv. discriminate Hv.
  - destruct (Ascii.ascii_dec c ".") as [-> | Hp].
    + left. split; [reflexivity | apply (parseInt_point_first NoSign r)].
    + destruct (isDigit c) eqn:Hd.
      * right. split; [apply pointFirst_other; assumption|].
        apply (Hmark NoSign c r); [left; exact Hv | exact Hd].
      * rewrite (validFloat_bad_start c r Hm Hp Hd) in Hv. discriminate Hv.
Qed.

(** A value that is read is never answered as not a number. *)
Lemma react_parsed_is_not_invalid (raw : string) (g : Z) (s : React.State) :
  React.accepting s = true ->
  JS.parseInt raw = Some g ->
  React.feedbackMessage (React.submitGuess raw s)
  <> React.mkFeedback "Please enter a valid number!" React.error.
Proof.
  intros Hs Hparse. rewrite (react_submitGuess_accepting raw s Hs).
  destruct (react_accepting_inv s Hs) as [_ [[lvl Hl] [t Ht]]].
  open_state s. unfold React.handleGuess. cbn. rewrite Hparse.
  destruct ((g <? min (LEVELS lvl)) || (g >? max (LEVELS lvl))); cbn; [discriminate|].
  destruct (g =? t); cbn.
  - destruct (au + 1 <=? bonusThreshold (LEVELS lvl)); cbn; discriminate.
  - unfold React.handleIncorrectGuess. cbn.
    destruct (maxAttempts (LEVELS lvl) - (au + 1) =? 0); cbn; [discriminate|].
    destruct (maxAttempts (LEVELS lvl) - (au + 1) <=? 2); cbn; discriminate.
Qed.
(** A number as printed reads back as itself. *)
Lemma parseInt_printed (z : Z) : JS.parseInt (numToString z) = Some z.
Proof.
  unfold numToString. destruct z as [|p|p]; cbn [Z.to_int NilZero.string_of_int].
  - reflexivity.
  - change (NilZero.string_of_uint (Pos.to_uint p))
      with (signText NoSign ++ NilZero.string_of_uint (Pos.to_uint p)).
    rewrite parseInt_string_of_uint. unfold Z.of_uint.
    rewrite DecimalPos.Unsigned.of_to. cbn. reflexivity.
  - change (String "-" (NilZero.string_of_uint (Pos.to_uint p)))
      with (signText Minus ++ NilZero.string_of_uint (Pos.to_uint p)).
    rewrite parseInt_string_of_uint. unfold Z.of_uint.
    rewrite DecimalPos.Unsigned.of_to. cbn. reflexivity.
Qed.

Lemma isHexDigit_value (c : ascii) :
  isHexDigit c = true ->
  exists d, JS.digitValue c = Some d /\ (d <? 16) = true.
Proof.
  unfold isHexDigit. destruct (JS.digitValue c) as [d|]; [eauto | discriminate].
Qed.

Lemma readDigits_hex (hs : string) (acc : option Z) :
  allHex hs = true ->
  JS.readDigits 16 hs acc =
  match hs with
  | EmptyString => acc
  | _ => Some (hexFrom (match acc with Some a => a | None => 0 end) hs)
  end.
Proof.
  revert acc. induction hs as [|c r IH]; intros acc Hh; [reflexivity|].
  cbn in Hh. apply andb_true_iff in Hh as [Hc Hr].
  destruct (isHexDigit_value c Hc) as [d [Hv Hlt]].
  cbn [JS.readDigits hexFrom]. rewrite Hv, Hlt, (IH _ Hr). destruct r; reflexivity.
Qed.

(** ** What the handlers make of the value of the input *)

(** X9: a guess is read up to the first character that is no digit.  When
    the value of the input is white space, an optional sign, digits and
    then text that does not go on with a digit (and the digits are not a
    single zero with an [x] behind it), [parseInt] reads what it reads in
    sign and digits alone, which below 2^53 is their signed value, and
    [makeGuess] of the DOM script handles the value exactly as it handles
    sign and digits alone.  The number input of the component holds such a
    text only when it is a valid number, which has no white space in front
    and no plus sign; its sign and digits alone are then a valid number as
    well, and [handleGuess] treats the value as it treats them: an exponent
    is cut off like a fraction. *)
Theorem guess_is_read_up_to_first_non_digit
  (ws : string) (sg : Sign) (int tail : string) (w : Script.World) (s : React.State)
  (Hws : allSpaces ws = true)
  (Hint : allDigits int = true) (Hsome : int <> "")
  (Htail : stopsDecimal tail = true)
  (Hmark : noHexMark int tail = true) :
  let text := ws ++ signText sg ++ int ++ tail in
  let whole := signText sg ++ int in
  JS.parseInt text = JS.parseInt whole
  /\ (decimalValue int < 2 ^ 53 ->
      JS.parseInt text = Some (signValue sg * decimalValue int))
  /\ scriptForgetInput (stateOf (Script.submitGuess text w))
     = scriptForgetInput (stateOf (Script.submitGuess whole w))
  /\ (NumberInput.validFloat text = true ->
      ws = "" /\ sg <> Plus
      /\ NumberInput.validFloat whole = true
      /\ reactForgetInput (React.submitGuess text s)
         = reactForgetInput (React.submitGuess whole s)).
Proof.
  intros text whole.
  assert (Htext : JS.parseInt text = Some (signValue sg * decimalValue int))
    by (apply parseInt_leading_numeral; assumption).
  assert (Hwhole : JS.parseInt whole = Some (signValue sg * decimalValue int)).
  { subst whole. rewrite <- (append_empty_r int) at 1.
    apply (parseInt_leading_numeral "" sg int ""); try assumption; try reflexivity.
    destruct int as [|c [|c2 r]]; try reflexivity;
      destruct c as [[] [] [] [] [] [] [] []]; reflexivity. }
  split; [congruence|]. split; [intros _; exact Htext|].
  split; [apply script_submitGuess_by_parse; congruence|].
  intros Hvalid.
  assert (Hno : ws = "").
  { destruct ws as [|c r]; [reflexivity|]. exfalso.
    cbn in Hws. apply andb_true_iff in Hws as [Hc _].
    destruct (space_is_no_start c Hc) as [H1 [H2 H3]].
    subst text. cbn [String.append] in Hvalid.
    rewrite (validFloat_bad_start c _ H1 H2 H3) in Hvalid. discriminate Hvalid. }
  subst ws. cbn [String.append] in text.
  assert (Hsg : sg <> Plus).
  { intros ->. subst text. cbn [signText String.append] in Hvalid.
    rewrite validFloat_bad_start in Hvalid; try discriminate; reflexivity. }
  split; [reflexivity|]. split; [exact Hsg|].
  split; [exact (validFloat_whole sg int Hsg Hint Hsome)|].
  apply react_submitGuess_by_parse. congruence.
Qed.

(** X10: a hexadecimal value is read in radix 16.  [parseInt] is called
    without a radix, so that an optional sign, [0x] or [0X] and hexadecimal
    digits are read as a number in radix 16: where #guessInput hands such a
    value to [makeGuess], the DOM script handles it exactly as it handles the
    decimal text of that number.  For the number input of the component
    such a text is no valid number: [handleGuess] is never handed it. *)
Theorem hexadecimal_value_is_read_in_radix_16
  (sg : Sign) (m : HexMark) (hs : string) (w : Script.World)
  (Hhex : allHex hs = true) (Hsome : hs <> "")
  (Hexact : hexValue hs < 2 ^ 53) :
  let text := signText sg ++ hexMarkText m ++ hs in
  let v := signValue sg * hexValue hs in
  JS.parseInt text = Some v
  /\ scriptForgetInput (stateOf (Script.submitGuess text w))
     = scriptForgetInput (stateOf (Script.submitGuess (numToString v) w))
  /\ NumberInput.holds text = false.
Proof.
  intros text v. clear Hexact.
  assert (Htext : JS.parseInt text = Some v).
  { subst text v. unfold JS.parseInt.
    assert (Hstrip : JS.stripSign (JS.trimStart (signText sg ++ hexMarkText m ++ hs))
                     = (signValue sg, hexMarkText m ++ hs)).
    { destruct m; apply (trimStart_signed sg "0"); reflexivity. }
    rewrite Hstrip.
    assert (Hpre : JS.stripPrefix (hexMarkText m ++ hs) = (16, hs))
      by (destruct m; reflexivity).
    rewrite Hpre, (readDigits_hex hs None Hhex).
    destruct hs; [congruence | reflexivity]. }
  split; [exact Htext|].
  split; [apply script_submitGuess_by_parse; rewrite Htext; symmetry; apply parseInt_printed|].
  unfold NumberInput.holds. subst text. rewrite validFloat_hexadecimal.
  destruct sg, m; reflexivity.
Qed.

(** X11: what the component refuses as not a number.  Its input is of type
    number and holds the empty value or a valid number.  With the game
    screen up and a target set, [handleGuess] answers "Please enter a valid
    number!" exactly when the value is empty or has no digit before its
    point; it then changes nothing else.  Every other value that the input
    can hold is read as a number. *)
Theorem component_refuses_exactly_non_numbers
  (value : string) (s : React.State)
  (Hs : React.accepting s = true)
  (Hvalue : NumberInput.holds value = true) :
  let refused := React.mkFeedback "Please enter a valid number!" React.error in
  (React.feedbackMessage (React.submitGuess value s) = refused
   <-> value = "" \/ pointFirst value = true)
  /\ (value = "" \/ pointFirst value = true ->
      React.submitGuess value s
      = React.setFeedbackMessage refused (React.setGuessInput value s))
  /\ (value <> "" -> pointFirst value = false ->
      exists g, JS.parseInt value = Some g).
Proof.
  intros refused.
  assert (Hinvalid : JS.parseInt value = None ->
            React.submitGuess value s
            = React.setFeedbackMessage refused (React.setGuessInput value s)).
  { intros Hnone. rewrite (react_submitGuess_accepting value s Hs).
    destruct (react_accepting_inv s Hs) as [_ [[lvl Hl] [t Ht]]].
    apply (react_handleGuess_invalid (React.setGuessInput value s) lvl t Hl Ht).
    exact Hnone. }
  unfold NumberInput.holds in Hvalue. apply orb_true_iff in Hvalue as [Hempty | Hvalid].
  - apply String.eqb_eq in Hempty. subst value.
    split; [|split].
    + rewrite (Hinvalid eq_refl). split; [intros _; left|]; reflexivity.
    + intros _. exact (Hinvalid eq_refl).
    + intros H. congruence.
  - destruct (validFloat_parse value Hvalid) as [[Hpoint Hnone] | [Hpoint [g Hsome]]].
    + split; [|split].
      * rewrite (Hinvalid Hnone). split; [intros _; right; exact Hpoint | reflexivity].
      * intros _. exact (Hinvalid Hnone).
      * intros _ H. congruence.
    + assert (Hne : value <> "") by (intros ->; discriminate Hvalid).
      split; [|split].
      * split.
        -- intros Hfb. exfalso.
           exact (react_parsed_is_not_invalid value g s Hs Hsome Hfb).
        -- intros [H | H]; congruence.
      * intros [H | H]; congruence.
      * intros _ _. exists g. exact Hsome.
Qed.

(** ** A restart does not cancel the result *)

(** X12: the timer that a finished game has set is not cancelled by a
    restart.  When the player restarts while it is pending, it fires into
    the new game: the script shows the result screen, filled with the target
    of the new game and its zero attempts, while that game is active; the
    component stores the old result, leaves the game screen, so that the new
    game accepts no guess, and renders the new target on the result
    screen. *)
Theorem pending_result_fires_into_new_game
  (w : Script.World) (s : React.State) (rnd : Q) (lvl : Level)
  (call : Script.ResultCall) (rest : list Script.ResultCall)
  (data : React.ResultData) (rest' : list React.ResultData)
  (Hwl : Script.currentLevel (Script.gameState w) = Some lvl)
  (Hwq : Script.timers (Script.document w) = call :: rest)
  (Hsc : React.currentScreen s = React.game)
  (Hsl : React.currentLevel s = Some lvl)
  (Hsq : React.timers s = data :: rest') :
  let t := getRandomNumber rnd (min (LEVELS lvl)) (max (LEVELS lvl)) in
  let w' := Script.run w [Script.ResetGame true rnd; Script.Timer] in
  let s' := React.run s [React.Restart true rnd; React.Timer] in
  Script.screen (Script.document w') = Script.resultScreen
  /\ Script.isGameActive (Script.gameState w') = true
  /\ Script.targetNumber (Script.gameState w') = Some t
  /\ (exists view,
        Script.resultView (Script.document w') = Some view
        /\ Script.targetNumberText view = numToString t
        /\ Script.finalAttemptsText view = numToString 0)
  /\ React.currentScreen s' = React.result
  /\ React.accepting s' = false
  /\ React.targetNumber s' = Some t
  /\ React.resultData s' = data
  /\ (exists view,
        ReactView.renderResult s' = Some view
        /\ ReactView.targetNumberText view = numToString t
        /\ ReactView.attemptsUsedText view = numToString 0).
Proof.
  intros t w' s'. subst w' s'.
  unfold Script.run, React.run. cbn [fold_left Script.step React.step].
  unfold Script.resetGame, Script.playAgain. rewrite Hwl, Hsc, Hsl. cbn [stateOf].
  unfold Script.fireTimer, React.fireTimer.
  assert (Hq1 : Script.timers (Script.document (Script.startGame rnd lvl w)) = call :: rest)
    by exact Hwq.
  assert (Hq2 : React.timers (React.startGame rnd lvl s) = data :: rest') by exact Hsq.
  rewrite Hq1, Hq2. clear Hq1 Hq2.
  unfold React.accepting, React.gameScreenShown, ReactView.renderResult.
  destruct call as [[] sc b]; cbn; repeat split; try reflexivity;
    eexists; (split; [reflexivity | split; reflexivity]).
Qed.

(** ** The draw of the target, with the product rounded *)

(** Rounding to 53 bits moves a number by at most half a unit of its last
    kept bit, and not at all when no bit is dropped. *)
Lemma round53_cases (x : Z) :
  0 <= x ->
  let k := Z.log2 x - 52 in
  (k <= 0 /\ Double.round53 x = x)
  \/ (0 < k
      /\ 2 ^ (k + 52) <= x
      /\ ((Double.round53 x = x / 2 ^ k * 2 ^ k /\ 2 * (x mod 2 ^ k) <= 2 ^ k)
          \/ (Double.round53 x = (x / 2 ^ k + 1) * 2 ^ k /\ 2 ^ k <= 2 * (x mod 2 ^ k)))).
Proof.
  intros Hx k. unfold Double.round53. fold k. cbv zeta.
  destruct (k <=? 0) eqn:Ek.
  - left. apply Z.leb_le in Ek. split; [exact Ek | reflexivity].
  - right. apply Z.leb_gt in Ek. split; [exact Ek|].
    assert (Hpos : 0 < x).
    { destruct (Z.eq_dec x 0) as [-> | Hne]; [cbn in k; lia | lia]. }
    split.
    { replace (k + 52) with (Z.log2 x) by (subst k; lia).
      apply Z.log2_spec, Hpos. }
    assert (Hk : 2 ^ k = 2 * 2 ^ (k - 1)).
    { rewrite <- Z.pow_succ_r by lia. f_equal. lia. }
    destruct (x mod 2 ^ k <? 2 ^ (k - 1)) eqn:E1.
    + left. apply Z.ltb_lt in E1. split; [reflexivity | lia].
    + apply Z.ltb_ge in E1.
      destruct (2 ^ (k - 1) <? x mod 2 ^ k) eqn:E2.
      * right. split; [reflexivity | lia].
      * apply Z.ltb_ge in E2.
        destruct (Z.even (x / 2 ^ k)).
        -- left. split; [reflexivity | lia].
        -- right. split; [reflexivity | lia].
Qed.

(** Bounds that are multiples of a power of two not below the last kept
    bit survive the rounding. *)
Lemma round53_between (x a j : Z) :
  0 <= x -> 0 <= j -> Z.log2 x - 52 <= j ->
  a * 2 ^ j <= x < (a + 1) * 2 ^ j ->
  a * 2 ^ j <= Double.round53 x <= (a + 1) * 2 ^ j.
Proof.
  intros Hx Hj Hk Hin.
  destruct (round53_cases x Hx) as [[_ ->] | [Hpos [_ Hcase]]]; [lia|].
  set (k := Z.log2 x - 52) in *.
  assert (Hp : 0 < 2 ^ k) by (apply Z.pow_pos_nonneg; lia).
  assert (Hsplit : 2 ^ j = 2 ^ (j - k) * 2 ^ k).
  { rewrite <- Z.pow_add_r by lia. f_equal. lia. }
  assert (Hq : 0 < 2 ^ (j - k)) by (apply Z.pow_pos_nonneg; lia).
  pose proof (Z.div_mod x (2 ^ k) ltac:(lia)) as Hdm.
  pose proof (Z.mod_pos_bound x (2 ^ k) Hp) as Hm.
  set (q := x / 2 ^ k) in *. set (r := x mod 2 ^ k) in *.
  set (P := 2 ^ k) in *. set (M := 2 ^ (j - k)) in *.
  rewrite Hsplit in *.
  assert (Hlow : a * M <= q) by nia.
  assert (Hhigh : q < (a + 1) * M) by nia.
  destruct Hcase as [[-> _] | [-> _]]; nia.
Qed.

Lemma round53_below (x n B : Z) :
  0 <= x -> 0 < n -> x < 2 ^ 53 * n -> x <= (B - 1) * n ->
  Double.round53 x < B * n.
Proof.
  intros Hx Hn Hlt Hle.
  destruct (round53_cases x Hx) as [[_ ->] | [Hpos [Hbig Hcase]]]; [lia|].
  set (k := Z.log2 x - 52) in *.
  assert (Hp : 0 < 2 ^ k) by (apply Z.pow_pos_nonneg; lia).
  pose proof (Z.div_mod x (2 ^ k) ltac:(lia)) as Hdm.
  pose proof (Z.mod_pos_bound x (2 ^ k) Hp) as Hm.
  assert (Hs : 2 ^ (k + 52) = 2 ^ k * 2 ^ 52) by (apply Z.pow_add_r; lia).
  set (q := x / 2 ^ k) in *. set (r := x mod 2 ^ k) in *. set (P := 2 ^ k) in *.
  assert (H53 : 2 ^ 53 = 2 * 2 ^ 52) by reflexivity.
  set (T := 2 ^ 52) in *.
  assert (HT : 0 < T) by (subst T; reflexivity).
  assert (Hhalf : P < 2 * n) by nia.
  destruct Hcase as [[-> _] | [-> Hr]]; nia.
Qed.

Lemma toQ_floor (r : Double.Random) (n : Z) :
  0 <= Double.exponent r ->
  Qfloor (Double.toQ r * inject_Z n) = Double.mantissa r * n / 2 ^ Double.exponent r.
Proof.
  intros He. unfold Double.toQ, Qfloor, Qmult, inject_Z. cbn.
  rewrite Pos.mul_1_r, Z2Pos.id by (apply Z.pow_pos_nonneg; lia). reflexivity.
Qed.

(** X13: the draw as the code computes it, with the product rounded to a
    double.  For every double of [0, 1) that [Math.random()] can answer and
    every range of integers that doubles hold exactly, the number drawn lies
    within the range; it is the number that the exact product gives or the
    one above it, and the same number when the product needs no rounding.
    So the draw with the exact product errs by at most one, upwards, and
    every draw of the code is the exact draw of some rational of [0, 1). *)
Theorem rounded_draw_is_exact_or_next
  (r : Double.Random) (lo hi : Z)
  (Hr : Double.isRandom r = true)
  (Hlo : - 2 ^ 53 < lo) (Hle : lo <= hi) (Hhi : hi < 2 ^ 53)
  (Hn : hi - lo + 1 < 2 ^ 53) :
  let exact := getRandomNumber (Double.toQ r) lo hi in
  let drawn := Double.getRandomNumber r lo hi in
  lo <= drawn <= hi
  /\ lo <= exact <= hi
  /\ (drawn = exact \/ drawn = exact + 1)
  /\ (Double.mantissa r * (hi - lo + 1) < 2 ^ 53 -> drawn = exact)
  /\ (exists rnd : Q,
        (0 <= rnd)%Q /\ (rnd < 1)%Q /\ getRandomNumber rnd lo hi = drawn).
Proof.
  intros exact drawn.
  unfold Double.isRandom in Hr.
  apply andb_true_iff in Hr as [Hr He2]. apply andb_true_iff in Hr as [Hr He1].
  apply andb_true_iff in Hr as [Hr Hm3]. apply andb_true_iff in Hr as [Hm1 Hm2].
  apply Z.leb_le in Hm1, He1, He2. apply Z.ltb_lt in Hm2, Hm3.
  set (m := Double.mantissa r) in *. set (e := Double.exponent r) in *.
  set (n := hi - lo + 1) in *.
  assert (Hn0 : 0 < n) by (subst n; lia).
  assert (Hx : 0 <= m * n) by nia.
  assert (Hp : 0 < 2 ^ e) by (apply Z.pow_pos_nonneg; lia).
  assert (Hexact : exact = m * n / 2 ^ e + lo).
  { subst exact. unfold getRandomNumber. fold n. rewrite toQ_floor by (fold e; lia).
    reflexivity. }
  assert (Hdrawn : drawn = Double.round53 (m * n) / 2 ^ e + lo) by reflexivity.
  set (a := m * n / 2 ^ e) in *.
  assert (Ha : a * 2 ^ e <= m * n < (a + 1) * 2 ^ e).
  { pose proof (Z.div_mod (m * n) (2 ^ e) ltac:(lia)) as Hdm.
    pose proof (Z.mod_pos_bound (m * n) (2 ^ e) Hp) as Hmod. fold a in Hdm. nia. }
  assert (Hlog : Z.log2 (m * n) - 52 <= e).
  { destruct (Z.eq_dec (m * n) 0) as [-> | Hne]; [cbn; lia|].
    assert (Hlt : m * n < 2 ^ (e + 53)).
    { rewrite Z.pow_add_r by lia. set (P := 2 ^ 53) in *. set (E := 2 ^ e) in *. nia. }
    apply Z.log2_lt_pow2 in Hlt; lia. }
  pose proof (round53_between (m * n) a e Hx He1 Hlog Ha) as Hbetween.
  assert (Hbelow : Double.round53 (m * n) < 2 ^ e * n).
  { apply round53_below; try assumption.
    - set (P := 2 ^ 53) in *. nia.
    - set (E := 2 ^ e) in *. nia. }
  assert (Hround0 : 0 <= Double.round53 (m * n)).
  { assert (0 <= a) by (subst a; apply Z.div_pos; lia). nia. }
  set (b := Double.round53 (m * n) / 2 ^ e) in *.
  assert (Hb : b * 2 ^ e <= Double.round53 (m * n) < (b + 1) * 2 ^ e).
  { pose proof (Z.div_mod (Double.round53 (m * n)) (2 ^ e) ltac:(lia)) as Hdm.
    pose proof (Z.mod_pos_bound (Double.round53 (m * n)) (2 ^ e) Hp) as Hmod.
    fold b in Hdm. nia. }
  assert (Hab : a <= b <= a + 1) by nia.
  assert (Hbn : 0 <= b < n) by nia.
  assert (Han : 0 <= a < n) by nia.
  split; [lia|]. split; [lia|]. split; [lia|]. split.
  - intros Hsmall. fold m in Hsmall.
    assert (Hsame : Double.round53 (m * n) = m * n).
    { unfold Double.round53.
      destruct (Z.eq_dec (m * n) 0) as [-> | Hne]; [reflexivity|].
      apply Z.log2_lt_pow2 in Hsmall; [|lia].
      replace (Z.log2 (m * n) - 52 <=? 0) with true by (symmetry; apply Z.leb_le; lia).
      reflexivity. }
    subst b. rewrite Hsame in Hdrawn. fold a in Hdrawn. lia.
  - exists (Qmake b (Z.to_pos n)).
    assert (Hpn : Z.pos (Z.to_pos n) = n) by (apply Z2Pos.id; lia).
    split; [unfold Qle; cbn; lia|]. split; [unfold Qlt; cbn; lia|].
    unfold getRandomNumber, Qfloor, Qmult, inject_Z. cbn. fold n.
    rewrite Pos.mul_1_r, Hpn, Z.div_mul by lia. lia.
Qed.

(** ** The theme of the DOM script *)

(** X14: the theme switch alternates and is remembered.  From a dark or a
    light page, [toggleTheme] changes to the other of the two, writes it to
    the [data-theme] attribute and under the key "theme" of the storage and
    leaves the other keys alone; a second toggle brings the first theme
    back, and a page opened later on the same storage starts, through
    [initTheme], with the theme last chosen. *)
Theorem theme_alternates_and_is_remembered
  (e : Theme.Env) (key : string)
  (Hknown : Theme.themeOf e = "dark" \/ Theme.themeOf e = "light") :
  let e1 := Theme.toggleTheme e in
  let e2 := Theme.toggleTheme e1 in
  Theme.themeOf e1 <> Theme.themeOf e
  /\ (Theme.themeOf e1 = "dark" \/ Theme.themeOf e1 = "light")
  /\ Theme.dataTheme e1 = Some (Theme.themeOf e1)
  /\ Theme.getItem "theme" (Theme.localStorage e1) = Some (Theme.themeOf e1)
  /\ Theme.getItem key (Theme.localStorage e1)
     = (if String.eqb key "theme" then Some (Theme.themeOf e1)
        else Theme.getItem key (Theme.localStorage e))
  /\ Theme.themeOf e2 = Theme.themeOf e
  /\ Theme.themeOf (Theme.reload e1) = Theme.themeOf e1
  /\ Theme.themeOf (Theme.reload e2) = Theme.themeOf e.
Proof.
  intros e1 e2. subst e1 e2.
  unfold Theme.reload, Theme.initTheme, Theme.toggleTheme, Theme.themeOf in *.
  cbn [Theme.dataTheme Theme.localStorage]. unfold Theme.getItem, Theme.setItem.
  destruct Hknown as [-> | ->]; cbn; repeat split; try discriminate; auto.
Qed.

(** Without that, the first toggle of a page whose attribute is neither
    makes it dark. *)
Lemma theme_unknown_becomes_dark (e : Theme.Env) :
  Theme.themeOf e <> "dark" -> Theme.themeOf (Theme.toggleTheme e) = "dark".
Proof.
  unfold Theme.toggleTheme, Theme.themeOf. cbn [Theme.dataTheme].
  intros H. apply String.eqb_neq in H. rewrite H. reflexivity.
Qed.

(** ** Leaving a game *)

(** Changing level.  In the script [changeLevel] closes the session and
    forgets the level: the level screen is shown, the scoreboard keeps the
    total score and shows a dash for level and attempts left, and a guess
    submitted afterwards changes nothing.  The button of the component only
    calls [setCurrentScreen('level')]: level, target and attempts are kept,
    its scoreboard goes on showing them, and the input is gone, so that no
    guess is accepted. *)
Lemma change_level_closes_the_game (p : Page.Page) (s : React.State) :
  let p' := Page.changeLevel p in
  let s' := React.setCurrentScreen React.level s in
  Script.screen (Script.document (Page.world p')) = Script.levelScreen
  /\ Script.isGameActive (Script.gameState (Page.world p')) = false
  /\ Script.currentLevel (Script.gameState (Page.world p')) = None
  /\ Page.scoreboard p'
     = Page.mkScoreboard
         (numToString (Script.totalScore (Script.gameState (Page.world p)))) "-" "-"
  /\ Page.step p' Script.Guess = p'
  /\ ReactView.renderScoreboard s' = ReactView.renderScoreboard s
  /\ React.accepting s' = false
  /\ React.step s' React.Submit = s'.
Proof.
  intros p' s'. subst p' s'. repeat split; reflexivity.
Qed.

(** ** The input box after a guess *)

Lemma script_makeGuess_input (w : Script.World) :
  Script.inputValue (Script.document (stateOf (Script.makeGuess w)))
  = if scriptCounts w then "" else Script.inputValue (Script.document w).
Proof.
  open_world w. unfold scriptCounts, Script.makeGuess. cbn.
  destruct act; cbn; [|reflexivity].
  destruct (JS.parseInt iv) as [g|]; [|destruct cl; reflexivity].
  destruct cl as [lvl|]; cbn; [|reflexivity]. unfold inRange.
  destruct ((g <? min (LEVELS lvl)) || (g >? max (LEVELS lvl))); cbn; [reflexivity|].
  destruct (JS.strictEq g tn); cbn; [reflexivity|].
  unfold Script.handleIncorrectGuess. cbn.
  destruct (maxAttempts (LEVELS lvl) - (au + 1) =? 0); reflexivity.
Qed.

Lemma react_handleGuess_input (s : React.State) :
  React.guessInput (React.handleGuess s)
  = if reactCounts s then "" else React.guessInput s.
Proof.
  open_state s. unfold reactCounts, React.handleGuess. cbn.
  destruct cl as [lvl|]; [|reflexivity].
  destruct tn as [t|]; [|reflexivity].
  destruct (JS.parseInt gi) as [g|]; [|reflexivity]. unfold inRange.
  destruct ((g <? min (LEVELS lvl)) || (g >? max (LEVELS lvl))); cbn; [reflexivity|].
  destruct (g =? t); cbn; [reflexivity|].
  unfold React.handleIncorrectGuess. cbn.
  destruct (maxAttempts (LEVELS lvl) - (au + 1) =? 0); reflexivity.
Qed.

(** X15: the input box is emptied exactly when the guess was counted: after
    a guess that parsed within the range of an open session the box is
    empty, and after any other submission, refused as not a number or as
    out of range or made while no game is on, the text is still there to be
    corrected.  In the script and in the component. *)
Theorem input_is_cleared_only_when_counted (w : Script.World) (s : React.State) :
  Script.inputValue (Script.document (stateOf (Script.makeGuess w)))
  = (if scriptCounts w then "" else Script.inputValue (Script.document w))
  /\ React.guessInput (React.handleGuess s)
     = (if reactCounts s then "" else React.guessInput s).
Proof. split; [apply script_makeGuess_input | apply react_handleGuess_input]. Qed.

(** ** The result screen of a loss *)

(** X16: the result screen of a loss.  When the guess that uses up the last
    attempt is the only thing pending and its timer fires, the script shows
    the result screen with "Game Over", the target, the attempts used, which
    are the budget of the level, and "+0", and the total score is what it
    was before the guess; the component renders the same. *)
Theorem result_screen_reports_the_loss
  (lvl : Level) (raw : string) (g t : Z) (w : Script.World) (s : React.State)
  (Hw : Script.isGameActive (Script.gameState w) = true)
  (Hwl : Script.currentLevel (Script.gameState w) = Some lvl)
  (Hwt : Script.targetNumber (Script.gameState w) = Some t)
  (Hwq : Script.timers (Script.document w) = [])
  (Hwlast : Script.attemptsUsed (Script.gameState w) + 1 = maxAttempts (LEVELS lvl))
  (Hs : React.accepting s = true)
  (Hsl : React.currentLevel s = Some lvl)
  (Hst : React.targetNumber s = Some t)
  (Hsq : React.timers s = [])
  (Hslast : React.attemptsUsed s + 1 = maxAttempts (LEVELS lvl))
  (Hparse : JS.parseInt raw = Some g)
  (Hrange : min (LEVELS lvl) <= g <= max (LEVELS lvl))
  (Hwrong : g <> t) :
  let w2 := Script.fireTimer (stateOf (Script.submitGuess raw w)) in
  let s2 := React.step (React.submitGuess raw s) React.Timer in
  Script.screen (Script.document w2) = Script.resultScreen
  /\ Script.resultView (Script.document w2)
     = Some (Script.mkResultView "😢" "Game Over"
               "Don't give up! Try again to improve your score."
               "+0" (numToString t) (numToString (maxAttempts (LEVELS lvl))))
  /\ Script.totalScore (Script.gameState w2) = Script.totalScore (Script.gameState w)
  /\ Script.isGameActive (Script.gameState w2) = false
  /\ ReactView.renderResult s2
     = Some (ReactView.mkResultView "😢" "Game Over" "Don't give up! Try again."
               (numToString t) (numToString (maxAttempts (LEVELS lvl))) "+0")
  /\ React.totalScore s2 = React.totalScore s.
Proof.
  intros w2 s2.
  pose proof (script_makeGuess_lost (Script.onDocument (Script.setInputValue raw) w)
                lvl Hw Hwl g t Hparse (proj2 (inRange_true _ _) Hrange) Hwt Hwrong) as HW.
  pose proof (react_handleGuess_lost (React.setGuessInput raw s) lvl t Hsl Hst g Hparse
                (proj2 (inRange_true _ _) Hrange) Hwrong) as HS.
  subst w2 s2. unfold Script.submitGuess.
  rewrite HW by (cbn; lia). rewrite (react_submitGuess_accepting raw s Hs).
  rewrite HS by (cbn; lia). clear HW HS.
  unfold Script.fireTimer, React.step, React.fireTimer, ReactView.renderResult.
  cbn. rewrite Hwq, Hsq, Hwlast, Hslast. cbn. repeat split; reflexivity.
Qed.

(** ** Instances *)

(** A win at the first attempt on the easy level with target 26. *)
Lemma result_screen_reports_the_win_witness :
  JS.parseInt "26" = Some 26
  /\ Script.targetNumber (Script.gameState (scriptGame (1#2) easy)) = Some 26
  /\ Script.screen
       (Script.document
          (Script.fireTimer (stateOf (Script.submitGuess "26" (scriptGame (1#2) easy)))))
     = Script.resultScreen
  /\ React.timers (React.step (React.submitGuess "26" (reactGame (1#2) easy)) React.Timer)
     = [].
Proof.
  split; [reflexivity|]. split; [reflexivity|].
  assert (Hrange : min (LEVELS easy) <= 26 <= max (LEVELS easy)) by (cbn; lia).
  destruct (result_screen_reports_the_win easy "26" 26
              (scriptGame (1#2) easy) (reactGame (1#2) easy)
              eq_refl eq_refl eq_refl eq_refl eq_refl eq_refl eq_refl eq_refl eq_refl
              Hrange)
    as [Hscreen [_ [_ [_ [_ [_ Htimers]]]]]].
  split; [exact Hscreen | exact Htimers].
Defined.

(** The fifth wrong guess on the hard level with target 7. *)
Lemma result_screen_reports_the_loss_witness :
  let w :=
    Script.run initialWorld
      [Script.Start (1#16) hard;
       Script.TypeInput "1"; Script.Guess; Script.TypeInput "2"; Script.Guess;
       Script.TypeInput "3"; Script.Guess; Script.TypeInput "4"; Script.Guess] in
  let s :=
    React.run React.initialState
      [React.Start (1#16) hard;
       React.Change "1"; React.Submit; React.Change "2"; React.Submit;
       React.Change "3"; React.Submit; React.Change "4"; React.Submit] in
  Script.attemptsUsed (Script.gameState w) + 1 = maxAttempts (LEVELS hard)
  /\ JS.parseInt "5" = Some 5
  /\ Script.screen (Script.document (Script.fireTimer (stateOf (Script.submitGuess "5" w))))
     = Script.resultScreen
  /\ React.totalScore (React.step (React.submitGuess "5" s) React.Timer)
     = React.totalScore s.
Proof.
  intros w s. split; [reflexivity|]. split; [reflexivity|].
  assert (Hrange : min (LEVELS hard) <= 5 <= max (LEVELS hard)) by (cbn; lia).
  assert (Hwrong : 5 <> 7) by lia.
  destruct (result_screen_reports_the_loss hard "5" 5 7 w s
              eq_refl eq_refl eq_refl eq_refl eq_refl eq_refl eq_refl eq_refl eq_refl
              eq_refl eq_refl Hrange Hwrong)
    as [Hscreen [_ [_ [_ [_ Hscore]]]]].
  split; [exact Hscreen | exact Hscore].
Defined.

(** The upper bound of the hard level. *)
Lemma printed_number_parses_back_witness :
  Z.abs 100 < 2 ^ 53 /\ numToString 100 = "100" /\ JS.parseInt (numToString 100) = Some 100.
Proof.
  assert (H : Z.abs 100 < 2 ^ 53) by (cbn; lia).
  split; [exact H|]. split; [reflexivity|].
  exact (printed_number_parses_back 100 H).
Defined.

(** " 42abc" is the guess 42 for the DOM script and no value of a number
    input; "1e3" is one, and the guess 1 for the component. *)
Lemma guess_is_read_up_to_first_non_digit_witness :
  let w := scriptGame (1#2) easy in
  let s := reactGame (1#2) easy in
  allSpaces " " = true /\ allDigits "42" = true /\ stopsDecimal "abc" = true
  /\ noHexMark "42" "abc" = true
  /\ JS.parseInt " 42abc" = Some 42
  /\ Script.historyChips (Script.document (stateOf (Script.submitGuess " 42abc" w)))
     = ["42 ↓"]
  /\ NumberInput.validFloat " 42abc" = false
  /\ stopsDecimal "e3" = true /\ noHexMark "1" "e3" = true
  /\ NumberInput.validFloat "1e3" = true
  /\ React.guessHistory (React.submitGuess "1e3" s) = [React.mkItem 1 "↑"].
Proof.
  intros w s.
  assert (H42 : "42" <> "") by discriminate.
  assert (H1 : "1" <> "") by discriminate.
  assert (Hexact : decimalValue "42" < 2 ^ 53) by reflexivity.
  destruct (guess_is_read_up_to_first_non_digit " " NoSign "42" "abc" w s
              eq_refl eq_refl H42 eq_refl eq_refl)
    as [_ [Hvalue [Hscript _]]].
  destruct (guess_is_read_up_to_first_non_digit "" NoSign "1" "e3" w s
              eq_refl eq_refl H1 eq_refl eq_refl)
    as [_ [_ [_ Hcut]]].
  do 4 (split; [reflexivity|]).
  split; [exact (Hvalue Hexact)|].
  split.
  { change (Script.historyChips (Script.document
              (scriptForgetInput (stateOf (Script.submitGuess " 42abc" w)))) = ["42 ↓"]).
    cbn [signText String.append] in Hscript. rewrite Hscript. reflexivity. }
  do 4 (split; [reflexivity|]).
  destruct (Hcut eq_refl) as [_ [_ [_ Hsame]]].
  change (React.guessHistory (reactForgetInput (React.submitGuess "1e3" s))
          = [React.mkItem 1 "↑"]).
  cbn [signText String.append] in Hsame. rewrite Hsame. reflexivity.
Defined.

(** "0x1F" as the value of #guessInput in a fresh game on the easy level
    is the guess 31; it is no value of a number input. *)
Lemma hexadecimal_value_is_read_in_radix_16_witness :
  let w := scriptGame (1#2) easy in
  allHex "1F" = true /\ hexValue "1F" = 31
  /\ JS.parseInt "0x1F" = Some 31
  /\ Script.historyChips (Script.document (stateOf (Script.submitGuess "0x1F" w)))
     = ["31 ↓"]
  /\ NumberInput.holds "0x1F" = false.
Proof.
  intros w.
  assert (Hsome : "1F" <> "") by discriminate.
  assert (Hexact : hexValue "1F" < 2 ^ 53) by reflexivity.
  destruct (hexadecimal_value_is_read_in_radix_16 NoSign LowerX "1F" w
              eq_refl Hsome Hexact)
    as [Hparse [Hscript Hnone]].
  split; [reflexivity|]. split; [reflexivity|]. split; [exact Hparse|].
  split; [|exact Hnone].
  change (Script.historyChips (Script.document
            (scriptForgetInput (stateOf (Script.submitGuess "0x1F" w)))) = ["31 ↓"]).
  cbn [signText hexMarkText String.append] in Hscript. rewrite Hscript. reflexivity.
Defined.

(** The empty box and ".5" in a fresh game on the easy level are refused;
    "1e3" is read. *)
Lemma component_refuses_exactly_non_numbers_witness :
  let s := reactGame (1#2) easy in
  React.accepting s = true
  /\ NumberInput.holds "" = true /\ NumberInput.holds ".5" = true
  /\ NumberInput.holds "1e3" = true
  /\ React.feedbackMessage (React.submitGuess "" s)
     = React.mkFeedback "Please enter a valid number!" React.error
  /\ React.feedbackMessage (React.submitGuess ".5" s)
     = React.mkFeedback "Please enter a valid number!" React.error
  /\ React.feedbackMessage (React.submitGuess "1e3" s)
     <> React.mkFeedback "Please enter a valid number!" React.error.
Proof.
  intros s. do 4 (split; [reflexivity|]).
  destruct (component_refuses_exactly_non_numbers "" s eq_refl eq_refl) as [[_ Hempty] _].
  destruct (component_refuses_exactly_non_numbers ".5" s eq_refl eq_refl) as [[_ Hpoint] _].
  destruct (component_refuses_exactly_non_numbers "1e3" s eq_refl eq_refl) as [[Hread _] _].
  split; [exact (Hempty (or_introl eq_refl))|].
  split; [exact (Hpoint (or_intror eq_refl))|].
  intros H. destruct (Hread H) as [H0 | H0]; discriminate H0.
Defined.

(** A restart on the hard level right after a win. *)
Lemma pending_result_fires_into_new_game_witness :
  let w :=
    Script.run initialWorld
      [Script.Start (1#16) hard; Script.TypeInput "7"; Script.Guess] in
  let s :=
    React.run React.initialState
      [React.Start (1#16) hard; React.Change "7"; React.Submit] in
  Script.timers (Script.document w) = [Script.mkResultCall true 15 true]
  /\ React.timers s = [React.mkResultData true 15 true]
  /\ Script.isGameActive
       (Script.gameState (Script.run w [Script.ResetGame true (1#2); Script.Timer])) = true
  /\ Script.screen
       (Script.document (Script.run w [Script.ResetGame true (1#2); Script.Timer]))
     = Script.resultScreen
  /\ React.accepting (React.run s [React.Restart true (1#2); React.Timer]) = false.
Proof.
  intros w s. split; [reflexivity|]. split; [reflexivity|].
  destruct (pending_result_fires_into_new_game w s (1#2) hard
              (Script.mkResultCall true 15 true) [] (React.mkResultData true 15 true) []
              eq_refl eq_refl eq_refl eq_refl eq_refl)
    as [Hscreen [Hactive [_ [_ [_ [Hacc _]]]]]].
  split; [exact Hactive|]. split; [exact Hscreen | exact Hacc].
Defined.

(** The double 0.48 on the easy level: the product 23.99999999999999911
    rounds to 24, and the code draws 25 where the exact product gives 24.
    For one half nothing is rounded and both give 26. *)
Lemma rounded_draw_is_exact_or_next_witness :
  let r := Double.mkRandom 8646911284551352 54 in
  let h := Double.mkRandom 1 1 in
  Double.isRandom r = true
  /\ (Double.toQ r < 48 # 100)%Q
  /\ Double.getRandomNumber r 1 50 = 25
  /\ getRandomNumber (Double.toQ r) 1 50 = 24
  /\ 1 <= Double.getRandomNumber r 1 50 <= 50
  /\ Double.isRandom h = true
  /\ Double.mantissa h * (50 - 1 + 1) < 2 ^ 53
  /\ Double.getRandomNumber h 1 50 = getRandomNumber (Double.toQ h) 1 50.
Proof.
  intros r h.
  split; [reflexivity|]. split; [reflexivity|].
  split; [reflexivity|]. split; [reflexivity|].
  assert (H1 : - 2 ^ 53 < 1) by reflexivity.
  assert (H2 : 1 <= 50) by (intro H; discriminate H).
  assert (H3 : 50 < 2 ^ 53) by reflexivity.
  assert (H4 : 50 - 1 + 1 < 2 ^ 53) by reflexivity.
  destruct (rounded_draw_is_exact_or_next r 1 50 eq_refl H1 H2 H3 H4) as [Hrange _].
  split; [exact Hrange|]. split; [reflexivity|].
  assert (Hsmall : Double.mantissa h * (50 - 1 + 1) < 2 ^ 53) by reflexivity.
  split; [exact Hsmall|].
  destruct (rounded_draw_is_exact_or_next h 1 50 eq_refl H1 H2 H3 H4)
    as [_ [_ [_ [Hsame _]]]].
  exact (Hsame Hsmall).
Defined.

(** A page without attribute and with an empty storage is dark. *)
Lemma theme_alternates_and_is_remembered_witness :
  let e := Theme.mkEnv None (fun _ => None) in
  Theme.themeOf e = "dark"
  /\ Theme.themeOf (Theme.toggleTheme e) = "light"
  /\ Theme.themeOf (Theme.reload (Theme.toggleTheme e)) = "light".
Proof.
  intros e. split; [reflexivity|].
  destruct (theme_alternates_and_is_remembered e "theme" (or_introl eq_refl))
    as [_ [_ [_ [_ [_ [_ [Hreload _]]]]]]].
  split; [reflexivity | exact Hreload].
Defined.
